(** * cat_gender_detector: the curation pipeline, embedded and verified

    A shallow embedding of the labelling pipeline of the repository
    (src/training/etl): the mapping from classifier output to class ids,
    the conversion of detector boxes to label lines, the per-post
    orchestration with its ledger of processed texts, the batched
    ingestion loop and the train/val/test split; of the post sources, the
    choice of the submissions a Reddit batch handles and the grouping of
    Telegram messages into posts.

    Conventions.
    - A Python [str] is a [string]; file paths are taken to be ASCII, so the
      regular expression class [\d] is the ten characters 0 to 9.
    - A Python [int] is a [Z]; [//] and [%] are [Z.div] and [Z.modulo]
      (both round towards minus infinity, the sign of [%] follows the
      divisor, as in Python).
    - A call that may raise returns a [result]; an exception that no
      handler catches is the [Raise] branch.
    - Detector geometry is exact rational arithmetic ([Q]): the values are
      the exact quotients that the binary64 results of the source round.
      What is stated about them is when the conversion raises, which
      operands go into which quotient (a difference that rounding cannot
      close), and bounds by 0 and 1 (rounding is monotone and keeps 0 and
      1), not the last bit of a value.  The split counts
      [int(len * 0.7)], where rounding decides the result, are modelled
      bit for bit in [Module Binary64] and compared there with the
      primitive binary64 numbers of the prover.
    - Writing a label file succeeds (its directory is created first);
      appending to the exceptions log fails when the directory of the log
      is missing, which the world records in [log_dir]; [time.sleep]
      raises on a negative length; [print] and the progress bar are not
      modelled. *)

From Stdlib Require Import ZArith QArith Qround String Ascii List Bool Lia Permutation.
From Stdlib Require Import PrimFloat FloatOps SpecFloat Uint63.
From Stdlib Require Import Lqa Sorted.
From stdpp Require Import base strings gmap.

Import ListNotations.
Local Open Scope string_scope.
Local Open Scope Z_scope.

(** ** Exceptions and results *)

Inductive exn : Type :=
| IndexError          (* list index out of range *)
| KeyError
| ValueError (msg : string)
| ZeroDivisionError
| RemoteError (msg : string)   (* transport or decoding failure of a remote call *)
| OSError (msg : string).

Inductive result (A : Type) : Type :=
| Ok (a : A)
| Raise (e : exn).
Arguments Ok {A} a.
Arguments Raise {A} e.

(** ** Python strings *)

Module PyStr.

(** [s.startswith(p)] *)
Fixpoint startswith (p s : string) : bool :=
  match p with
  | EmptyString => true
  | String a p' =>
      match s with
      | EmptyString => false
      | String b s' => if Ascii.eqb a b then startswith p' s' else false
      end
  end.

(** [sub in s] for two strings *)
Fixpoint contains (sub s : string) : bool :=
  startswith sub s ||
  match s with
  | EmptyString => false
  | String _ s' => contains sub s'
  end.

(** [s[n:]] *)
Fixpoint drop (n : nat) (s : string) : string :=
  match n, s with
  | O, _ => s
  | S _, EmptyString => EmptyString
  | S n', String _ s' => drop n' s'
  end.

(** [s.replace(old, new)] for a non-empty [old]: every occurrence, left to
    right, without overlap.  The recursion is on [fuel], one unit per
    character consumed; [replace] gives it the length of [s]. *)
Fixpoint replace_from (fuel : nat) (old new s : string) : string :=
  match fuel with
  | O => s
  | S fuel' =>
      match s with
      | EmptyString => EmptyString
      | String c s' =>
          if startswith old s
          then new ++ replace_from fuel' old new (drop (String.length old) s)
          else String c (replace_from fuel' old new s')
      end
  end.

Definition replace (old new s : string) : string :=
  match old with
  | EmptyString => s      (* not used by the pipeline: both patterns are literals *)
  | _ => replace_from (String.length s) old new s
  end.

Definition is_digit (c : ascii) : bool :=
  let n := nat_of_ascii c in (48 <=? n)%nat && (n <=? 57)%nat.

(** skip the longest run of digits at the head of [s] *)
Fixpoint skip_digits (s : string) : string :=
  match s with
  | String c s' => if is_digit c then skip_digits s' else s
  | EmptyString => EmptyString
  end.

(** [re.sub(r'_\d+', '', s)]: an underscore followed by at least one digit
    is removed together with the whole run of digits; scanning resumes
    after the match. *)
Fixpoint sub_underscore_digits_from (fuel : nat) (s : string) : string :=
  match fuel with
  | O => s
  | S fuel' =>
      match s with
      | EmptyString => EmptyString
      | String c s' =>
          match s' with
          | String d _ =>
              if Ascii.eqb c "_" && is_digit d
              then sub_underscore_digits_from fuel' (skip_digits s')
              else String c (sub_underscore_digits_from fuel' s')
          | EmptyString => s
          end
      end
  end.

Definition sub_underscore_digits (s : string) : string :=
  sub_underscore_digits_from (String.length s) s.

(** [s.split('/')] *)
Fixpoint split_slash_acc (cur : string) (s : string) : list string :=
  match s with
  | EmptyString => [cur]
  | String c s' =>
      if Ascii.eqb c "/" then cur :: split_slash_acc EmptyString s'
      else split_slash_acc (cur ++ String c EmptyString) s'
  end.

Definition split_slash (s : string) : list string := split_slash_acc EmptyString s.

(** [Path(p).name]: the last component of the path; pathlib drops empty
    components and single dots when it parses. *)
Definition path_name (p : string) : string :=
  let parts :=
    List.filter (fun c => negb (String.eqb c "" || String.eqb c ".")) (split_slash p) in
  List.last parts "".

(** index of the last dot of [s], scanning from position [i] *)
Fixpoint rfind_dot_from (i : nat) (s : string) : option nat :=
  match s with
  | EmptyString => None
  | String c s' =>
      match rfind_dot_from (S i) s' with
      | Some j => Some j
      | None => if Ascii.eqb c "." then Some i else None
      end
  end.

Fixpoint take (n : nat) (s : string) : string :=
  match n, s with
  | O, _ => EmptyString
  | S _, EmptyString => EmptyString
  | S n', String c s' => String c (take n' s')
  end.

(** [Path(p).stem]: the name without its last suffix; a leading or a
    trailing dot does not start a suffix. *)
Definition path_stem (p : string) : string :=
  let name := path_name p in
  match rfind_dot_from 0 name with
  | Some i =>
      if (0 <? i)%nat && (i <? String.length name - 1)%nat then take i name else name
  | None => name
  end.

End PyStr.

(** ** training_description_classifier.py *)

Module DescriptionClassifier.

(** [self.class_names_mapping], in insertion order *)
Definition class_names_mapping : list (string * Z) :=
  [("MALE CAT", 0); ("FEMALE CAT", 1); ("OTHER", 2)].

Definition MALE : Z := 0.
Definition FEMALE : Z := 1.
Definition OTHER : Z := 2.

Definition keys (d : list (string * Z)) : list string := map fst d.

(** [k in d] *)
Definition dict_contains (k : string) (d : list (string * Z)) : bool :=
  existsb (String.eqb k) (keys d).

(** [d[k]] *)
Fixpoint dict_get (d : list (string * Z)) (k : string) : result Z :=
  match d with
  | [] => Raise KeyError
  | (k', v) :: d' => if String.eqb k k' then Ok v else dict_get d' k
  end.

(** the list comprehension of [get_class_id] *)
Definition actual_class_names (class_name_candidate : string) : list string :=
  List.filter (fun name => PyStr.contains name class_name_candidate) (keys class_names_mapping).

Definition get_class_id (class_name_candidate : string) : result Z :=
  if negb (dict_contains class_name_candidate class_names_mapping) then
    let actual := actual_class_names class_name_candidate in
    if (1 <? length actual)%nat then dict_get class_names_mapping "OTHER"
    else
      match actual with
      | [] => Raise IndexError                       (* actual_class_names[0] *)
      | name :: _ => dict_get class_names_mapping name
      end
  else dict_get class_names_mapping class_name_candidate.

End DescriptionClassifier.

(** ** The world the pipeline runs in *)

(** One line of a label file: [<class_id> <cx> <cy> <w> <h>] *)
Record label_line : Type := {
  ll_class : Z;
  ll_center_x : Q;
  ll_center_y : Q;
  ll_width : Q;
  ll_height : Q
}.

(** One row of the classification log *)
Record ClassificationRecord : Type := {
  text_path : string;
  class_name : string;
  timestamp : string
}.

(** Calls that leave the process, in the order they are made *)
Inductive event : Type :=
| EvGetPostsBatch (group_id : string) (posts_to_parse offset : Z)
| EvSleep (seconds : Q)
| EvClassify (text : string).

Record world : Type := {
  labels : gmap string (list label_line);  (* the labels directory: path to lines *)
  exceptions_log : list string;            (* lines of EXCEPTIONS_FILE_NAME *)
  classes_log : list ClassificationRecord; (* self.classes_log *)
  trace : list event;
  log_dir : bool                           (* the directory of EXCEPTIONS_FILE_NAME exists *)
}.

Definition set_labels (f : gmap string (list label_line) -> gmap string (list label_line))
    (w : world) : world :=
  {| labels := f (labels w); exceptions_log := exceptions_log w;
     classes_log := classes_log w; trace := trace w; log_dir := log_dir w |}.

(** the world after a line was appended to EXCEPTIONS_FILE_NAME; the
    directory of the file exists then *)
Definition log_exception (line : string) (w : world) : world :=
  {| labels := labels w; exceptions_log := exceptions_log w ++ [line];
     classes_log := classes_log w; trace := trace w; log_dir := true |}.

Definition log_class (r : ClassificationRecord) (w : world) : world :=
  {| labels := labels w; exceptions_log := exceptions_log w;
     classes_log := classes_log w ++ [r]; trace := trace w; log_dir := log_dir w |}.

Definition emit (ev : event) (w : world) : world :=
  {| labels := labels w; exceptions_log := exceptions_log w;
     classes_log := classes_log w; trace := trace w ++ [ev]; log_dir := log_dir w |}.

(** the world after the events [evs], in order *)
Definition emit_all (evs : list event) (w : world) : world :=
  {| labels := labels w; exceptions_log := exceptions_log w;
     classes_log := classes_log w; trace := trace w ++ evs; log_dir := log_dir w |}.

(** a first run: nothing labelled, nothing logged, and the directory of
    the exceptions log not created yet ([ETL.__init__] creates the data
    directories; this one is created by the handler of
    [get_correct_class_name] only) *)
Definition empty_world : world :=
  {| labels := ∅; exceptions_log := []; classes_log := []; trace := [];
     log_dir := false |}.

(** the same world once the directory of the exceptions log exists *)
Definition with_log_dir (w : world) : world :=
  {| labels := labels w; exceptions_log := exceptions_log w;
     classes_log := classes_log w; trace := trace w; log_dir := true |}.

(** A computation reads and updates the world and returns or raises; what
    was done before an exception stays done. *)
Definition M (A : Type) : Type := world -> result A * world.

Definition ret {A} (a : A) : M A := fun w => (Ok a, w).
Definition raise {A} (e : exn) : M A := fun w => (Raise e, w).
Definition bind {A B} (m : M A) (k : A -> M B) : M B :=
  fun w => match m w with
           | (Ok a, w') => k a w'
           | (Raise e, w') => (Raise e, w')
           end.
Definition lift {A} (r : result A) : M A := fun w => (r, w).
Definition modify (f : world -> world) : M unit := fun w => (Ok tt, f w).
Definition get_world : M world := fun w => (Ok w, w).

(** what [open(path, 'a')] raises when the directory of [path] is missing
    (FileNotFoundError is an OSError) *)
Definition FileNotFoundError (path : string) : exn :=
  OSError ("[Errno 2] No such file or directory: '" ++ path ++ "'").

(** [with open(file, 'a') as f: f.write(line)] for the exceptions log
    [file]: the file is created when it is missing, its directory is not *)
Definition append_exceptions_log (file line : string) : M unit :=
  fun w => if log_dir w then (Ok tt, log_exception line w)
           else (Raise (FileNotFoundError file), w).

(** [time.sleep(secs)]: a negative length raises ValueError *)
Definition sleep (secs : Q) : M unit :=
  fun w => if Qle_bool 0 secs then (Ok tt, emit (EvSleep secs) w)
           else (Raise (ValueError "sleep length must be non-negative"), w).

(** [try: body except Exception as e: handler(e)] *)
Definition try_except {A} (body : M A) (handler : exn -> M A) : M A :=
  fun w => match body w with
           | (Ok a, w') => (Ok a, w')
           | (Raise e, w') => handler e w'
           end.

Declare Scope py_scope.
Delimit Scope py_scope with py.
Notation "'do' x <- m ; k" := (bind m (fun x => k))
  (at level 10, x name, m at level 100, k at level 200) : py_scope.
Notation "'do' ' p <- m ; k" := (bind m (fun x => match x with p => k end))
  (at level 10, p pattern, m at level 100, k at level 200) : py_scope.
Notation "m ;; k" := (bind m (fun _ => k))
  (at level 100, k at level 200, right associativity) : py_scope.

Definition rbind {A B} (r : result A) (k : A -> result B) : result B :=
  match r with Ok a => k a | Raise e => Raise e end.
Notation "'let?' x := r 'in' k" := (rbind r (fun x => k))
  (at level 10, x name, r at level 100, k at level 200).

(** [str(e)] *)
Definition exn_message (e : exn) : string :=
  match e with
  | IndexError => "list index out of range"
  | KeyError => "key"
  | ValueError msg => msg
  | ZeroDivisionError => "float division by zero"
  | RemoteError msg => msg
  | OSError msg => msg
  end.

(** A decoded image: [image.shape[:2]] *)
Record image : Type := { img_shape_0 : Z; img_shape_1 : Z }.

(** A detector box in pixels.  A row of [Detections.xyxy] lists the left
    edge, the top edge, the right edge and the bottom edge, in that order. *)
Record box : Type := { x_min : Q; y_min : Q; x_max : Q; y_max : Q }.

(** [coords.tolist()] for a row of [xyxy] *)
Definition tolist (b : box) : list Q := [x_min b; y_min b; x_max b; y_max b].

(** What [sv.Detections.from_ultralytics] builds, the only source of
    detections in the pipeline: one row per detection, its box (a row of
    [xyxy]) and its class id (the entry of [class_id], which is always
    filled in). *)
Definition Detections : Type := list (box * Z).

(** [detections.xyxy] *)
Definition xyxy (d : Detections) : list box := map fst d.

(** [detections.class_id] *)
Definition class_id (d : Detections) : list Z := map snd d.

(** [len(detections)] *)
Definition det_len (d : Detections) : nat := length (xyxy d).

(** [detections[detections.class_id == c]]: the rows whose class is [c] *)
Definition select_class (d : Detections) (c : Z) : Detections :=
  List.filter (fun row => (snd row =? c)%Z) d.

(** A post source: [get_posts_batch(group_id, posts_to_parse, offset)] *)
Record PostParser : Type := {
  get_posts_batch : string -> Z -> Z -> result unit
}.

(** What the pipeline does not own: files written by the ingestion phase,
    the remote classifier, the clock, the detector, the shuffle, the post
    source. *)
Record env : Type := {
  root_dir : string;                           (* ROOT_DIR *)
  data_path : string;                          (* Path(ROOT_DIR).parent / 'data' *)
  read_text : string -> result string;         (* open(path).read() *)
  classify_description : string -> result string;
  strftime : nat -> string;
  glob : string -> list string;                (* over the texts and images directories *)
  imread : string -> option image;             (* cv2.imread: None when unreadable *)
  detect_objects : image -> result Detections;
  shuffle : list string -> list string;        (* random.shuffle *)
  post_parser : option PostParser              (* self.post_parser *)
}.

Definition TRAIN_IMAGE_FORMAT : string := ".png".

(** [str(Path(ROOT_DIR) / "object_detection" / "image_processing_exceptions.log")] *)
Definition EXCEPTIONS_FILE_NAME (E : env) : string :=
  root_dir E ++ "/object_detection/image_processing_exceptions.log".

(** [s.endswith(suffix)] *)
Definition endswith (suffix s : string) : bool :=
  (String.length suffix <=? String.length s)%nat &&
  String.eqb (PyStr.drop (String.length s - String.length suffix) s) suffix.

(** does [p] match [dir/*.txt]: a direct child of [dir], not hidden, with
    the extension *)
Definition matches_txt_in (dir p : string) : bool :=
  PyStr.startswith (dir ++ "/") p &&
  (let name := PyStr.drop (String.length dir + 1) p in
   negb (PyStr.contains "/" name) && negb (PyStr.startswith "." name) &&
   endswith ".txt" name).

(** [glob(f"{dir}/*.txt")] over the labels directory of the world *)
Definition glob_labels (dir : string) (w : world) : list string :=
  List.filter (matches_txt_in dir) (map fst (map_to_list (labels w))).

(** ** training_image_processor.py *)

Module TrainingImageProcessor.
Section WithEnv.
Variable E : env.
Local Open Scope py_scope.

(** float division: a zero divisor raises; otherwise the exact quotient,
    of which the source holds the binary64 rounding *)
Definition py_div (a : Q) (n : Z) : result Q :=
  if (n =? 0)%Z then Raise ZeroDivisionError else Ok (a / inject_Z n)%Q.

(** (center_x, center_y, box_width, box_height) *)
Definition yolo_coords : Type := (Q * Q * Q * Q)%type.

Fixpoint detections_to_yolo_format (rows : list box) (img_h img_w : Z)
    : result (list yolo_coords) :=
  match rows with
  | [] => Ok []
  | coords :: rest =>
      match tolist coords with
      | [ymin; xmin; ymax; xmax] =>
          let? box_height := py_div (ymax - ymin)%Q img_h in
          let? box_width := py_div (xmax - xmin)%Q img_w in
          let? center_x := py_div (xmin + (xmax - xmin) / 2)%Q img_w in
          let? center_y := py_div (ymin + (ymax - ymin) / 2)%Q img_h in
          let? tail := detections_to_yolo_format rest img_h img_w in
          Ok ((center_x, center_y, box_width, box_height) :: tail)
      | _ => Raise (ValueError "not enough values to unpack")
      end
  end.

Definition labels_folder_path : string := data_path E ++ "/labels".

Definition label_file_path (image_path : string) : string :=
  labels_folder_path ++ "/" ++ PyStr.replace ".png" ".txt" (PyStr.path_name image_path).

Definition make_line (p : yolo_coords * Z) : label_line :=
  let '((cx, cy, bw, bh), image_label) := p in
  {| ll_class := image_label; ll_center_x := cx; ll_center_y := cy;
     ll_width := bw; ll_height := bh |}.

(** opens the label file for writing and writes one line per pair of
    [zip(yolo_detections, gt_labels)] *)
Definition write_detections_to_labels_file (yolo_detections : list yolo_coords)
    (gt_labels : list Z) (image_path : string) : M unit :=
  modify (set_labels
            (insert (label_file_path image_path)
                    (map make_line (combine yolo_detections gt_labels)))).

(** [self.exceptions_file_name] *)
Definition exceptions_file_name : string := EXCEPTIONS_FILE_NAME E.

Definition image_error (image_path msg : string) : string :=
  "Image path: " ++ image_path ++ ". Error: " ++ msg.

(** [try: cat_detections = detections[detections.class_id == 15]]
    [except Exception: cat_detections = detections]; with the class ids
    that [from_ultralytics] always fills in, neither the comparison nor
    the lookup raises, and the handler is not entered *)
Definition cat_detections_of (detections : Detections) : Detections :=
  select_class detections 15.

(** every write to the exceptions log opens the file without creating its
    directory; a failure of the write inside [try] reaches the handler,
    whose own write fails in the same way and leaves the function *)
Definition process_training_image (image_path : string) (label : Z) : M bool :=
  try_except
    (match imread E image_path with
     | None =>
         append_exceptions_log exceptions_file_name
           (image_error image_path "Could not read image file") ;;
         ret false
     | Some image =>
         do detections <- lift (detect_objects E image);
         let cat_detections := cat_detections_of detections in
         if (det_len cat_detections =? 0)%nat then
           append_exceptions_log exceptions_file_name
             (image_error image_path "No cats detected") ;;
           ret false
         else
           let img_height := img_shape_0 image in
           let img_width := img_shape_1 image in
           do yolo_detections <-
             lift (detections_to_yolo_format (xyxy cat_detections) img_height img_width);
           if (1 <? length yolo_detections)%nat then
             append_exceptions_log exceptions_file_name
               (image_error image_path "More than 1 cat detected. Skipping") ;;
             ret false
           else
             write_detections_to_labels_file yolo_detections [label] image_path ;;
             ret true
     end)
    (fun e =>
       append_exceptions_log exceptions_file_name
         (image_error image_path (exn_message e)) ;;
       ret false).

End WithEnv.
End TrainingImageProcessor.

(** ** Binary64 products, for [int(len(labeled_images) * self.train_size)] *)

Module Binary64.

(** A finite non-negative binary64 number [mant * 2^expo] with
    [mant < 2^53] (or [mant = 2^53] after a carry, which denotes the same
    number as the normalised form).  Exponents stay far inside the normal
    range for the products of a list length with a fraction, so overflow
    and subnormals do not arise. *)
Record float : Type := { mant : Z; expo : Z }.

(** round [n * 2^e] (n >= 0) to 53 significant bits, ties to even *)
Definition round_nearest_even (n e : Z) : float :=
  if n <? 2 ^ 53 then {| mant := n; expo := e |}
  else
    let s := Z.log2 n - 52 in
    let q := n / 2 ^ s in
    let r := n mod 2 ^ s in
    let up := (2 ^ s <? 2 * r) || ((2 ^ s =? 2 * r) && Z.odd q) in
    {| mant := if up then q + 1 else q; expo := e + s |}.

(** [float(k)] for a non-negative int *)
Definition of_int (k : Z) : float := round_nearest_even k 0.

(** [a * b] *)
Definition mul (a b : float) : float :=
  round_nearest_even (mant a * mant b) (expo a + expo b).

(** [int(x)]: truncation; the numbers here are non-negative *)
Definition to_int (x : float) : Z :=
  if 0 <=? expo x then mant x * 2 ^ expo x else mant x / 2 ^ (- expo x).

(** the literals [0.7] and [0.2]: the binary64 numbers nearest to them *)
Definition lit_0_7 : float := {| mant := 6305039478318694; expo := -53 |}.
Definition lit_0_2 : float := {| mant := 7205759403792794; expo := -55 |}.

(** the exact value, as a rational *)
Definition to_Q (x : float) : Q :=
  if 0 <=? expo x then inject_Z (mant x * 2 ^ expo x)
  else (inject_Z (mant x) / inject_Z (2 ^ (- expo x)))%Q.

(** The same product on the primitive binary64 numbers, for comparison:
    [int(k * c)] with the machine's multiplication. *)
Definition hw_to_int (x : PrimFloat.float) : Z :=
  match Prim2SF x with
  | S754_finite false m e => if 0 <=? e then Zpos m * 2 ^ e else Zpos m / 2 ^ (- e)
  | _ => 0
  end.

Definition hw_count (c : PrimFloat.float) (k : nat) : Z :=
  hw_to_int (PrimFloat.mul (PrimFloat.of_uint63 (Uint63.of_Z (Z.of_nat k))) c).

(** the literals, written exactly *)
Definition hw_0_7 : PrimFloat.float := 0x1.6666666666666p-1%float.
Definition hw_0_2 : PrimFloat.float := 0x1.999999999999ap-3%float.

End Binary64.

(** ** dataset_manager.py *)

Module DatasetManager.

Definition train_size : Binary64.float := Binary64.lit_0_7.
Definition val_size : Binary64.float := Binary64.lit_0_2.

(** [l[a:b]] for non-negative [a] and [b] *)
Definition slice {A} (l : list A) (a b : nat) : list A := firstn (b - a) (skipn a l).

Record split (A : Type) : Type := { train : list A; val : list A; test : list A }.
Arguments train {A} s.
Arguments val {A} s.
Arguments test {A} s.

Record stats : Type := { n_train : nat; n_val : nat; n_test : nat }.

Definition train_count (K : nat) : Z :=
  Binary64.to_int (Binary64.mul (Binary64.of_int (Z.of_nat K)) train_size).
Definition val_count (K : nat) : Z :=
  Binary64.to_int (Binary64.mul (Binary64.of_int (Z.of_nat K)) val_size).

(** [split_dataset] after the shuffle: [labeled_images] is the shuffled list *)
Definition split_shuffled {A} (labeled_images : list A) : split A :=
  let tc := Z.to_nat (train_count (length labeled_images)) in
  let vc := Z.to_nat (val_count (length labeled_images)) in
  {| train := firstn tc labeled_images;
     val := slice labeled_images tc (tc + vc);
     test := skipn (tc + vc) labeled_images |}.

Definition stats_of {A} (s : split A) : stats :=
  {| n_train := length (train s); n_val := length (val s); n_test := length (test s) |}.

Section WithEnv.
Variable E : env.
Local Open Scope py_scope.

Definition image_format : string := TRAIN_IMAGE_FORMAT.

(** the stems present in both directories, as a list without repetition:
    [list(set(image_files).intersection(set(label_files)))] *)
Definition get_labeled_image_paths : M (list string) :=
  do w <- get_world;
  let label_root := data_path E ++ "/labels" in
  let image_root := data_path E ++ "/images" in
  let label_files := map PyStr.path_stem (glob_labels label_root w) in
  let image_files := map PyStr.path_stem (glob E (image_root ++ "/*." ++ image_format)) in
  ret (remove_dups (list_intersection image_files label_files)).

Definition split_dataset : M (split string) :=
  do labeled_images <- get_labeled_image_paths;
  ret (split_shuffled (shuffle E labeled_images)).

(** [organize_dataset] as far as its return value goes; the copies into the
    split directories do not feed back into anything modelled here *)
Definition organize_dataset : M stats :=
  do split_data <- split_dataset;
  ret (stats_of split_data).

End WithEnv.

End DatasetManager.

(** ** etl.py *)

Module ETL.
Section WithEnv.
Variable E : env.
Local Open Scope py_scope.

(** [self.dataset_manager.image_format] *)
Definition image_format : string := DatasetManager.image_format.

Definition texts_path : string := data_path E ++ "/texts".
Definition images_path : string := data_path E ++ "/images".
Definition labels_path : string := data_path E ++ "/labels".

Definition image_path_to_text_path (image_path : string) : string :=
  let text_path :=
    PyStr.replace image_format ".txt" (PyStr.replace "images" "texts" image_path) in
  PyStr.sub_underscore_digits text_path.

(** the exceptions-log line of a failed classification *)
Definition text_error (text_path : string) (e : exn) : string :=
  "Text path: " ++ text_path ++ ". Error: " ++ exn_message e.

Definition get_correct_class_name (text_path : string) : M string :=
  try_except
    (do text <- lift (read_text E text_path);
     modify (emit (EvClassify text)) ;;
     do correct_class_name <- lift (classify_description E text);
     do w <- get_world;
     modify (log_class (Build_ClassificationRecord text_path correct_class_name
                          (strftime E (length (classes_log w))))) ;;
     ret correct_class_name)
    (fun e =>
       (* os.makedirs(os.path.dirname(...), exist_ok=True) when the file is
          missing, then the append *)
       modify (log_exception (text_error text_path e)) ;;
       ret "OTHER").

(** the loop over [image_paths]; returns [processed_images] *)
Fixpoint process_images (image_paths : list string) (description_class_id : Z)
    (processed_images : Z) : M Z :=
  match image_paths with
  | [] => ret processed_images
  | img_path :: rest =>
      do success <- TrainingImageProcessor.process_training_image E img_path
                      description_class_id;
      process_images rest description_class_id
        (processed_images + (if success then 1 else 0))
  end.

Definition process_training_post (text_file_path : string)
    (processed_text_file_names : list string) (images_path : string)
    : M (bool * string) :=
  if existsb (String.eqb (PyStr.path_name text_file_path)) processed_text_file_names
  then ret (false, "processed")
  else
    do description_class_name <- get_correct_class_name text_file_path;
    do description_class_id <-
      lift (DescriptionClassifier.get_class_id description_class_name);
    if negb (description_class_id =? 2) then
      let image_file_search_pattern :=
        images_path ++ "/" ++ PyStr.path_stem text_file_path ++ "*" ++ image_format in
      let image_paths := glob E image_file_search_pattern in
      match image_paths with
      | [] => ret (false, "No images found for this text")
      | _ =>
          do processed_images <- process_images image_paths description_class_id 0;
          if processed_images =? 0
          then ret (false, "Text classified, but no images were processed")
          else ret (true, "OK")
      end
    else ret (false, "No cats mentioned or multiple cats mentioned").

Definition processed_names_of (label_files : list string) : list string :=
  map (fun l_file => PyStr.path_name (image_path_to_text_path l_file)) label_files.

Definition get_processed_text_file_names (labels_path : string) : M (list string) :=
  do w <- get_world;
  ret (processed_names_of (glob_labels labels_path w)).

(** the body of [for it in range(num_iterations)], from iteration [it] on,
    [todo] iterations left *)
Fixpoint parse_loop (P : PostParser) (group_id : string)
    (max_posts_in_iteration : Z) (batch_delay : Q) (num_iterations : Z)
    (todo : nat) (it remaining_posts_to_parse parsed_posts : Z) : M Z :=
  match todo with
  | O => ret parsed_posts
  | S todo' =>
      let current_posts_to_parse := Z.min remaining_posts_to_parse max_posts_in_iteration in
      modify (emit (EvGetPostsBatch group_id current_posts_to_parse parsed_posts)) ;;
      lift (get_posts_batch P group_id current_posts_to_parse parsed_posts) ;;
      let parsed_posts := parsed_posts + current_posts_to_parse in
      let remaining_posts_to_parse := remaining_posts_to_parse - current_posts_to_parse in
      (if it <? num_iterations - 1 then sleep batch_delay else ret tt) ;;
      parse_loop P group_id max_posts_in_iteration batch_delay num_iterations
        todo' (it + 1) remaining_posts_to_parse parsed_posts
  end.

Definition parse_posts (group_id : string) (posts_to_parse : Z)
    (max_posts_in_iteration : Z) (batch_delay : Q) : M Z :=
  match post_parser E with
  | None => raise (ValueError "Post parser is not initialized")
  | Some P =>
      if max_posts_in_iteration =? 0 then raise ZeroDivisionError
      else
        let num_iterations :=
          posts_to_parse / max_posts_in_iteration
          + (if negb (posts_to_parse mod max_posts_in_iteration =? 0) then 1 else 0) in
        parse_loop P group_id max_posts_in_iteration batch_delay num_iterations
          (Z.to_nat num_iterations) 0 posts_to_parse 0
  end.

(** [skipped_text_files[reason].append(t_path)] on a [defaultdict(list)] *)
Definition skipped_append (reason t_path : string) (skipped : gmap string (list string))
    : gmap string (list string) :=
  <[reason := (default [] (skipped !! reason) ++ [t_path])%list]> skipped.

Fixpoint process_text_files (text_file_paths : list string)
    (processed_text_file_names : list string) (sleep_time : Q)
    (skipped_text_files : gmap string (list string)) : M (gmap string (list string)) :=
  match text_file_paths with
  | [] => ret skipped_text_files
  | t_path :: rest =>
      do '(success, reason) <-
        process_training_post t_path processed_text_file_names images_path;
      if negb success then
        process_text_files rest processed_text_file_names sleep_time
          (skipped_append reason t_path skipped_text_files)
      else
        (if Qlt_le_dec 0 sleep_time then modify (emit (EvSleep sleep_time)) else ret tt) ;;
        process_text_files rest processed_text_file_names sleep_time skipped_text_files
  end.

(** returns what is dumped to [texts_skipped_log.json] together with the
    statistics the function returns *)
Definition process_training_data (sleep_time : Q)
    : M (gmap string (list string) * DatasetManager.stats) :=
  let text_file_paths := glob E (texts_path ++ "/*.txt") in
  do processed_text_file_names <- get_processed_text_file_names labels_path;
  do skipped_text_files <-
    process_text_files text_file_paths processed_text_file_names sleep_time ∅;
  do stats <- DatasetManager.organize_dataset E;
  ret (skipped_text_files, stats).

End WithEnv.
End ETL.

(** ** The specification's formulas, in its own words *)

Module Spec.

(** normalised centre and size of a pixel box in an image [width] wide and
    [height] high, [x] horizontal and [y] vertical *)
Definition center_x (b : box) (width : Z) : Q :=
  ((x_min b + (x_max b - x_min b) / 2) / inject_Z width)%Q.
Definition center_y (b : box) (height : Z) : Q :=
  ((y_min b + (y_max b - y_min b) / 2) / inject_Z height)%Q.
Definition box_width (b : box) (width : Z) : Q :=
  ((x_max b - x_min b) / inject_Z width)%Q.
Definition box_height (b : box) (height : Z) : Q :=
  ((y_max b - y_min b) / inject_Z height)%Q.

(** a geometry value lies in the closed interval [0,1] *)
Definition in_unit (q : Q) : Prop := (0 <= q /\ q <= 1)%Q.

(** the box lies within the pixel bounds of the image *)
Definition box_within (b : box) (width height : Z) : Prop :=
  (0 <= x_min b /\ x_min b <= x_max b /\ x_max b <= inject_Z width /\
   0 <= y_min b /\ y_min b <= y_max b /\ y_max b <= inject_Z height)%Q.


(** [floor(p * K)] for a decimal fraction [p] *)
Definition floor_frac (p : Q) (K : nat) : Z := Qfloor (p * inject_Z (Z.of_nat K)).





(** drop the digits at the head of a list of characters *)
Fixpoint drop_digits (l : list ascii) : list ascii :=
  match l with
  | c :: l' => if PyStr.is_digit c then drop_digits l' else l
  | [] => []
  end.

(** strip the numeric image-index suffix [_<n>] from the end of a stem: a
    final run of at least one digit together with the underscore before
    it; a stem without such a suffix is left as it is *)
Definition strip_index (stem : string) : string :=
  let r := List.rev (list_ascii_of_string stem) in
  let r' := drop_digits r in
  match r' with
  | c :: rest =>
      if Ascii.eqb c "_" && (length r' <? length r)%nat
      then string_of_list_ascii (List.rev rest)
      else stem
  | [] => stem
  end.

(** the text file name a label file name stands for: the label of image
    [n] of the post [p] is [p_<n>.txt] and stands for [p.txt] *)
Definition text_name_of_label (label_name : string) : string :=
  if endswith ".txt" label_name
  then strip_index (PyStr.take (String.length label_name - 4) label_name) ++ ".txt"
  else label_name.

(** the set of text file names derived from the label files *)
Definition derived_text_names (label_files : list string) : list string :=
  map (fun l_file => text_name_of_label (PyStr.path_name l_file)) label_files.

(** the target class of the labelling step: [category_dict[15]] is 'cat' *)
Definition target_class : Z := 15.

(** the number of detections of the target class *)
Definition qualifying (d : Detections) : nat :=
  count_occ Z.eq_dec (class_id d) target_class.


End Spec.

(** ** Concrete runs used as examples *)

Module Scenario.

(** split a pattern at its first star *)
Fixpoint split_star (pat : string) : option (string * string) :=
  match pat with
  | EmptyString => None
  | String c rest =>
      if Ascii.eqb c "*" then Some (EmptyString, rest)
      else match split_star rest with
           | Some (a, b) => Some (String c a, b)
           | None => None
           end
  end.

(** does [path] match a pattern with at most one star; the star stands for
    a piece of one file name that does not start with a dot *)
Definition glob_match (pat path : string) : bool :=
  match split_star pat with
  | None => String.eqb pat path
  | Some (pre, suf) =>
      PyStr.startswith pre path &&
      (let rest := PyStr.drop (String.length pre) path in
       endswith suf rest &&
       (let mid := PyStr.take (String.length rest - String.length suf) rest in
        negb (PyStr.contains "/" mid) && negb (PyStr.startswith "." mid)))
  end.

(** a pipeline over a fixed set of files under /repo/data, a classifier
    that answers [answer], a detector that sees [dets] in every image *)
Definition files_env (files : list string) (answer : string -> result string)
    (pics : string -> option image) (dets : image -> result Detections) : env :=
  {| root_dir := "/repo/cat_gender_detector";
     data_path := "/repo/data";
     read_text := fun _ => Ok "caption";
     classify_description := answer;
     strftime := fun _ => "2024-01-01 00:00:00";
     glob := fun pat => List.filter (glob_match pat) files;
     imread := pics;
     detect_objects := dets;
     shuffle := fun l => l;
     post_parser := Some {| get_posts_batch := fun _ _ _ => Ok tt |} |}.

(** a landscape image, 200 pixels wide and 100 high: [shape = (100, 200, 3)] *)
Definition wide_image : image := {| img_shape_0 := 100; img_shape_1 := 200 |}.

(** a cat that fills the whole picture *)
Definition full_box : box := {| x_min := 0; y_min := 0; x_max := 200; y_max := 100 |}.
Definition one_cat : Detections := [(full_box, 15)].

(** a box in the upper left part of a portrait image 100 wide and 200 high *)
Definition small_box : box := {| x_min := 10; y_min := 20; x_max := 30; y_max := 40 |}.

Definition post_files : list string :=
  ["/repo/data/texts/abc.txt"; "/repo/data/texts/xyz.txt";
   "/repo/data/images/abc_1.png"; "/repo/data/images/xyz_1.png"].

Definition E_male : env :=
  files_env post_files (fun _ => Ok "MALE CAT")
    (fun _ => Some wide_image) (fun _ => Ok one_cat).

Definition E_banana : env :=
  files_env post_files (fun _ => Ok "banana")
    (fun _ => Some wide_image) (fun _ => Ok one_cat).

Definition E_down : env :=
  files_env post_files (fun _ => Raise (RemoteError "Connection error."))
    (fun _ => Some wide_image) (fun _ => Ok one_cat).

(** the labels directory after image abc_1.png was labelled *)
Definition labelled_world : world :=
  set_labels (insert "/repo/data/labels/abc_1.txt"
                [{| ll_class := 0; ll_center_x := 1 # 2; ll_center_y := 1 # 2;
                    ll_width := 1; ll_height := 1 |}])
    empty_world.

End Scenario.

(** ** Python list slices *)

Module PyList.

(** the position a slice bound [i] stands for in a list of length [len]:
    negative bounds count from the end, all bounds are clamped *)
Definition py_index (len i : Z) : Z :=
  if i <? 0 then Z.max (len + i) 0 else Z.min i len.

(** [l[a:b]] *)
Definition py_slice {A} (l : list A) (a b : Z) : list A :=
  let len := Z.of_nat (length l) in
  let lo := py_index len a in
  let hi := py_index len b in
  firstn (Z.to_nat (hi - lo)) (skipn (Z.to_nat lo) l).

End PyList.

(** ** reddit/reddit_parser.py: which submissions a batch handles *)

Module RedditPostParser.
Section Feed.
Context {Submission : Type}.

(** the subreddit, newest first *)
Variable feed : list Submission.

(** [list(subreddit.new(limit=limit))]: the [limit] newest submissions,
    the service returning as many as asked for while it has them *)
Definition new_listing (limit : Z) : list Submission := firstn (Z.to_nat limit) feed.

(** the submissions [get_posts_batch] passes to [parse_post], in order *)
Definition to_process (posts_to_parse offset : Z) : list Submission :=
  let limit := posts_to_parse + offset in
  let submissions := new_listing limit in
  match submissions with
  | [] => []                                   (* "No items found": return *)
  | _ => PyList.py_slice submissions offset (offset + posts_to_parse)
  end.


End Feed.
End RedditPostParser.

(** ** telegram/telegram_parser.py: grouping messages into posts *)

Module TelegramPostParser.

(** What the parser looks at in a message.  [document] is [None] without
    a document, [Some None] for a document whose [mime_type] is [None]. *)
Record Message : Type := {
  msg_id : Z;
  grouped_id : option Z;
  video : bool;
  video_note : bool;
  photo : bool;
  document : option (option string);
  message : option string
}.

(** [_message_has_video]; a failing attribute access is caught and
    answered [False] *)
Definition _message_has_video (msg : Message) : bool :=
  if video msg then true
  else
    match document msg with
    | Some None => false
    | Some (Some mime) => if PyStr.startswith "video" mime then true else video_note msg
    | None => video_note msg
    end.

(** [_message_has_photo] *)
Definition _message_has_photo (msg : Message) : bool :=
  if photo msg then true
  else
    match document msg with
    | Some None => false
    | Some (Some mime) => PyStr.startswith "image" mime
    | None => false
    end.

(** a post: (post_id, messages, text) *)
Definition Post : Type := (Z * list Message * string)%type.

(** [groups.setdefault(gid, []).append(msg)] on a dict kept in insertion
    order *)
Fixpoint group_append (gid : Z) (msg : Message) (groups : list (Z * list Message))
    : list (Z * list Message) :=
  match groups with
  | [] => [(gid, [msg])]
  | (g, msgs) :: rest =>
      if g =? gid then (g, msgs ++ [msg])%list :: rest
      else (g, msgs) :: group_append gid msg rest
  end.

(** the first loop: albums by [grouped_id], the rest as singles; a
    [grouped_id] of [None] or 0 is falsy *)
Fixpoint partition_messages (messages : list Message)
    (groups : list (Z * list Message)) (singles : list Message)
    : list (Z * list Message) * list Message :=
  match messages with
  | [] => (groups, singles)
  | msg :: rest =>
      match grouped_id msg with
      | Some gid =>
          if gid =? 0 then partition_messages rest groups (singles ++ [msg])%list
          else partition_messages rest (group_append gid msg groups) singles
      | None => partition_messages rest groups (singles ++ [msg])%list
      end
  end.

(** [min(m.id for m in msgs)]; every group has a message *)
Definition min_id (msgs : list Message) : Z :=
  match map msg_id msgs with
  | [] => 0
  | x :: xs => fold_left Z.min xs x
  end.

Section Strip.
(** [str.strip] *)
Variable strip : string -> string.

Definition message_or_empty (m : Message) : string :=
  match message m with Some s => s | None => "" end.

Definition newline2 : string :=
  String (Ascii.ascii_of_nat 10) (String (Ascii.ascii_of_nat 10) "").

Definition album_posts (groups : list (Z * list Message)) : list Post :=
  flat_map
    (fun '(gid, msgs) =>
       if existsb _message_has_video msgs then []
       else if negb (existsb _message_has_photo msgs) then []
       else
         let post_id := min_id msgs in
         let combined_text :=
           String.concat newline2
             (map message_or_empty
                (List.filter (fun m => negb (String.eqb (strip (message_or_empty m)) ""))
                   msgs)) in
         [(post_id, msgs, combined_text)])
    groups.

Definition single_posts (singles : list Message) : list Post :=
  flat_map
    (fun m =>
       if _message_has_video m then []
       else if negb (_message_has_photo m) then []
       else [(msg_id m, [m], strip (message_or_empty m))])
    singles.

Definition post_id (p : Post) : Z := fst (fst p).
Definition post_messages (p : Post) : list Message := snd (fst p).

(** [posts.sort(key=lambda p: p[0], reverse=True)]: stable, largest id
    first *)
Fixpoint insert_desc (p : Post) (sorted : list Post) : list Post :=
  match sorted with
  | [] => [p]
  | q :: rest =>
      if post_id q <=? post_id p then p :: sorted
      else q :: insert_desc p rest
  end.

Definition sort_desc (posts : list Post) : list Post := fold_right insert_desc [] posts.

Definition _group_messages_into_posts (messages : list Message) : list Post :=
  let '(groups, singles) := partition_messages messages [] [] in
  sort_desc (album_posts groups ++ single_posts singles).

(** the posts [get_posts_batch] passes to [parse_post] *)
Definition to_process (messages : list Message) (posts_to_parse offset : Z) : list Post :=
  match messages with
  | [] => []
  | _ =>
      match _group_messages_into_posts messages with
      | [] => []
      | posts => PyList.py_slice posts offset (offset + posts_to_parse)
      end
  end.

End Strip.
End TelegramPostParser.

(** ** Predicates on Telegram messages *)

Module GroupingProps.
Import TelegramPostParser.

(** the message belongs to the album [k] *)
Definition in_album (k : Z) (m : Message) : bool :=
  match grouped_id m with
  | Some gid => gid =? k
  | None => false
  end.

(** the message belongs to no album *)
Definition is_single (m : Message) : bool :=
  match grouped_id m with
  | Some gid => gid =? 0
  | None => true
  end.

(** the messages of the album [k] among [messages], in the order fetched *)
Definition album (k : Z) (messages : list Message) : list Message :=
  List.filter (in_album k) messages.

(** the dict of the first loop after the messages [pre]: one entry per
    album seen, holding its messages in the order fetched *)
Definition grouped (pre : list Message) (groups : list (Z * list Message)) : Prop :=
  List.NoDup (map fst groups) /\
  (forall k msgs, In (k, msgs) groups -> k <> 0 /\ msgs = album k pre) /\
  (forall m k, In m pre -> grouped_id m = Some k -> k <> 0 -> In k (map fst groups)).

(** largest id first *)
Definition id_desc (p q : Post) : Prop := post_id q <= post_id p.

End GroupingProps.

(** ** dataset_manager.py: the files [organize_dataset] copies *)

Module DatasetFiles.

(** [f"{image_name}.{self.image_format}"] *)
Definition src_img_name (image_name : string) : string :=
  image_name ++ "." ++ DatasetManager.image_format.

(** [f"{image_name}.txt"] *)
Definition src_label_name (image_name : string) : string := image_name ++ ".txt".

End DatasetFiles.

(** ** More concrete runs *)

Module Scenario2.



(** one post, already labelled *)
Definition E_one_post : env :=
  Scenario.files_env ["/repo/data/texts/abc.txt"; "/repo/data/images/abc_1.png"]
    (fun _ => Ok "MALE CAT") (fun _ => Some Scenario.wide_image)
    (fun _ => Ok Scenario.one_cat).

(** a post whose name ends in an underscore and a digit, with its image
    labelled in an earlier run, beside an ordinary labelled post *)
Definition E_indexed : env :=
  Scenario.files_env
    ["/repo/data/texts/abc.txt"; "/repo/data/texts/post_1.txt";
     "/repo/data/images/abc_1.png"; "/repo/data/images/post_1_1.png"]
    (fun _ => Ok "MALE CAT") (fun _ => Some Scenario.wide_image)
    (fun _ => Ok Scenario.one_cat).

Definition indexed_world : world :=
  set_labels
    (fun m =>
       <["/repo/data/labels/abc_1.txt" :=
           [{| ll_class := 0; ll_center_x := 1 # 2; ll_center_y := 1 # 2;
               ll_width := 1; ll_height := 1 |}]]>
       (<["/repo/data/labels/post_1_1.txt" :=
           [{| ll_class := 0; ll_center_x := 1 # 2; ll_center_y := 1 # 2;
               ll_width := 1; ll_height := 1 |}]]> m))
    empty_world.

(** a dog and no cat in the picture: class 16 *)
Definition one_dog : Detections := [(Scenario.full_box, 16)].

Definition E_dog : env :=
  Scenario.files_env Scenario.post_files (fun _ => Ok "MALE CAT")
    (fun _ => Some Scenario.wide_image) (fun _ => Ok one_dog).

(** two cats in one picture *)
Definition two_cats : Detections :=
  [({| x_min := 0; y_min := 0; x_max := 90; y_max := 100 |}, 15);
   ({| x_min := 100; y_min := 0; x_max := 200; y_max := 100 |}, 15)].

Definition E_two_cats : env :=
  Scenario.files_env Scenario.post_files (fun _ => Ok "MALE CAT")
    (fun _ => Some Scenario.wide_image) (fun _ => Ok two_cats).

(** two labelled images; the name of one of them ends in two dots and png *)
Definition E_two_dots : env :=
  Scenario.files_env ["/repo/data/images/abc_1.png"; "/repo/data/images/abcd..png"]
    (fun _ => Ok "MALE CAT") (fun _ => Some Scenario.wide_image)
    (fun _ => Ok Scenario.one_cat).

Definition two_dots_world : world :=
  set_labels
    (fun m =>
       <["/repo/data/labels/abc_1.txt" :=
           [{| ll_class := 0; ll_center_x := 1 # 2; ll_center_y := 1 # 2;
               ll_width := 1; ll_height := 1 |}]]>
       (<["/repo/data/labels/abcd..txt" :=
           [{| ll_class := 1; ll_center_x := 1 # 2; ll_center_y := 1 # 2;
               ll_width := 1; ll_height := 1 |}]]> m))
    empty_world.

End Scenario2.

(** ** Predicates used to state further properties *)

Module Props.
Import TrainingImageProcessor.

(** the row fits an image of the given dimensions with the axes exchanged *)
Definition fits_exchanged (h w : Z) (b : box) : Prop :=
  (0 <= x_min b /\ x_min b <= x_max b /\ x_max b <= inject_Z h /\
   0 <= y_min b /\ y_min b <= y_max b /\ y_max b <= inject_Z w)%Q.

Definition all_in_unit (y : yolo_coords) : Prop :=
  let '(cx, cy, bw, bh) := y in
  Spec.in_unit cx /\ Spec.in_unit cy /\ Spec.in_unit bw /\ Spec.in_unit bh.

(** every character of [s] satisfies [P] *)
Fixpoint all_chars (P : ascii -> bool) (s : string) : bool :=
  match s with
  | EmptyString => true
  | String c s' => P c && all_chars P s'
  end.

(** neither a slash nor a dot *)
Definition plain_char (c : ascii) : bool :=
  negb (Ascii.eqb c "/") && negb (Ascii.eqb c ".").

(** an underscore immediately followed by a digit occurs in [s] *)
Fixpoint has_underscore_digit (s : string) : bool :=
  match s with
  | String c s' =>
      match s' with
      | String d _ => (Ascii.eqb c "_" && PyStr.is_digit d) || has_underscore_digit s'
      | EmptyString => false
      end
  | EmptyString => false
  end.

(** the string starts with a digit *)
Definition head_digit (s : string) : bool :=
  match s with
  | String d _ => PyStr.is_digit d
  | EmptyString => false
  end.

(** the four reasons [process_training_post] gives for a skip *)
Definition skip_reasons : list string :=
  ["processed"; "No images found for this text";
   "Text classified, but no images were processed";
   "No cats mentioned or multiple cats mentioned"].

(** some label file holds exactly one line, of class [id] *)
Definition has_label (id : Z) (w : world) : Prop :=
  exists path line, labels w !! path = Some [line] /\ ll_class line = id.

End Props.

(** * Properties *)

(** ** Substrings *)

Section Substrings.
Import PyStr.

Lemma append_cons (x : ascii) (a b : string) : String x a ++ b = String x (a ++ b).
Proof. reflexivity. Qed.

Lemma append_empty_l (b : string) : "" ++ b = b.
Proof. reflexivity. Qed.

Lemma append_assoc_str (a b c : string) : (a ++ b) ++ c = a ++ (b ++ c).
Proof.
  induction a as [|x a IH]; [reflexivity|].
  rewrite !append_cons. f_equal. exact IH.
Qed.

Lemma startswith_append (p t : string) : startswith p (p ++ t) = true.
Proof.
  induction p as [|a p IH]; [reflexivity|].
  rewrite append_cons. simpl. now rewrite Ascii.eqb_refl.
Qed.

Lemma startswith_split (p s : string) :
  startswith p s = true -> exists t, s = p ++ t.
Proof.
  revert s. induction p as [|a p IH]; intros s H.
  - now exists s.
  - destruct s as [|b s]; [discriminate|]. simpl in H.
    destruct (Ascii.eqb_spec a b) as [->|]; [|discriminate].
    destruct (IH _ H) as [t ->]. now exists t.
Qed.

Lemma contains_split (p s : string) :
  contains p s = true -> exists a b, s = a ++ p ++ b.
Proof.
  induction s as [|c s IH]; simpl; intros H.
  - rewrite orb_false_r in H. destruct (startswith_split _ _ H) as [t Ht].
    exists "", t. exact Ht.
  - apply orb_true_iff in H as [H|H].
    + destruct (startswith_split _ _ H) as [t Ht]. exists "", t. exact Ht.
    + destruct (IH H) as (a & b & ->). now exists (String c a), b.
Qed.

Lemma contains_append (a p b : string) : contains p (a ++ p ++ b) = true.
Proof.
  induction a as [|c a IH].
  - rewrite append_empty_l. destruct (p ++ b) eqn:Hpb; simpl.
    + rewrite orb_false_r. rewrite <- Hpb. apply startswith_append.
    + rewrite <- Hpb, startswith_append. reflexivity.
  - rewrite append_cons. simpl. rewrite IH. apply orb_true_r.
Qed.

(** the containment test is transitive *)
Lemma contains_trans (p q s : string) :
  contains p q = true -> contains q s = true -> contains p s = true.
Proof.
  intros Hpq Hqs.
  destruct (contains_split _ _ Hpq) as (a & b & ->).
  destruct (contains_split _ _ Hqs) as (c & d & ->).
  replace (c ++ (a ++ p ++ b) ++ d) with ((c ++ a) ++ p ++ (b ++ d)).
  - apply contains_append.
  - now rewrite !append_assoc_str.
Qed.

Lemma length_drop_le (n : nat) (s : string) :
  (String.length (drop n s) <= String.length s)%nat.
Proof.
  revert s. induction n as [|n IH]; intros [|c s]; simpl; try lia.
  specialize (IH s). lia.
Qed.

Lemma length_skip_digits_le (s : string) :
  (String.length (skip_digits s) <= String.length s)%nat.
Proof.
  induction s as [|c s IH]; simpl; [lia|]. destruct (is_digit c); simpl; lia.
Qed.

(** The fuel given by [replace] and [sub_underscore_digits] is enough:
    any larger amount gives the same string. *)
Lemma replace_from_fuel (old new : string) (fuel1 : nat) :
  old <> "" ->
  forall (s : string) (fuel2 : nat),
    (String.length s <= fuel1)%nat -> (String.length s <= fuel2)%nat ->
    replace_from fuel1 old new s = replace_from fuel2 old new s.
Proof.
  intros Hold. induction fuel1 as [|a IH]; intros s fuel2 H1 H2.
  - destruct s; [|simpl in H1; lia]. now destruct fuel2.
  - destruct s as [|c s']; [now destruct fuel2|].
    destruct fuel2 as [|b]; [simpl in H2; lia|].
    simpl in H1, H2. cbn [replace_from].
    destruct (startswith old (String c s')).
    + f_equal. destruct old as [|o old']; [congruence|].
      cbn [String.length drop]. pose proof (length_drop_le (String.length old') s').
      apply IH; lia.
    + f_equal. apply IH; lia.
Qed.

Lemma sub_underscore_digits_fuel (fuel1 : nat) :
  forall (s : string) (fuel2 : nat),
    (String.length s <= fuel1)%nat -> (String.length s <= fuel2)%nat ->
    sub_underscore_digits_from fuel1 s = sub_underscore_digits_from fuel2 s.
Proof.
  induction fuel1 as [|a IH]; intros s fuel2 H1 H2.
  - destruct s; [|simpl in H1; lia]. now destruct fuel2.
  - destruct s as [|c s']; [now destruct fuel2|].
    destruct fuel2 as [|b]; [simpl in H2; lia|].
    simpl in H1, H2. cbn [sub_underscore_digits_from].
    destruct s' as [|d s'']; [reflexivity|].
    destruct (Ascii.eqb c "_" && is_digit d).
    + pose proof (length_skip_digits_le (String d s'')). apply IH; lia.
    + f_equal. apply IH; lia.
Qed.

End Substrings.

(** ** The label mapping *)

Section LabelMapping.
Import DescriptionClassifier.

Lemma male_in_female : PyStr.contains "MALE CAT" "FEMALE CAT" = true.
Proof. reflexivity. Qed.

Lemma female_contains_male (s : string) :
  PyStr.contains "FEMALE CAT" s = true -> PyStr.contains "MALE CAT" s = true.
Proof. apply contains_trans, male_in_female. Qed.

(** An exact canonical string gets its own id. *)
Lemma get_class_id_exact (name : string) (id : Z) :
  In (name, id) class_names_mapping -> get_class_id name = Ok id.
Proof.
  simpl. intros [H|[H|[H|[]]]]; inversion H; subst; reflexivity.
Qed.

(** A candidate that is no key and contains no canonical string makes the
    lookup of the first match fail. *)
Lemma get_class_id_no_match (cand : string) :
  dict_contains cand class_names_mapping = false ->
  actual_class_names cand = [] ->
  get_class_id cand = Raise IndexError.
Proof.
  intros Hk Ha. unfold get_class_id. rewrite Hk, Ha. reflexivity.
Qed.

(** A candidate that is no key and contains two or more canonical strings
    is OTHER. *)
Lemma get_class_id_ambiguous (cand : string) :
  dict_contains cand class_names_mapping = false ->
  (1 < length (actual_class_names cand))%nat ->
  get_class_id cand = Ok OTHER.
Proof.
  intros Hk Hl. unfold get_class_id. rewrite Hk. simpl negb. cbv iota.
  apply Nat.ltb_lt in Hl. rewrite Hl. reflexivity.
Qed.

(** The lookup raises in one case only: the candidate is no key and
    contains none of the canonical strings. *)
Lemma get_class_id_raises_only_unmatched (cand : string) (e : exn) :
  get_class_id cand = Raise e ->
  e = IndexError /\ dict_contains cand class_names_mapping = false /\
  actual_class_names cand = [].
Proof.
  unfold get_class_id, dict_contains, actual_class_names. simpl.
  destruct (String.eqb_spec cand "MALE CAT") as [->|_]; [discriminate|].
  destruct (String.eqb_spec cand "FEMALE CAT") as [->|_]; [discriminate|].
  destruct (String.eqb_spec cand "OTHER") as [->|_]; [discriminate|].
  simpl.
  destruct (PyStr.contains "MALE CAT" cand), (PyStr.contains "FEMALE CAT" cand),
    (PyStr.contains "OTHER" cand); simpl; intros H; inversion H; auto.
Qed.

(** C1 (the code departs from the claim).  The exact match and the
    ambiguous case behave as claimed, but a candidate that contains none
    of the canonical strings does not resolve to OTHER: the function
    indexes an empty list and raises IndexError.  "banana" is such a
    candidate, and so is "female cat, handsome boy", whose lower-case
    text contains neither upper-case label. *)
Theorem get_class_id_zero_matches_raises :
  get_class_id "MALE CAT" = Ok MALE /\
  get_class_id "FEMALE CAT, handsome boy" = Ok OTHER /\
  actual_class_names "banana" = [] /\
  get_class_id "banana" = Raise IndexError /\
  actual_class_names "female cat, handsome boy" = [] /\
  get_class_id "female cat, handsome boy" = Raise IndexError.
Proof. repeat split; reflexivity. Qed.

(** C10.  A candidate that is not itself a key but contains "FEMALE CAT"
    also contains "MALE CAT", so at least two canonical strings are found
    and the result is OTHER; hence no candidate outside the keys is ever
    mapped to FEMALE. *)
Theorem female_unreachable_by_containment (cand : string)
    (Hkey : dict_contains cand class_names_mapping = false) :
  (PyStr.contains "FEMALE CAT" cand = true ->
     (2 <= length (actual_class_names cand))%nat /\ get_class_id cand = Ok OTHER) /\
  get_class_id cand <> Ok FEMALE.
Proof.
  assert (Hf : PyStr.contains "FEMALE CAT" cand = true ->
          (2 <= length (actual_class_names cand))%nat).
  { intros Hf. pose proof (female_contains_male _ Hf) as Hm.
    unfold actual_class_names. simpl. rewrite Hf, Hm. simpl. lia. }
  split.
  - intros Hc. split; [auto|]. apply get_class_id_ambiguous; [exact Hkey|].
    specialize (Hf Hc). lia.
  - unfold get_class_id. rewrite Hkey. simpl negb. cbv iota.
    destruct (PyStr.contains "FEMALE CAT" cand) eqn:Hc.
    + specialize (Hf eq_refl). destruct (Nat.ltb_spec 1 (length (actual_class_names cand)));
        [discriminate | lia].
    + unfold actual_class_names. simpl. rewrite Hc.
      destruct (PyStr.contains "MALE CAT" cand), (PyStr.contains "OTHER" cand);
        simpl; discriminate.
Qed.

Lemma female_unreachable_by_containment_witness :
  dict_contains "It is a FEMALE CAT" class_names_mapping = false /\
  PyStr.contains "FEMALE CAT" "It is a FEMALE CAT" = true /\
  get_class_id "It is a FEMALE CAT" = Ok OTHER /\
  get_class_id "It is a FEMALE CAT" <> Ok FEMALE.
Proof.
  pose proof (female_unreachable_by_containment "It is a FEMALE CAT" eq_refl) as [H1 H2].
  split; [reflexivity|]. split; [reflexivity|].
  split; [apply (H1 eq_refl) | exact H2].
Defined.

End LabelMapping.

(** ** Label geometry and the single-subject rule *)

Section ImageLabelling.
Import TrainingImageProcessor.

Ltac run := unfold bind, ret, lift, modify, try_except, raise, get_world,
  append_exceptions_log.

Lemma py_div_nonzero (a : Q) (n : Z) : n <> 0 -> py_div a n = Ok (a / inject_Z n)%Q.
Proof. intros H. unfold py_div. now destruct (Z.eqb_spec n 0). Qed.

(** A conversion that returns has one tuple per detection. *)
Lemma detections_to_yolo_format_length (rows : list box) (h w : Z) ys :
  detections_to_yolo_format rows h w = Ok ys -> length ys = length rows.
Proof.
  revert ys. induction rows as [|b rows IH]; intros ys H; simpl in H.
  - now inversion H.
  - unfold rbind in H.
    destruct (py_div _ h); [|discriminate].
    destruct (py_div _ w); [|discriminate].
    destruct (py_div _ w); [|discriminate].
    destruct (py_div _ h); [|discriminate].
    destruct (detections_to_yolo_format rows h w) as [tail|]; [|discriminate].
    inversion H; subst. simpl. f_equal. now apply IH.
Qed.

(** With non-zero image dimensions the conversion returns. *)
Lemma detections_to_yolo_format_ok (rows : list box) (h w : Z) :
  h <> 0 -> w <> 0 -> exists ys, detections_to_yolo_format rows h w = Ok ys.
Proof.
  intros Hh Hw. induction rows as [|b rows [tail IH]]; simpl.
  - now eexists.
  - rewrite !py_div_nonzero by assumption. simpl. rewrite IH. simpl. now eexists.
Qed.

(** What the conversion computes for one detection, in terms of the
    detector's box: the horizontal extent of the box is divided by the
    image height and the vertical extent by the image width. *)
Lemma detections_to_yolo_format_one (b : box) (h w : Z) :
  h <> 0 -> w <> 0 ->
  detections_to_yolo_format [b] h w =
  Ok [((y_min b + (y_max b - y_min b) / 2) / inject_Z w,
       (x_min b + (x_max b - x_min b) / 2) / inject_Z h,
       (y_max b - y_min b) / inject_Z w,
       (x_max b - x_min b) / inject_Z h)%Q].
Proof.
  intros Hh Hw. simpl. rewrite !py_div_nonzero by assumption. reflexivity.
Qed.

(** C3 (the code departs from the claim).  For the box with horizontal
    extent 10..30 and vertical extent 20..40 in an image 100 wide and 200
    high the claimed values are center_x = 1/5, center_y = 3/20,
    box_width = 1/5 and box_height = 1/10; the code, which reads the row
    of xyxy as (ymin, xmin, ymax, xmax), returns center_x = 3/10,
    center_y = 1/10, box_width = 1/5 and box_height = 1/10. *)
Theorem yolo_format_swaps_axes :
  exists cx cy bw bh,
    detections_to_yolo_format [Scenario.small_box] 200 100 = Ok [(cx, cy, bw, bh)] /\
    (cx == 3 # 10 /\ cy == 1 # 10 /\ bw == 1 # 5 /\ bh == 1 # 10)%Q /\
    (Spec.center_x Scenario.small_box 100 == 1 # 5 /\
     Spec.center_y Scenario.small_box 200 == 3 # 20 /\
     Spec.box_width Scenario.small_box 100 == 1 # 5 /\
     Spec.box_height Scenario.small_box 200 == 1 # 10)%Q /\
    ~ (cx == Spec.center_x Scenario.small_box 100)%Q /\
    ~ (cy == Spec.center_y Scenario.small_box 200)%Q.
Proof.
  do 4 eexists. split; [reflexivity|].
  repeat split; try reflexivity; intros H; vm_compute in H; discriminate.
Qed.

Section WithEnv.
Variable E : env.

(** What a call does.  It writes the label file and returns [True]; or it
    appends one line to the exceptions log and returns [False]; or, when
    the directory of that log is missing, the write to the log fails, the
    handler's write fails too, and the call raises FileNotFoundError
    having changed nothing. *)
Lemma process_training_image_spec (image_path : string) (label : Z) (w : world) :
  (exists line,
     process_training_image E image_path label w
     = (Ok true, set_labels (insert (label_file_path E image_path) [line]) w) /\
     ll_class line = label) \/
  (log_dir w = true /\
   exists msg,
     process_training_image E image_path label w
     = (Ok false, log_exception (image_error image_path msg) w)) \/
  (log_dir w = false /\
   process_training_image E image_path label w
   = (Raise (FileNotFoundError (EXCEPTIONS_FILE_NAME E)), w)).
Proof.
  unfold process_training_image. run.
  destruct (imread E image_path) as [image|]; simpl.
  2: { right. destruct (log_dir w) eqn:Hd; simpl; rewrite ?Hd; simpl.
       - left. split; [reflexivity|]. eexists. reflexivity.
       - right. split; reflexivity. }
  destruct (detect_objects E image) as [detections|e]; simpl.
  2: { right. destruct (log_dir w) eqn:Hd; simpl.
       - left. split; [reflexivity|]. eexists. reflexivity.
       - right. split; reflexivity. }
  destruct (det_len (cat_detections_of detections) =? 0)%nat eqn:H0; simpl.
  { right. destruct (log_dir w) eqn:Hd; simpl; rewrite ?Hd; simpl.
    - left. split; [reflexivity|]. eexists. reflexivity.
    - right. split; reflexivity. }
  destruct (detections_to_yolo_format _ _ _) as [ys|e] eqn:Hys; simpl.
  2: { right. destruct (log_dir w) eqn:Hd; simpl.
       - left. split; [reflexivity|]. eexists. reflexivity.
       - right. split; reflexivity. }
  destruct (1 <? length ys)%nat eqn:H1; simpl.
  { right. destruct (log_dir w) eqn:Hd; simpl; rewrite ?Hd; simpl.
    - left. split; [reflexivity|]. eexists. reflexivity.
    - right. split; reflexivity. }
  left.
  pose proof (detections_to_yolo_format_length _ _ _ _ Hys) as Hlen.
  apply Nat.eqb_neq in H0. apply Nat.ltb_ge in H1. unfold det_len in H0.
  destruct ys as [|[[[cx cy] bw] bh] [|y ys]]; simpl in Hlen, H1; try lia.
  eexists. split; reflexivity.
Qed.

(** With the directory of the exceptions log in place, the labelling call
    never raises: every failure inside it is logged and reported as
    [False]. *)
Lemma process_training_image_returns (image_path : string) (label : Z) (w : world) :
  log_dir w = true ->
  exists b, fst (process_training_image E image_path label w) = Ok b.
Proof.
  intros Hd.
  destruct (process_training_image_spec image_path label w)
    as [(line & -> & _)|[(_ & line & ->)|(Hd' & _)]]; [now eexists | now eexists | congruence].
Qed.

(** The labelling call neither creates nor removes the directory of the
    exceptions log. *)
Lemma process_training_image_log_dir (image_path : string) (label : Z) (w : world) :
  log_dir (snd (process_training_image E image_path label w)) = log_dir w.
Proof.
  destruct (process_training_image_spec image_path label w)
    as [(line & -> & _)|[(Hd & line & ->)|(_ & ->)]]; simpl; congruence.
Qed.

(** The labelling call leaves the classification log and the trace of
    remote calls alone. *)
Lemma process_training_image_logs (image_path : string) (label : Z) (w : world) :
  classes_log (snd (process_training_image E image_path label w)) = classes_log w /\
  trace (snd (process_training_image E image_path label w)) = trace w.
Proof.
  destruct (process_training_image_spec image_path label w)
    as [(line & -> & _)|[(_ & line & ->)|(_ & ->)]]; now split.
Qed.

(** The rows the code keeps are the detections of the target class. *)
Lemma cat_detections_qualifying (detections : Detections) :
  det_len (cat_detections_of detections) = Spec.qualifying detections.
Proof.
  unfold det_len, cat_detections_of, select_class, xyxy, Spec.qualifying, class_id,
    Spec.target_class.
  rewrite length_map.
  induction detections as [|[b c] rows IH]; [reflexivity|]. simpl.
  destruct (Z.eq_dec c 15) as [Heq|Hneq].
  - rewrite (proj2 (Z.eqb_eq c 15) Heq). simpl. now rewrite IH.
  - rewrite (proj2 (Z.eqb_neq c 15) Hneq). exact IH.
Qed.

(** For a readable image with non-zero dimensions on which the detector
    returns [n] detections of the target class: the call returns [True],
    having written the one-line label file, exactly when [n = 1]; for any
    other [n] the labels directory is unchanged, and the call returns
    [False] after one line in the exceptions log, or raises when that log
    cannot be written. *)
Lemma process_training_image_by_count
    (image_path : string) (label : Z) (w : world)
    (image : image) (detections : Detections)
    (Hread : imread E image_path = Some image)
    (Hdet : detect_objects E image = Ok detections)
    (Hh : img_shape_0 image <> 0) (Hw : img_shape_1 image <> 0) :
  let n := Spec.qualifying detections in
  (n = 1%nat ->
   exists line,
     process_training_image E image_path label w
     = (Ok true, set_labels (insert (label_file_path E image_path) [line]) w) /\
     ll_class line = label) /\
  (n <> 1%nat ->
   process_training_image E image_path label w
   = if log_dir w
     then (Ok false,
           log_exception
             (image_error image_path
                (if (n =? 0)%nat then "No cats detected"
                 else "More than 1 cat detected. Skipping")) w)
     else (Raise (FileNotFoundError (EXCEPTIONS_FILE_NAME E)), w)).
Proof.
  intros n. subst n. rewrite <- cat_detections_qualifying.
  set (n := det_len (cat_detections_of detections)).
  unfold process_training_image. run.
  rewrite Hread. simpl. rewrite Hdet. simpl. fold n.
  destruct (Nat.eqb_spec n 0) as [H0|H0]; simpl.
  { split; [lia|]. intros _. destruct (log_dir w) eqn:Hd; simpl; rewrite ?Hd; reflexivity. }
  destruct (detections_to_yolo_format_ok (xyxy (cat_detections_of detections)) _ _ Hh Hw)
    as [ys Hys].
  rewrite Hys. simpl.
  pose proof (detections_to_yolo_format_length _ _ _ _ Hys) as Hlen.
  change (length (xyxy (cat_detections_of detections))) with n in Hlen.
  destruct (Nat.ltb_spec 1 (length ys)) as [H1|H1]; simpl.
  { split; [lia|]. intros _. destruct (log_dir w) eqn:Hd; simpl; rewrite ?Hd; reflexivity. }
  split; [|lia]. intros _.
  destruct ys as [|[[[cx cy] bw] bh] [|y ys]]; simpl in Hlen, H1; try lia.
  eexists. split; reflexivity.
Qed.

End WithEnv.

(** C7 (the code departs from the claim).  In a first run, where the
    directory of the exceptions log does not exist yet, an image that
    shows a dog and no cat (no detection of the target class), and an
    image that shows two cats, do not make the call report failure: the
    write to the log raises FileNotFoundError, the handler's write raises
    it again, and the exception leaves the call and ends the whole run.
    No label file is written.  With the directory in place the same calls
    return [False] after logging one line. *)
Theorem unlabelled_image_raises_without_log_directory :
  let image_path := "/repo/data/images/abc_1.png" in
  Spec.qualifying Scenario2.one_dog = 0%nat /\
  Spec.qualifying Scenario2.two_cats = 2%nat /\
  log_dir empty_world = false /\
  process_training_image Scenario2.E_dog image_path 0 empty_world
  = (Raise (FileNotFoundError (EXCEPTIONS_FILE_NAME Scenario2.E_dog)), empty_world) /\
  process_training_image Scenario2.E_two_cats image_path 0 empty_world
  = (Raise (FileNotFoundError (EXCEPTIONS_FILE_NAME Scenario2.E_two_cats)), empty_world) /\
  process_training_image Scenario2.E_dog image_path 0 (with_log_dir empty_world)
  = (Ok false,
     log_exception "Image path: /repo/data/images/abc_1.png. Error: No cats detected"
       empty_world) /\
  process_training_image Scenario2.E_two_cats image_path 0 (with_log_dir empty_world)
  = (Ok false,
     log_exception
       "Image path: /repo/data/images/abc_1.png. Error: More than 1 cat detected. Skipping"
       empty_world) /\
  fst (ETL.process_training_data Scenario2.E_dog 0 empty_world)
  = Raise (FileNotFoundError
             "/repo/cat_gender_detector/object_detection/image_processing_exceptions.log") /\
  labels (snd (ETL.process_training_data Scenario2.E_dog 0 empty_world)) = ∅.
Proof. repeat split; vm_compute; reflexivity. Qed.

(** C2 (the code departs from the claim).  The file written for an image
    has exactly one line, but its geometry can leave [0,1] although the
    box lies within the image: for a landscape image 200 wide and 100 high
    whose single cat fills the frame, the horizontal extent 200 is divided
    by the height 100 and the line carries the height 2. *)
Theorem label_geometry_leaves_unit_interval :
  Spec.box_within Scenario.full_box 200 100 /\
  exists line,
    process_training_image Scenario.E_male "/repo/data/images/abc_1.png" 0 empty_world
    = (Ok true,
       set_labels (insert "/repo/data/labels/abc_1.txt" [line]) empty_world) /\
    (ll_height line == 2)%Q /\ ~ Spec.in_unit (ll_height line).
Proof.
  split.
  - unfold Spec.box_within; simpl. repeat split; intros H; vm_compute in H; discriminate.
  - eexists. split; [reflexivity|]. split; [reflexivity|].
    intros [_ H]. vm_compute in H. apply H. reflexivity.
Qed.

End ImageLabelling.

(** ** Classification, the ledger and failures of single items *)

Section Orchestration.
Import ETL.

Ltac run := unfold bind, ret, lift, modify, try_except, raise, get_world,
  append_exceptions_log.

Section WithEnv.
Variable E : env.

(** [get_correct_class_name] always returns a string. *)
Lemma get_correct_class_name_returns (text_path : string) (w : world) :
  exists name, fst (get_correct_class_name E text_path w) = Ok name.
Proof.
  unfold get_correct_class_name. run.
  destruct (read_text E text_path) as [text|e]; simpl; [|now eexists].
  destruct (classify_description E text) as [name|e]; simpl; now eexists.
Qed.

(** The loop over the images of a post does not touch the classification
    log. *)
Lemma process_images_classes_log (image_paths : list string) (id acc : Z) (w : world) :
  classes_log (snd (process_images E image_paths id acc w)) = classes_log w.
Proof.
  revert acc w. induction image_paths as [|p ps IH]; intros acc w; simpl; [reflexivity|].
  unfold bind.
  pose proof (proj1 (process_training_image_logs E p id w)) as Hl.
  destruct (TrainingImageProcessor.process_training_image E p id w) as [[b|e] w1];
    simpl in Hl; [rewrite IH|]; exact Hl.
Qed.

(** It neither creates nor removes the directory of the exceptions log. *)
Lemma process_images_log_dir (image_paths : list string) (id acc : Z) (w : world) :
  log_dir (snd (process_images E image_paths id acc w)) = log_dir w.
Proof.
  revert acc w. induction image_paths as [|p ps IH]; intros acc w; simpl; [reflexivity|].
  unfold bind.
  pose proof (process_training_image_log_dir E p id w) as Hl.
  destruct (TrainingImageProcessor.process_training_image E p id w) as [[b|e] w1];
    simpl in Hl; [rewrite IH|]; exact Hl.
Qed.

(** With the directory of the exceptions log in place the loop returns. *)
Lemma process_images_returns (image_paths : list string) (id acc : Z) (w : world) :
  log_dir w = true ->
  exists n, fst (process_images E image_paths id acc w) = Ok n.
Proof.
  revert acc w. induction image_paths as [|p ps IH]; intros acc w Hd; simpl; [now eexists|].
  unfold bind.
  pose proof (process_training_image_returns E p id w Hd) as [b Hb].
  pose proof (process_training_image_log_dir E p id w) as Hl.
  destruct (TrainingImageProcessor.process_training_image E p id w) as [r w1].
  simpl in Hb, Hl. subst r. apply IH. congruence.
Qed.

(** After [get_correct_class_name] the directory of the exceptions log
    exists if it did before; the handler creates it. *)
Lemma get_correct_class_name_log_dir (text_path : string) (w : world) :
  log_dir w = true -> log_dir (snd (get_correct_class_name E text_path w)) = true.
Proof.
  intros Hd. unfold get_correct_class_name. run.
  destruct (read_text E text_path) as [text|e]; simpl; [|reflexivity].
  destruct (classify_description E text) as [name|e]; simpl; [exact Hd | reflexivity].
Qed.

(** With the directory of the exceptions log in place, the one failure of
    an item that leaves [process_training_post]: the classifier's answer
    is no canonical string and contains none, and the exception is the
    IndexError of [get_class_id]. *)
Lemma process_training_post_raises_only_unmatched
    (text_file_path images_path : string) (processed : list string) (w : world) (e : exn) :
  log_dir w = true ->
  fst (process_training_post E text_file_path processed images_path w) = Raise e ->
  e = IndexError /\
  exists name,
    fst (get_correct_class_name E text_file_path w) = Ok name /\
    DescriptionClassifier.dict_contains name DescriptionClassifier.class_names_mapping
    = false /\
    DescriptionClassifier.actual_class_names name = [].
Proof.
  intros Hd. unfold process_training_post.
  destruct (existsb _ processed); [discriminate|].
  unfold bind at 1.
  pose proof (get_correct_class_name_returns text_file_path w) as [name Hname].
  pose proof (get_correct_class_name_log_dir text_file_path w Hd) as Hd1.
  destruct (get_correct_class_name E text_file_path w) as [r1 w1].
  simpl in Hname, Hd1. subst r1. simpl. unfold bind at 1. unfold lift.
  destruct (DescriptionClassifier.get_class_id name) as [id|e'] eqn:Hid.
  - destruct (negb (id =? 2)); [|discriminate].
    destruct (glob E _) as [|p ps]; [discriminate|].
    unfold bind.
    pose proof (process_images_returns (p :: ps) id 0 w1 Hd1) as [n Hn].
    destruct (process_images E (p :: ps) id 0 w1) as [r w3].
    simpl in Hn. subst r. destruct (n =? 0); discriminate.
  - simpl. intros H. inversion H; subst e'.
    destruct (get_class_id_raises_only_unmatched _ _ Hid) as (-> & Hk & Ha).
    split; [reflexivity|]. now exists name.
Qed.

(** C5, as amended.  A classification attempt whose text is read and whose
    remote call returns appends exactly one record (text path, returned
    string, timestamp) to the classification log, and that record stays
    whatever the labelling of the images does afterwards.  When the read
    or the remote call raises, the failure is caught, one line goes to the
    exceptions log, the text is given "OTHER", and no record is
    appended. *)
Theorem classification_record_appended_on_success
    (text_file_path images_path : string) (processed : list string) (w : world)
    (Hnew : existsb (String.eqb (PyStr.path_name text_file_path)) processed = false) :
  let r := fst (get_correct_class_name E text_file_path w) in
  let w1 := snd (get_correct_class_name E text_file_path w) in
  let w2 := snd (process_training_post E text_file_path processed images_path w) in
  match rbind (read_text E text_file_path) (classify_description E) with
  | Ok name =>
      r = Ok name /\
      classes_log w1 =
        (classes_log w ++
         [Build_ClassificationRecord text_file_path name
            (strftime E (length (classes_log w)))])%list /\
      exceptions_log w1 = exceptions_log w
  | Raise e =>
      r = Ok "OTHER" /\
      classes_log w1 = classes_log w /\
      exceptions_log w1 = (exceptions_log w ++ [text_error text_file_path e])%list
  end /\
  classes_log w2 = classes_log w1.
Proof.
  intros r w1 w2. split.
  - subst r w1. unfold get_correct_class_name, rbind. run.
    destruct (read_text E text_file_path) as [text|e]; simpl; [|auto].
    destruct (classify_description E text) as [name|e]; simpl; auto.
  - subst w1 w2. unfold process_training_post. rewrite Hnew. unfold bind at 1.
    pose proof (get_correct_class_name_returns text_file_path w) as [name Hname].
    destruct (get_correct_class_name E text_file_path w) as [r1 w1].
    simpl in Hname. subst r1. simpl. unfold bind at 1. unfold lift.
    destruct (DescriptionClassifier.get_class_id name) as [id|e]; [|reflexivity].
    destruct (negb (id =? 2)); [|reflexivity].
    destruct (glob E _) as [|p ps]; [reflexivity|].
    unfold bind.
    pose proof (process_images_classes_log (p :: ps) id 0 w1) as Hl.
    destruct (process_images E (p :: ps) id 0 w1) as [[n|e] w3]; simpl in *;
      [destruct (n =? 0)|]; exact Hl.
Qed.

(** A text whose file name is in the list the code computes from the
    labels directory is skipped: the call returns (False, "processed") and
    leaves the world as it was, so the classifier is not called, nothing
    is logged and no label is written. *)
Lemma processed_text_is_skipped
    (text_file_path images_path : string) (w0 w : world) :
  let names := processed_names_of (glob_labels (labels_path E) w0) in
  In (PyStr.path_name text_file_path) names ->
  get_processed_text_file_names (labels_path E) w0 = (Ok names, w0) /\
  process_training_post E text_file_path names images_path w
  = (Ok (false, "processed"), w).
Proof.
  intros names Hin. split; [reflexivity|].
  unfold process_training_post.
  assert (Hex : existsb (String.eqb (PyStr.path_name text_file_path)) names = true).
  { apply existsb_exists. exists (PyStr.path_name text_file_path).
    split; [exact Hin | apply String.eqb_refl]. }
  rewrite Hex. reflexivity.
Qed.

(** The file names derived from label files: the image index goes, and so
    does every other underscore followed by digits. *)
Example processed_names_examples :
  processed_names_of
    ["/repo/data/labels/abc_1.txt"; "/repo/data/labels/1k2j3h_12.txt";
     "/home/u_1/data/labels/77_2.txt"; "/repo/data/labels/a_1b_2.txt"]
  = ["abc.txt"; "1k2j3h.txt"; "77.txt"; "ab.txt"].
Proof. reflexivity. Qed.

(** A run over texts that are all in the ledger makes no remote call and
    changes nothing; every text is counted under "processed". *)
Lemma rerun_leaves_world (texts names : list string) (sleep_time : Q)
    (skipped : gmap string (list string)) (w : world) :
  Forall (fun t => In (PyStr.path_name t) names) texts ->
  snd (process_text_files E texts names sleep_time skipped w) = w.
Proof.
  intros H. revert skipped. induction H as [|t ts Ht _ IH]; intros skipped; [reflexivity|].
  simpl. unfold bind at 1. unfold process_training_post.
  assert (Hex : existsb (String.eqb (PyStr.path_name t)) names = true).
  { apply existsb_exists. exists (PyStr.path_name t). split; [exact Ht | apply String.eqb_refl]. }
  rewrite Hex. simpl. apply IH.
Qed.

End WithEnv.

Lemma classification_record_appended_on_success_witness :
  classes_log (snd (process_training_post Scenario.E_male "/repo/data/texts/abc.txt" []
                      "/repo/data/images" empty_world))
  = classes_log (snd (get_correct_class_name Scenario.E_male "/repo/data/texts/abc.txt"
                        empty_world)).
Proof.
  exact (proj2 (classification_record_appended_on_success Scenario.E_male
                  "/repo/data/texts/abc.txt" "/repo/data/images" [] empty_world eq_refl)).
Defined.

(** C5, the claim as stated fails: with the remote classifier unreachable
    the attempt is made, the text falls back to "OTHER", one line is
    written to the exceptions log and the classification log stays
    empty. *)
Lemma failed_classification_appends_no_record :
  get_correct_class_name Scenario.E_down "/repo/data/texts/abc.txt" empty_world
  = (Ok "OTHER",
     emit (EvClassify "caption")
       (log_exception "Text path: /repo/data/texts/abc.txt. Error: Connection error."
          empty_world)) /\
  classes_log (snd (get_correct_class_name Scenario.E_down "/repo/data/texts/abc.txt"
                      empty_world)) = [] /\
  ~ (forall (E : env) (text_path : string) (w : world),
       length (classes_log (snd (get_correct_class_name E text_path w)))
       = S (length (classes_log w))).
Proof.
  split; [reflexivity|]. split; [reflexivity|].
  intros H. specialize (H Scenario.E_down "/repo/data/texts/abc.txt" empty_world).
  vm_compute in H. discriminate.
Qed.

(** C6 (the code departs from the claim).  The labels directory holds
    the labels of image 1 of the post [abc] and of image 1 of the post
    [post_1].  Stripping the image index from the label names gives the
    texts [abc.txt] and [post_1.txt]; the code removes every underscore
    followed by digits and lists [abc.txt] and [post.txt].  So [abc.txt]
    is skipped, while [post_1.txt], although its image is labelled, is
    not: the remote classifier is called for it again, a record is
    logged and its image is labelled once more. *)
Theorem indexed_text_is_classified_again :
  let E := Scenario2.E_indexed in
  let w := Scenario2.indexed_world in
  let label_files := glob_labels (labels_path E) w in
  label_files = ["/repo/data/labels/abc_1.txt"; "/repo/data/labels/post_1_1.txt"] /\
  Spec.derived_text_names label_files = ["abc.txt"; "post_1.txt"] /\
  get_processed_text_file_names (labels_path E) w = (Ok ["abc.txt"; "post.txt"], w) /\
  process_training_post E "/repo/data/texts/abc.txt" ["abc.txt"; "post.txt"]
    (images_path E) w
  = (Ok (false, "processed"), w) /\
  fst (process_training_post E "/repo/data/texts/post_1.txt" ["abc.txt"; "post.txt"]
         (images_path E) w)
  = Ok (true, "OK") /\
  trace (snd (process_training_post E "/repo/data/texts/post_1.txt" ["abc.txt"; "post.txt"]
                (images_path E) w))
  = [EvClassify "caption"] /\
  map text_path
    (classes_log (snd (process_training_post E "/repo/data/texts/post_1.txt"
                         ["abc.txt"; "post.txt"] (images_path E) w)))
  = ["/repo/data/texts/post_1.txt"].
Proof. repeat split; vm_compute; reflexivity. Qed.

(** C4 (the code departs from the claim).  The classifier answers "banana"
    for the first of two texts.  The answer is logged, then
    [get_class_id] raises IndexError outside every handler: the run stops
    with that exception, nothing is written to the exceptions log, the
    second text is never classified, and no statistics are returned. *)
Theorem unmatched_answer_aborts_run :
  glob Scenario.E_banana (texts_path Scenario.E_banana ++ "/*.txt")
  = ["/repo/data/texts/abc.txt"; "/repo/data/texts/xyz.txt"] /\
  fst (process_training_data Scenario.E_banana 0 empty_world) = Raise IndexError /\
  exceptions_log (snd (process_training_data Scenario.E_banana 0 empty_world)) = [] /\
  trace (snd (process_training_data Scenario.E_banana 0 empty_world))
  = [EvClassify "caption"] /\
  map text_path (classes_log (snd (process_training_data Scenario.E_banana 0 empty_world)))
  = ["/repo/data/texts/abc.txt"].
Proof. repeat split; vm_compute; reflexivity. Qed.

End Orchestration.

(** ** The ingestion loop *)

Section Ingestion.
Import ETL.

(** the iteration count of [parse_posts] *)
Lemma num_iterations_bounds (N M : Z) :
  0 <= N -> 0 < M ->
  let c := N / M + (if negb (N mod M =? 0) then 1 else 0) in
  0 <= c /\ N <= c * M /\ (0 < N -> (c - 1) * M < N) /\ (N = 0 -> c = 0).
Proof.
  intros HN HM c.
  pose proof (Z.div_mod N M ltac:(lia)) as Hdm.
  pose proof (Z.mod_pos_bound N M HM) as Hmod.
  pose proof (Z.div_pos N M HN HM) as Hdiv.
  subst c. destruct (Z.eqb_spec (N mod M) 0) as [H0|H0]; simpl.
  - split; [nia|]. split; [nia|]. split; [nia|]. intros ->. now rewrite Z.div_0_l by lia.
  - split; [nia|]. split; [nia|]. split; [nia|]. intros ->.
    rewrite Z.mod_0_l in H0 by lia. congruence.
Qed.




Section Loop.
Variables (P : PostParser) (g : string) (N M : Z) (D : Q).
Hypothesis Hok : forall c o, get_posts_batch P g c o = Ok tt.
Hypothesis HN : 0 <= N.
Hypothesis HM : 0 < M.
Hypothesis HD : (0 <= D)%Q.

Let c : Z := N / M + (if negb (N mod M =? 0) then 1 else 0).
Let n : nat := Z.to_nat c.








End Loop.

(** A negative delay ends the run after the first request whenever a
    second request is due: [time.sleep] raises ValueError. *)
Lemma parse_posts_negative_delay (E : env) (P : PostParser) (g : string) (N M : Z) (D : Q)
    (w : world) :
  post_parser E = Some P -> 0 < M -> M < N -> (D < 0)%Q ->
  get_posts_batch P g M 0 = Ok tt ->
  parse_posts E g N M D w
  = (Raise (ValueError "sleep length must be non-negative"),
     emit_all [EvGetPostsBatch g M 0] w).
Proof.
  intros HP HM Hmany HD Hfirst. unfold parse_posts. rewrite HP.
  destruct (Z.eqb_spec M 0) as [->|_]; [lia|].
  destruct (num_iterations_bounds N M ltac:(lia) HM) as (Hc0 & Hle & _ & _).
  set (c := N / M + (if negb (N mod M =? 0) then 1 else 0)) in *.
  assert (Hc : 2 <= c) by nia.
  destruct (Z.to_nat c) as [|k] eqn:Hk; [lia|].
  cbn [parse_loop]. unfold bind at 1. unfold modify at 1. unfold bind at 1. unfold lift at 1.
  rewrite Z.min_r by lia. rewrite Hfirst. unfold bind at 1.
  replace (0 <? c - 1) with true by (symmetry; apply Z.ltb_lt; lia).
  unfold sleep.
  destruct (Qle_bool 0 D) eqn:Hb; [|reflexivity].
  apply Qle_bool_iff in Hb. exfalso. apply (Qlt_not_le _ _ HD Hb).
Qed.




End Ingestion.

(** ** The split *)

Section SplitCounts.
Import Binary64 DatasetManager.

(** the two literals are the binary64 numbers nearest to 7/10 and 2/10:
    53-bit mantissas, less than half a unit in the last place away *)
Lemma literals_nearest :
  (2 ^ 52 <= mant lit_0_7 < 2 ^ 53 /\ Z.abs (10 * mant lit_0_7 - 7 * 2 ^ 53) < 5) /\
  (2 ^ 52 <= mant lit_0_2 < 2 ^ 53 /\ Z.abs (10 * mant lit_0_2 - 2 * 2 ^ 55) < 5).
Proof. vm_compute. repeat split; congruence. Qed.

(** the literals of the model are the machine's [0.7] and [0.2] *)
#[warnings="-inexact-float"]
Lemma literals_match_hardware :
  Prim2SF hw_0_7 = S754_finite false (Z.to_pos (mant lit_0_7)) (expo lit_0_7) /\
  Prim2SF hw_0_2 = S754_finite false (Z.to_pos (mant lit_0_2)) (expo lit_0_2) /\
  Prim2SF hw_0_7 = Prim2SF 0.7%float /\ Prim2SF hw_0_2 = Prim2SF 0.2%float.
Proof. repeat split; vm_compute; reflexivity. Qed.

(** for every length up to 2000 the model computes the counts the machine
    computes *)
Lemma counts_match_hardware :
  forallb (fun k => (train_count k =? hw_count hw_0_7 k)
                    && (val_count k =? hw_count hw_0_2 k)) (seq 0 2001) = true.
Proof. vm_compute. reflexivity. Qed.

Lemma round_exact (n e : Z) :
  n < 2 ^ 53 -> round_nearest_even n e = {| mant := n; expo := e |}.
Proof. intros H. unfold round_nearest_even. apply Z.ltb_lt in H. now rewrite H. Qed.

(** rounding a number of 54 to 94 bits: the exponent grows by the number
    of bits dropped and the mantissa is the truncated one or the next *)
Lemma round_inexact (n e : Z) :
  2 ^ 53 <= n < 2 ^ 94 ->
  let s := Z.log2 n - 52 in
  let f := round_nearest_even n e in
  1 <= s <= 41 /\ expo f = e + s /\
  n / 2 ^ s <= mant f <= n / 2 ^ s + 1 /\
  2 ^ 52 * 2 ^ s <= n < 2 ^ 53 * 2 ^ s.
Proof.
  intros [Hlo Hhi] s f.
  assert (Hpos : 0 < n) by (change (2 ^ 53) with 9007199254740992 in Hlo; lia).
  assert (Hs : 1 <= s <= 41).
  { subst s. apply (Z.log2_le_pow2 n 53 Hpos) in Hlo.
    apply (Z.log2_lt_pow2 n 94 Hpos) in Hhi. lia. }
  split; [exact Hs|].
  subst f. unfold round_nearest_even.
  destruct (Z.ltb_spec n (2 ^ 53)) as [H|_]; [lia|]. fold s. simpl.
  split; [reflexivity|]. split.
  - destruct (_ || _); lia.
  - pose proof (Z.log2_spec n Hpos) as [H1 H2].
    replace (Z.log2 n) with (52 + s) in H1 by (subst s; lia).
    replace (Z.succ (Z.log2 n)) with (53 + s) in H2 by (subst s; lia).
    rewrite Z.pow_add_r in H1, H2 by lia. split; assumption.
Qed.

(** The product of a length of 2 to 2^40 with a literal of exponent [-p]:
    the integer part is [q' / T] for a mantissa [q'] within one unit [S]
    of the exact product, with [S * T = 2^p]. *)
Lemma product_to_int (K m p : Z) :
  2 <= K < 2 ^ 40 -> 2 ^ 52 <= m < 2 ^ 53 -> 53 <= p <= 60 ->
  exists S T q',
    0 < S /\ 2 ^ 12 <= T /\ S * T = 2 ^ p /\
    q' * S - S <= K * m < q' * S + S /\
    to_int (mul (of_int K) {| mant := m; expo := - p |}) = q' / T.
Proof.
  intros HK Hm Hp.
  change (2 ^ 40) with 1099511627776 in HK.
  change (2 ^ 52) with 4503599627370496 in Hm.
  change (2 ^ 53) with 9007199254740992 in Hm.
  unfold mul, of_int.
  rewrite (round_exact K 0) by (change (2 ^ 53) with 9007199254740992; lia).
  simpl mant. simpl expo.
  assert (Hn : 2 ^ 53 <= K * m < 2 ^ 94).
  { change (2 ^ 53) with 9007199254740992.
    change (2 ^ 94) with 19807040628566084398385987584. nia. }
  destruct (round_inexact (K * m) (- p) Hn) as (Hs & He & Hq & _).
  set (s := Z.log2 (K * m) - 52) in *.
  set (f := round_nearest_even (K * m) (- p)) in *.
  exists (2 ^ s), (2 ^ (p - s)), (mant f).
  assert (HS : 0 < 2 ^ s) by (apply Z.pow_pos_nonneg; lia).
  split; [exact HS|]. split.
  { apply Z.pow_le_mono_r; lia. }
  split.
  { rewrite <- Z.pow_add_r by lia. f_equal. lia. }
  split.
  { pose proof (Z.mul_div_le (K * m) (2 ^ s) HS) as H1.
    pose proof (Z.mul_succ_div_gt (K * m) (2 ^ s) HS) as H2.
    revert Hq H1 H2. generalize (K * m / 2 ^ s) (mant f) (2 ^ s) (K * m).
    intros d q' S0 n [Hq1 Hq2] H1 H2. nia. }
  unfold to_int. change (0 + - p) with (- p). fold f. rewrite He.
  destruct (Z.leb_spec 0 (- p + s)) as [H|_]; [lia|].
  do 2 f_equal. lia.
Qed.

Lemma round_mant_nonneg (n e : Z) : 0 <= n -> 0 <= mant (round_nearest_even n e).
Proof.
  intros Hn. unfold round_nearest_even.
  destruct (n <? 2 ^ 53); simpl; [exact Hn|].
  assert (0 <= n / 2 ^ (Z.log2 n - 52))
    by (apply Z_div_nonneg_nonneg; [exact Hn | apply Z.pow_nonneg; lia]).
  destruct (_ || _); lia.
Qed.

Lemma to_int_nonneg (x : float) : 0 <= mant x -> 0 <= to_int x.
Proof.
  intros Hm. unfold to_int. destruct (0 <=? expo x).
  - apply Z.mul_nonneg_nonneg; [exact Hm | apply Z.pow_nonneg; lia].
  - apply Z_div_nonneg_nonneg; [exact Hm | apply Z.pow_nonneg; lia].
Qed.

Lemma counts_nonneg (K : nat) : 0 <= train_count K /\ 0 <= val_count K.
Proof.
  split; apply to_int_nonneg, round_mant_nonneg;
    (apply Z.mul_nonneg_nonneg; [apply round_mant_nonneg; lia | vm_compute; congruence]).
Qed.

(** [floor(p * K)] for the two fractions, as integer divisions *)
Lemma floor_frac_7_10 (K : nat) : Spec.floor_frac (7 # 10) K = 7 * Z.of_nat K / 10.
Proof. unfold Spec.floor_frac, Qfloor, Qmult, inject_Z; simpl. f_equal. Qed.

Lemma floor_frac_2_10 (K : nat) : Spec.floor_frac (2 # 10) K = 2 * Z.of_nat K / 10.
Proof. unfold Spec.floor_frac, Qfloor, Qmult, inject_Z; simpl. f_equal. Qed.

(** the training count is the floor of 0.7 K or one less *)
Lemma train_count_bounds (K : nat) :
  Z.of_nat K < 2 ^ 40 ->
  7 * Z.of_nat K / 10 - 1 <= train_count K <= 7 * Z.of_nat K / 10.
Proof.
  intros HK.
  destruct K as [|[|K']]; [vm_compute; split; congruence .. |].
  set (k := Z.of_nat (S (S K'))) in *.
  assert (Hk2 : 2 <= k) by (subst k; lia).
  unfold train_count. fold k.
  destruct (product_to_int k (mant lit_0_7) 53) as (S0 & T & q' & HS & HT & HST & Hq & Hv);
    [lia | vm_compute; split; congruence | lia |].
  assert (Hv' : to_int (mul (of_int k) train_size) = q' / T) by exact Hv.
  rewrite Hv'. clear Hv Hv'.
  simpl mant in Hq.
  change (2 ^ 40) with 1099511627776 in HK.
  change (2 ^ 53) with 9007199254740992 in HST.
  change (2 ^ 12) with 4096 in HT.
  pose proof (Z.div_mod (7 * k) 10 ltac:(lia)) as Hdm.
  pose proof (Z.mod_pos_bound (7 * k) 10 ltac:(lia)) as Hmod.
  set (F := 7 * k / 10) in *.
  split.
  - apply Z.div_le_lower_bound; [lia|].
    (* (F - 1) * T <= q' follows from (F - 1) * T * S < (q' + 1) * S *)
    assert (H : T * (F - 1) * S0 < (q' + 1) * S0).
    { replace (T * (F - 1) * S0) with ((S0 * T) * (F - 1)) by ring. rewrite HST. nia. }
    apply Z.mul_lt_mono_pos_r in H; lia.
  - apply Z.lt_succ_r. apply Z.div_lt_upper_bound; [lia|].
    assert (H : q' * S0 < T * Z.succ F * S0).
    { replace (T * Z.succ F * S0) with ((S0 * T) * (F + 1)) by ring. rewrite HST. nia. }
    apply Z.mul_lt_mono_pos_r in H; lia.
Qed.

(** the validation count is exactly the floor of 0.2 K *)
Lemma val_count_exact (K : nat) :
  Z.of_nat K < 2 ^ 40 -> val_count K = 2 * Z.of_nat K / 10.
Proof.
  intros HK.
  destruct K as [|[|K']]; [vm_compute; congruence .. |].
  set (k := Z.of_nat (S (S K'))) in *.
  assert (Hk2 : 2 <= k) by (subst k; lia).
  unfold val_count. fold k.
  destruct (product_to_int k (mant lit_0_2) 55) as (S0 & T & q' & HS & HT & HST & Hq & Hv);
    [lia | vm_compute; split; congruence | lia |].
  assert (Hv' : to_int (mul (of_int k) val_size) = q' / T) by exact Hv.
  rewrite Hv'. clear Hv Hv'.
  simpl mant in Hq.
  change (2 ^ 40) with 1099511627776 in HK.
  change (2 ^ 55) with 36028797018963968 in HST.
  change (2 ^ 12) with 4096 in HT.
  pose proof (Z.div_mod (2 * k) 10 ltac:(lia)) as Hdm.
  pose proof (Z.mod_pos_bound (2 * k) 10 ltac:(lia)) as Hmod.
  set (F := 2 * k / 10) in *.
  apply Z.le_antisymm.
  - apply Z.lt_succ_r. apply Z.div_lt_upper_bound; [lia|].
    assert (H : q' * S0 < T * Z.succ F * S0).
    { replace (T * Z.succ F * S0) with ((S0 * T) * (F + 1)) by ring. rewrite HST. nia. }
    apply Z.mul_lt_mono_pos_r in H; lia.
  - apply Z.div_le_lower_bound; [lia|].
    assert (H : T * F * S0 < (q' + 1) * S0).
    { replace (T * F * S0) with ((S0 * T) * F) by ring. rewrite HST. nia. }
    apply Z.mul_lt_mono_pos_r in H; lia.
Qed.

End SplitCounts.

Section SplitLists.
Import DatasetManager.
Local Open Scope list_scope.

(** the three slices put the list back together *)
Lemma split_shuffled_concat {A} (l : list A) :
  let s := split_shuffled l in train s ++ val s ++ test s = l.
Proof.
  unfold split_shuffled, slice. simpl.
  set (tc := Z.to_nat (train_count (length l))).
  set (vc := Z.to_nat (val_count (length l))).
  replace (tc + vc - tc)%nat with vc by lia.
  replace (skipn (tc + vc) l) with (skipn vc (skipn tc l)).
  - now rewrite firstn_skipn, firstn_skipn.
  - rewrite skipn_skipn. f_equal. lia.
Qed.

(** C8, as amended.  For the [K] labelled images handed to the split
    (fewer than 2^40 of them, each listed once, in the order the shuffle
    left them): the three splits put together are the shuffled list, so
    every image is in exactly one split and the three counts add up to
    [K]; the training count is [int(K * 0.7)] computed in binary64, which
    is floor(0.7 K) or one less; the validation count is floor(0.2 K);
    the test split takes the rest. *)
Theorem split_counts {A} (labeled shuffled : list A)
    (Hperm : Permutation shuffled labeled) (Hnodup : List.NoDup labeled)
    (Hsize : Z.of_nat (length labeled) < 2 ^ 40) :
  let K := length labeled in
  let s := split_shuffled shuffled in
  let st := stats_of s in
  train s ++ val s ++ test s = shuffled /\
  List.NoDup (train s ++ val s ++ test s) /\
  (n_train st + n_val st + n_test st)%nat = K /\
  Z.of_nat (n_train st) = train_count K /\
  Spec.floor_frac (7 # 10) K - 1 <= train_count K <= Spec.floor_frac (7 # 10) K /\
  Z.of_nat (n_val st) = Spec.floor_frac (2 # 10) K /\
  n_test st = (K - n_train st - n_val st)%nat.
Proof.
  intros K s st.
  pose proof (split_shuffled_concat shuffled) as Hcat. cbv zeta in Hcat. fold s in Hcat.
  assert (HK : length shuffled = K) by (apply Permutation_length, Hperm).
  pose proof (train_count_bounds K Hsize) as Ht.
  pose proof (val_count_exact K Hsize) as Hv.
  rewrite floor_frac_7_10, floor_frac_2_10.
  assert (Hlen : (n_train st + n_val st + n_test st)%nat = K).
  { subst st. unfold stats_of; cbn [n_train n_val n_test]. rewrite <- HK.
    pose proof (f_equal (@length A) Hcat) as Hl. rewrite !length_app in Hl. lia. }
  assert (Htl : Z.of_nat (n_train st) = train_count K).
  { subst st s. unfold stats_of, split_shuffled; simpl.
    rewrite length_firstn, HK. fold K.
    pose proof (Z.div_pos (7 * Z.of_nat K) 10 ltac:(lia) ltac:(lia)).
    assert (7 * Z.of_nat K / 10 <= Z.of_nat K)
      by (apply Z.div_le_upper_bound; lia).
    pose proof (counts_nonneg K). lia. }
  assert (Hvl : Z.of_nat (n_val st) = 2 * Z.of_nat K / 10).
  { subst st s. unfold stats_of, split_shuffled, slice; simpl.
    rewrite length_firstn, length_skipn, HK. fold K. rewrite Hv.
    pose proof (Z.div_pos (2 * Z.of_nat K) 10 ltac:(lia) ltac:(lia)).
    assert (7 * Z.of_nat K / 10 + 2 * Z.of_nat K / 10 <= Z.of_nat K).
    { pose proof (Z.mul_div_le (7 * Z.of_nat K) 10 ltac:(lia)).
      pose proof (Z.mul_div_le (2 * Z.of_nat K) 10 ltac:(lia)). lia. }
    pose proof (counts_nonneg K). lia. }
  repeat split; try assumption; try lia.
  rewrite Hcat. apply (Permutation_NoDup (Permutation_sym Hperm) Hnodup).
Qed.

Lemma split_counts_witness :
  Z.of_nat (n_train (stats_of (split_shuffled (rev (seq 0 90))))) = train_count 90 /\
  train_count 90 = 62 /\
  Z.of_nat (n_val (stats_of (split_shuffled (rev (seq 0 90))))) = 18.
Proof.
  pose proof (split_counts (seq 0 90) (rev (seq 0 90))
                (Permutation_sym (Permutation_rev (seq 0 90)))
                (seq_NoDup 90 0) ltac:(vm_compute; reflexivity)) as H.
  cbv zeta in H. destruct H as (_ & _ & _ & Ht & _ & Hv & _).
  rewrite length_seq in Ht, Hv.
  split; [exact Ht|]. split; [reflexivity | exact Hv].
Defined.

(** C8, the claim as stated fails: with 90 labelled images the binary64
    product 90 * 0.7 is 63 - 2^-47, whose integer part is 62, while
    floor(0.7 * 90) = 63; the training split receives 62 images. *)
Lemma split_of_90_trains_62 :
  Binary64.mul (Binary64.of_int 90) train_size
  = {| Binary64.mant := 63 * 2 ^ 47 - 1; Binary64.expo := -47 |} /\
  (Binary64.to_Q (Binary64.mul (Binary64.of_int 90) train_size)
   == 63 - 1 / inject_Z (2 ^ 47))%Q /\
  n_train (stats_of (split_shuffled (seq 0 90))) = 62%nat /\
  Spec.floor_frac (7 # 10) 90 = 63 /\
  ~ (forall K : nat,
       Z.of_nat (n_train (stats_of (split_shuffled (seq 0 K)))) = Spec.floor_frac (7 # 10) K).
Proof.
  split; [reflexivity|]. split; [reflexivity|]. split; [reflexivity|].
  split; [reflexivity|].
  intros H. specialize (H 90%nat). vm_compute in H. discriminate.
Qed.

End SplitLists.

Section SplitOfTheDirectories.
Import DatasetManager.

(** [split_dataset] hands the split the stems found in both directories,
    each once, in the order the shuffle returns. *)
Lemma split_dataset_shuffled (E : env) (w : world) :
  exists labeled,
    get_labeled_image_paths E w = (Ok labeled, w) /\
    List.NoDup labeled /\
    split_dataset E w = (Ok (split_shuffled (shuffle E labeled)), w).
Proof.
  eexists. split; [reflexivity|]. split; [|reflexivity].
  apply NoDup_ListNoDup, NoDup_remove_dups.
Qed.

(** The list can be empty although every image has a label: the pattern
    for the images is the directory followed by "/*." and the image format
    ".png", and no file that ends in a single ".png" matches it. *)
Example labeled_images_of_png_files :
  let w := snd (ETL.process_training_data Scenario.E_male 0 empty_world) in
  map fst (map_to_list (labels w))
  = ["/repo/data/labels/abc_1.txt"; "/repo/data/labels/xyz_1.txt"] /\
  glob Scenario.E_male (ETL.images_path Scenario.E_male ++ "/*." ++ image_format) = [] /\
  fst (get_labeled_image_paths Scenario.E_male w) = Ok [].
Proof. repeat split; vm_compute; reflexivity. Qed.

End SplitOfTheDirectories.

(** * Further properties of the same code *)

(** ** The label mapping, case by case *)

Section LabelMappingTable.
Import DescriptionClassifier.

(** X1.  The complete behaviour of [get_class_id], in terms of which
    canonical strings the candidate contains: FEMALE only for the exact
    string; MALE when "MALE CAT" is the only canonical string contained;
    OTHER when "OTHER" is contained or "FEMALE CAT" is contained in a
    longer string; IndexError when neither "MALE CAT" nor "OTHER" is
    contained.  No other id and no other exception can come out. *)
Theorem get_class_id_table (cand : string) :
  let m := PyStr.contains "MALE CAT" cand in
  let f := PyStr.contains "FEMALE CAT" cand in
  let o := PyStr.contains "OTHER" cand in
  (get_class_id cand = Ok FEMALE <-> cand = "FEMALE CAT") /\
  (get_class_id cand = Ok MALE <-> m = true /\ f = false /\ o = false) /\
  (get_class_id cand = Ok OTHER <-> o = true \/ (f = true /\ cand <> "FEMALE CAT")) /\
  (get_class_id cand = Raise IndexError <-> m = false /\ o = false) /\
  (get_class_id cand = Ok MALE \/ get_class_id cand = Ok FEMALE \/
   get_class_id cand = Ok OTHER \/ get_class_id cand = Raise IndexError).
Proof.
  intros m f o.
  destruct (String.eqb_spec cand "MALE CAT") as [->|Hm].
  { vm_compute. intuition (try discriminate; try congruence). }
  destruct (String.eqb_spec cand "FEMALE CAT") as [->|Hf].
  { vm_compute. intuition (try discriminate; try congruence). }
  destruct (String.eqb_spec cand "OTHER") as [->|Ho].
  { vm_compute. intuition (try discriminate; try congruence). }
  assert (Hkey : dict_contains cand class_names_mapping = false).
  { unfold dict_contains; simpl.
    destruct (String.eqb_spec cand "MALE CAT"); [congruence|].
    destruct (String.eqb_spec cand "FEMALE CAT"); [congruence|].
    destruct (String.eqb_spec cand "OTHER"); [congruence|]. reflexivity. }
  pose proof (female_contains_male cand) as Hfm. fold f m in Hfm.
  assert (Hg : get_class_id cand
               = match m, f, o with
                 | true, false, false => Ok MALE
                 | false, false, false => Raise IndexError
                 | false, true, false => Ok FEMALE
                 | _, _, _ => Ok OTHER
                 end).
  { unfold get_class_id. rewrite Hkey. unfold actual_class_names. simpl.
    fold m f o. destruct m, f, o; reflexivity. }
  rewrite Hg. clear Hg.
  destruct m, f, o; try (specialize (Hfm eq_refl); discriminate);
    unfold MALE, FEMALE, OTHER; intuition (try discriminate; try congruence).
Qed.

End LabelMappingTable.

(** ** The conversion of detector boxes *)

Section BoxConversion.
Import TrainingImageProcessor Props.

(** X2.  When the conversion returns there is one tuple per row, and the
    rows were empty or both dimensions non-zero; when it raises, the
    exception is ZeroDivisionError, there was at least one row and a
    dimension was zero.  In particular an empty detection set converts to
    the empty list whatever the dimensions. *)
Theorem yolo_format_returns_or_divides_by_zero (rows : list box) (h w : Z) :
  match detections_to_yolo_format rows h w with
  | Ok ys => length ys = length rows /\ (rows = [] \/ (h <> 0 /\ w <> 0))
  | Raise e => e = ZeroDivisionError /\ rows <> [] /\ (h = 0 \/ w = 0)
  end.
Proof.
  destruct rows as [|b rows]; [simpl; auto|].
  destruct (Z.eq_dec h 0) as [->|Hh].
  { simpl. repeat split; auto; discriminate. }
  destruct (Z.eq_dec w 0) as [->|Hw].
  { simpl. rewrite py_div_nonzero by assumption. simpl. repeat split; auto; discriminate. }
  destruct (detections_to_yolo_format_ok (b :: rows) h w Hh Hw) as [ys Hys].
  rewrite Hys. split; [eapply detections_to_yolo_format_length; eassumption | auto].
Qed.

Lemma unit_quotient (a d : Q) : (0 < d -> 0 <= a -> a <= d -> 0 <= a / d /\ a / d <= 1)%Q.
Proof.
  intros Hd Ha Had. split.
  - apply Qle_shift_div_l; [exact Hd | lra].
  - apply Qle_shift_div_r; [exact Hd | lra].
Qed.

Lemma half_bounds (d : Q) : (0 <= d -> 0 <= d / 2 /\ d / 2 <= d)%Q.
Proof.
  intros Hd. split.
  - apply Qle_shift_div_l; [reflexivity | lra].
  - apply Qle_shift_div_r; [reflexivity | lra].
Qed.

(** X4.  The four values of every tuple lie in [0,1] when each row, read
    with the axes exchanged, lies inside the image: first and third entry
    between 0 and the image height, second and fourth between 0 and the
    width.  For a square image this is every box inside the image. *)
Theorem yolo_format_unit_when_exchanged_fits (rows : list box) (h w : Z)
    (ys : list yolo_coords)
    (Hh : 0 < h) (Hw : 0 < w)
    (Hfit : Forall (fits_exchanged h w) rows)
    (Hys : detections_to_yolo_format rows h w = Ok ys) :
  Forall all_in_unit ys.
Proof.
  revert ys Hys. induction Hfit as [|b rows Hb _ IH]; intros ys Hys; simpl in Hys.
  - inversion Hys. constructor.
  - rewrite !py_div_nonzero in Hys by lia. simpl in Hys.
    destruct (detections_to_yolo_format rows h w) as [tail|]; [|discriminate].
    simpl in Hys. inversion Hys; subst. constructor; [|now apply IH].
    destruct Hb as (H1 & H2 & H3 & H4 & H5 & H6).
    assert (Hqh : (0 < inject_Z h)%Q) by (unfold Qlt, inject_Z; simpl; lia).
    assert (Hqw : (0 < inject_Z w)%Q) by (unfold Qlt, inject_Z; simpl; lia).
    pose proof (half_bounds (y_max b - y_min b) ltac:(lra)) as [Hy1 Hy2].
    pose proof (half_bounds (x_max b - x_min b) ltac:(lra)) as [Hx1 Hx2].
    unfold all_in_unit, Spec.in_unit.
    split; [|split; [|split]]; apply unit_quotient; try assumption; lra.
Qed.

Lemma yolo_format_unit_when_exchanged_fits_witness :
  Forall all_in_unit
    [((20 + (40 - 20) / 2) / inject_Z 100, (10 + (30 - 10) / 2) / inject_Z 100,
      (40 - 20) / inject_Z 100, (30 - 10) / inject_Z 100)%Q].
Proof.
  apply (yolo_format_unit_when_exchanged_fits [Scenario.small_box] 100 100);
    [lia | lia | | reflexivity].
  constructor; [|constructor].
  unfold fits_exchanged; simpl. repeat split; unfold Qle; simpl; lia.
Defined.

End BoxConversion.

(** ** Writing label files *)

Section LabelFiles.
Import TrainingImageProcessor Props.

(** X3.  For a readable image with non-zero dimensions on which the
    detector returns, [n] of the detections being of the target class
    (class 15, the cat): the call returns [True] exactly when [n = 1], and
    then the label file of the image holds one line with the class given;
    for every other [n] the labels directory is unchanged, and the call
    returns [False] when the directory of the exceptions log exists and
    raises FileNotFoundError when it does not. *)
Theorem label_written_iff_one_qualifying (E : env)
    (image_path : string) (label : Z) (w : world)
    (image : image) (detections : Detections)
    (Hread : imread E image_path = Some image)
    (Hdet : detect_objects E image = Ok detections)
    (Hh : img_shape_0 image <> 0) (Hw : img_shape_1 image <> 0) :
  let n := Spec.qualifying detections in
  let r := fst (process_training_image E image_path label w) in
  let w' := snd (process_training_image E image_path label w) in
  (r = Ok true <-> n = 1%nat) /\
  (n = 1%nat ->
     exists line, labels w' = <[label_file_path E image_path := [line]]> (labels w) /\
                  ll_class line = label) /\
  (n <> 1%nat ->
     labels w' = labels w /\
     (log_dir w = true -> r = Ok false) /\
     (log_dir w = false -> r = Raise (FileNotFoundError (EXCEPTIONS_FILE_NAME E)))).
Proof.
  intros n r w'. subst r w'.
  destruct (process_training_image_by_count E image_path label w image detections
              Hread Hdet Hh Hw) as (Hone & Hother). fold n in Hone, Hother.
  destruct (Nat.eq_dec n 1%nat) as [H1|H1].
  - destruct (Hone H1) as (line & Heq & Hl). rewrite Heq. simpl.
    split; [tauto|]. split; [|tauto]. intros _. now exists line.
  - rewrite (Hother H1). split; [|split; [tauto|]].
    + destruct (log_dir w); simpl; split; intros H; congruence.
    + intros _. destruct (log_dir w); simpl; repeat split; congruence.
Qed.

Lemma label_written_iff_one_qualifying_witness :
  let r := fst (process_training_image Scenario.E_male "/repo/data/images/abc_1.png" 0
                  empty_world) in
  r = Ok true <-> Spec.qualifying Scenario.one_cat = 1%nat.
Proof.
  refine (proj1 (label_written_iff_one_qualifying Scenario.E_male
            "/repo/data/images/abc_1.png" 0 empty_world
            Scenario.wide_image Scenario.one_cat eq_refl eq_refl _ _));
    discriminate.
Defined.

(** X5.  A call of [process_training_image] touches neither the
    classification log nor the trace of remote calls, and neither creates
    nor removes the directory of the exceptions log.  It ends in one of
    three ways.  It returns [True]: the exceptions log is unchanged and
    the label file of the image holds exactly one line, with the class it
    was given.  It returns [False], which needs the directory of the
    exceptions log: the labels directory is unchanged and exactly one
    line, starting with the image path, is appended to that log.  It
    raises FileNotFoundError, which happens only without that directory:
    nothing is changed. *)
Theorem process_training_image_outcome (E : env) (image_path : string) (label : Z)
    (w : world) :
  let r := fst (process_training_image E image_path label w) in
  let w' := snd (process_training_image E image_path label w) in
  classes_log w' = classes_log w /\ trace w' = trace w /\ log_dir w' = log_dir w /\
  ((r = Ok true /\ exceptions_log w' = exceptions_log w /\
    exists line, labels w' = <[label_file_path E image_path := [line]]> (labels w) /\
                 ll_class line = label)
   \/
   (r = Ok false /\ log_dir w = true /\ labels w' = labels w /\
    exists msg, exceptions_log w' = (exceptions_log w ++ [image_error image_path msg])%list)
   \/
   (r = Raise (FileNotFoundError (EXCEPTIONS_FILE_NAME E)) /\ log_dir w = false /\ w' = w)).
Proof.
  destruct (process_training_image_spec E image_path label w)
    as [(line & -> & Hl)|[(Hd & msg & ->)|(Hd & ->)]]; simpl.
  - repeat split. left. repeat split. now exists line.
  - repeat split; [congruence|]. right. left. repeat split; [exact Hd|]. now exists msg.
  - repeat split. right. right. repeat split. exact Hd.
Qed.

(** X6.  [write_detections_to_labels_file] replaces the content of the
    label file of the image by one line per pair of the zip: as many
    lines as the shorter of the two lists, carrying the first labels in
    order.  Every other file of the labels directory and both logs stay
    as they were. *)
Theorem write_detections_zips (E : env) (yolo_detections : list yolo_coords)
    (gt_labels : list Z) (image_path : string) (w : world) :
  let w' := snd (write_detections_to_labels_file E yolo_detections gt_labels image_path w) in
  fst (write_detections_to_labels_file E yolo_detections gt_labels image_path w) = Ok tt /\
  (exists lines,
     labels w' !! label_file_path E image_path = Some lines /\
     length lines = Nat.min (length yolo_detections) (length gt_labels) /\
     map ll_class lines = firstn (length yolo_detections) gt_labels) /\
  (forall p, p <> label_file_path E image_path -> labels w' !! p = labels w !! p) /\
  exceptions_log w' = exceptions_log w /\ classes_log w' = classes_log w.
Proof.
  unfold write_detections_to_labels_file, modify, set_labels; simpl.
  split; [reflexivity|]. split.
  - eexists. split; [apply lookup_insert_eq|]. split.
    + rewrite length_map, length_combine. reflexivity.
    + revert gt_labels. induction yolo_detections as [|[[[cx cy] bw] bh] ys IH];
        intros [|g gs]; simpl; try reflexivity. f_equal. apply IH.
  - split; [|split; reflexivity].
    intros p Hp. apply lookup_insert_ne. congruence.
Qed.

(** one path component appended to a directory *)
Lemma split_slash_acc_app (cur a rest : string) :
  PyStr.split_slash_acc cur (a ++ String "/" rest)
  = (PyStr.split_slash_acc cur a ++ PyStr.split_slash_acc "" rest)%list.
Proof.
  revert cur. induction a as [|c a IH]; intros cur.
  - reflexivity.
  - rewrite append_cons. simpl. destruct (Ascii.eqb c "/").
    + rewrite IH. reflexivity.
    + apply IH.
Qed.

Lemma split_slash_acc_plain (cur name : string) :
  all_chars (fun c => negb (Ascii.eqb c "/")) name = true ->
  PyStr.split_slash_acc cur name = [cur ++ name].
Proof.
  revert cur. induction name as [|c name IH]; intros cur H; simpl in *.
  - f_equal. clear. induction cur as [|x cur IHc]; [reflexivity|].
    rewrite append_cons. now rewrite <- IHc.
  - apply andb_true_iff in H as [Hc Hn]. apply negb_true_iff in Hc. rewrite Hc.
    rewrite (IH _ Hn). f_equal. rewrite append_assoc_str. reflexivity.
Qed.

(** the name of a file in a directory *)
Lemma path_name_in_dir (dir name : string) :
  all_chars (fun c => negb (Ascii.eqb c "/")) name = true ->
  name <> "" -> name <> "." ->
  PyStr.path_name (dir ++ "/" ++ name) = name.
Proof.
  intros Hplain Hne Hdot. unfold PyStr.path_name, PyStr.split_slash.
  change (dir ++ "/" ++ name) with (dir ++ String "/" name).
  rewrite split_slash_acc_app, (split_slash_acc_plain "" name Hplain).
  rewrite append_empty_l, List.filter_app. simpl.
  destruct (String.eqb_spec name ""); [congruence|].
  destruct (String.eqb_spec name "."); [congruence|]. simpl.
  apply List.last_last.
Qed.

Lemma all_chars_weaken (P Q : ascii -> bool) (s : string) :
  (forall c, P c = true -> Q c = true) -> all_chars P s = true -> all_chars Q s = true.
Proof.
  intros HPQ. induction s as [|c s IH]; simpl; [reflexivity|].
  intros H. apply andb_true_iff in H as [Hc Hs]. rewrite (HPQ _ Hc), (IH Hs). reflexivity.
Qed.

(** replacing the extension of a name without dots *)
Lemma replace_png_suffix (stem : string) (fuel : nat) :
  all_chars plain_char stem = true ->
  (String.length stem + 4 <= fuel)%nat ->
  PyStr.replace_from fuel ".png" ".txt" (stem ++ ".png") = stem ++ ".txt".
Proof.
  revert fuel. induction stem as [|c stem IH]; intros fuel H Hf.
  - destruct fuel as [|fuel]; [simpl in Hf; lia|]. simpl.
    destruct fuel; reflexivity.
  - destruct fuel as [|fuel]; [simpl in Hf; lia|].
    simpl in H. apply andb_true_iff in H as [Hc Hs].
    unfold plain_char in Hc. apply andb_true_iff in Hc as [_ Hdot].
    apply negb_true_iff in Hdot.
    rewrite !append_cons. cbn [PyStr.replace_from PyStr.startswith].
    rewrite Ascii.eqb_sym, Hdot. f_equal. apply IH; [exact Hs | simpl in Hf; lia].
Qed.

Lemma length_append_str (a b : string) :
  String.length (a ++ b) = (String.length a + String.length b)%nat.
Proof. induction a as [|c a IH]; [reflexivity|]. rewrite append_cons. simpl. now rewrite IH. Qed.

(** X7.  For an image [<dir>/<stem>.png] whose stem contains neither a
    slash nor a dot, the label file is [<data>/labels/<stem>.txt],
    whatever the directory of the image. *)
Theorem label_file_of_png (E : env) (dir stem : string)
    (Hstem : all_chars plain_char stem = true) :
  label_file_path E (dir ++ "/" ++ stem ++ ".png") = data_path E ++ "/labels/" ++ stem ++ ".txt".
Proof.
  unfold label_file_path, labels_folder_path.
  rewrite path_name_in_dir.
  - unfold PyStr.replace. rewrite replace_png_suffix.
    + rewrite append_assoc_str. reflexivity.
    + exact Hstem.
    + rewrite length_append_str. simpl. lia.
  - assert (Hs : all_chars (fun c => negb (Ascii.eqb c "/")) stem = true).
    { apply (all_chars_weaken plain_char); [|exact Hstem].
      intros c Hc. unfold plain_char in Hc. now apply andb_true_iff in Hc as [Hc _]. }
    clear Hstem. induction stem as [|c stem IH]; [reflexivity|].
    rewrite append_cons. simpl in *. apply andb_true_iff in Hs as [Hc Hs'].
    rewrite Hc. simpl. apply IH, Hs'.
  - destruct stem; discriminate.
  - destruct stem as [|c [|d stem]]; discriminate.
Qed.

Lemma label_file_of_png_witness :
  label_file_path Scenario.E_male ("/somewhere/else" ++ "/" ++ "abc_1" ++ ".png")
  = "/repo/data" ++ "/labels/" ++ "abc_1" ++ ".txt".
Proof. apply (label_file_of_png Scenario.E_male "/somewhere/else" "abc_1"). reflexivity. Defined.

End LabelFiles.

(** ** The names the ledger derives *)

Section DerivedNames.
Import PyStr Props ETL.

Lemma skip_digits_head (s : string) : head_digit (skip_digits s) = false.
Proof.
  induction s as [|c s IH]; simpl; [reflexivity|].
  destruct (is_digit c) eqn:Hc; [exact IH | simpl; exact Hc].
Qed.

Lemma sub_underscore_digits_head (fuel : nat) (s : string) :
  head_digit s = false -> head_digit (sub_underscore_digits_from fuel s) = false.
Proof.
  revert s. induction fuel as [|fuel IH]; intros s H; [exact H|].
  destruct s as [|c [|d s]]; try exact H. cbn [sub_underscore_digits_from].
  destruct (Ascii.eqb c "_" && is_digit d).
  - apply IH, skip_digits_head.
  - exact H.
Qed.

Lemma has_underscore_digit_cons (c : ascii) (s : string) :
  has_underscore_digit (String c s) = (Ascii.eqb c "_" && head_digit s) || has_underscore_digit s.
Proof. destruct s; simpl; [now rewrite andb_false_r | reflexivity]. Qed.

Lemma sub_underscore_digits_clean (fuel : nat) (s : string) :
  (String.length s <= fuel)%nat ->
  has_underscore_digit (sub_underscore_digits_from fuel s) = false.
Proof.
  revert s. induction fuel as [|fuel IH]; intros s Hf.
  - destruct s; [reflexivity | simpl in Hf; lia].
  - destruct s as [|c [|d s]]; try reflexivity. cbn [sub_underscore_digits_from].
    destruct (Ascii.eqb c "_" && is_digit d) eqn:Hm.
    + apply IH. pose proof (length_skip_digits_le (String d s)). simpl in *. lia.
    + rewrite has_underscore_digit_cons. rewrite IH by (simpl in *; lia).
      rewrite orb_false_r.
      destruct (Ascii.eqb c "_"); [|reflexivity]. simpl in Hm |- *.
      apply sub_underscore_digits_head. exact Hm.
Qed.

Lemma sub_underscore_digits_fixed (fuel : nat) (s : string) :
  has_underscore_digit s = false -> sub_underscore_digits_from fuel s = s.
Proof.
  revert s. induction fuel as [|fuel IH]; intros s H; [reflexivity|].
  destruct s as [|c [|d s]]; try reflexivity. cbn [sub_underscore_digits_from].
  cbn [has_underscore_digit] in H. apply orb_false_iff in H as [Hm Hr].
  rewrite Hm. f_equal. apply IH, Hr.
Qed.

(** X8.  The substitution of [_\d+] by the empty string leaves no
    underscore followed by a digit, so a second application changes
    nothing; and a string without such a pair is returned as it is. *)
Theorem sub_underscore_digits_idempotent (s : string) :
  has_underscore_digit (sub_underscore_digits s) = false /\
  sub_underscore_digits (sub_underscore_digits s) = sub_underscore_digits s /\
  (has_underscore_digit s = false -> sub_underscore_digits s = s).
Proof.
  assert (H : has_underscore_digit (sub_underscore_digits s) = false)
    by (apply sub_underscore_digits_clean; lia).
  split; [exact H|]. split.
  - unfold sub_underscore_digits at 1. now apply sub_underscore_digits_fixed.
  - apply sub_underscore_digits_fixed.
Qed.

Lemma has_underscore_digit_tail (c : ascii) (s : string) :
  has_underscore_digit (String c s) = false -> has_underscore_digit s = false.
Proof. rewrite has_underscore_digit_cons. intros H. now apply orb_false_iff in H as [_ H]. Qed.

Lemma has_underscore_digit_suffix (a s : string) :
  has_underscore_digit (a ++ s) = false -> has_underscore_digit s = false.
Proof.
  induction a as [|c a IH]; [auto|]. rewrite append_cons. intros H.
  apply IH. eapply has_underscore_digit_tail, H.
Qed.

Lemma head_digit_append (p b : string) :
  p <> "" -> head_digit (p ++ b) = head_digit p.
Proof. destruct p; [congruence | reflexivity]. Qed.

Lemma has_underscore_digit_prefix (p b : string) :
  has_underscore_digit (p ++ b) = false -> has_underscore_digit p = false.
Proof.
  induction p as [|c p IH]; [reflexivity|]. rewrite append_cons.
  rewrite !has_underscore_digit_cons. intros H. apply orb_false_iff in H as [H1 H2].
  rewrite (IH H2), orb_false_r.
  destruct p as [|d p]; [now rewrite andb_false_r|].
  rewrite head_digit_append in H1 by discriminate. exact H1.
Qed.

Lemma split_slash_acc_parts (s cur part : string) :
  In part (split_slash_acc cur s) -> exists a b, cur ++ s = a ++ part ++ b.
Proof.
  revert cur. induction s as [|c s IH]; intros cur H; simpl in H.
  - destruct H as [<-|[]]. exists "", "". reflexivity.
  - destruct (Ascii.eqb_spec c "/") as [->|_].
    + destruct H as [<-|H].
      * exists "", (String "/" s). reflexivity.
      * destruct (IH _ H) as (a & b & Hab). rewrite append_empty_l in Hab.
        exists (cur ++ String "/" a), b. rewrite Hab.
        rewrite append_assoc_str. reflexivity.
    + destruct (IH _ H) as (a & b & Hab). exists a, b. rewrite <- Hab.
      rewrite append_assoc_str. reflexivity.
Qed.

Lemma path_name_clean (p : string) :
  has_underscore_digit p = false -> has_underscore_digit (path_name p) = false.
Proof.
  intros Hp. unfold path_name.
  set (parts := List.filter _ (split_slash p)).
  destruct (list_eq_nil_dec parts) as [->|Hne]; [reflexivity|].
  assert (Hin : In (List.last parts "") parts).
  { destruct (exists_last Hne) as (l & x & ->). rewrite List.last_last.
    apply in_or_app. right. now left. }
  apply filter_In in Hin as [Hin _].
  destruct (split_slash_acc_parts _ _ _ Hin) as (a & b & Hab).
  rewrite append_empty_l in Hab. rewrite Hab in Hp.
  eapply has_underscore_digit_prefix, has_underscore_digit_suffix, Hp.
Qed.

Ltac run := unfold bind, ret, lift, modify, try_except, raise, get_world,
  append_exceptions_log.

(** the trace after a classification attempt *)
Lemma get_correct_class_name_trace (E : env) (text_path : string) (w : world) :
  trace (snd (get_correct_class_name E text_path w))
  = (trace w ++ match read_text E text_path with
                | Ok text => [EvClassify text]
                | Raise _ => []
                end)%list.
Proof.
  unfold get_correct_class_name. run.
  destruct (read_text E text_path) as [text|e]; simpl; [|now rewrite app_nil_r].
  destruct (classify_description E text); reflexivity.
Qed.

Lemma process_images_trace (E : env) (image_paths : list string) (id acc : Z) (w : world) :
  trace (snd (process_images E image_paths id acc w)) = trace w.
Proof.
  revert acc w. induction image_paths as [|p ps IH]; intros acc w; simpl; [reflexivity|].
  unfold bind.
  pose proof (proj2 (process_training_image_logs E p id w)) as Hl.
  destruct (TrainingImageProcessor.process_training_image E p id w) as [[b|e] w1];
    simpl in Hl; [rewrite IH|]; exact Hl.
Qed.

(** X9.  A text that is not in the list of processed names costs exactly
    one call of the remote classifier if its file can be read and none if
    it cannot, whatever happens to its images afterwards, and the call
    never ends with the outcome "processed". *)
Theorem unprocessed_text_is_classified_once (E : env) (text_file_path images_path : string)
    (processed : list string) (w : world)
    (Hnew : existsb (String.eqb (path_name text_file_path)) processed = false) :
  let r := fst (process_training_post E text_file_path processed images_path w) in
  let w' := snd (process_training_post E text_file_path processed images_path w) in
  trace w' = (trace w ++ match read_text E text_file_path with
                         | Ok text => [EvClassify text]
                         | Raise _ => []
                         end)%list /\
  r <> Ok (false, "processed").
Proof.
  intros r w'. subst r w'.
  remember (process_training_post E text_file_path processed images_path w) as res eqn:Hres.
  unfold process_training_post in Hres. rewrite Hnew in Hres. unfold bind at 1 in Hres.
  pose proof (get_correct_class_name_returns E text_file_path w) as [name Hname].
  pose proof (get_correct_class_name_trace E text_file_path w) as Htr.
  destruct (get_correct_class_name E text_file_path w) as [r1 w1].
  simpl in Hname, Htr. subst r1. unfold bind at 1 in Hres. unfold lift in Hres.
  destruct (DescriptionClassifier.get_class_id name) as [id|e];
    [|subst res; split; [exact Htr | discriminate]].
  destruct (negb (id =? 2)); [|subst res; split; [exact Htr | discriminate]].
  destruct (glob E _) as [|p ps]; [subst res; split; [exact Htr | discriminate]|].
  unfold bind in Hres.
  pose proof (process_images_trace E (p :: ps) id 0 w1) as Ht.
  destruct (process_images E (p :: ps) id 0 w1) as [[n|e] w3]; simpl in Ht.
  - destruct (n =? 0); subst res; simpl; (split; [congruence | discriminate]).
  - subst res; simpl; (split; [congruence | discriminate]).
Qed.

Lemma unprocessed_text_is_classified_once_witness :
  trace (snd (process_training_post Scenario.E_male "/repo/data/texts/xyz.txt" ["abc.txt"]
                "/repo/data/images" Scenario.labelled_world))
  = [EvClassify "caption"].
Proof.
  exact (proj1 (unprocessed_text_is_classified_once Scenario.E_male
                  "/repo/data/texts/xyz.txt" "/repo/data/images" ["abc.txt"]
                  Scenario.labelled_world eq_refl)).
Defined.

(** X10.  No name in the list derived from the label files contains an
    underscore followed by a digit.  Hence a text file whose own name
    contains one is never found in that list, whatever the labels
    directory holds, and is classified again on every run. *)
Theorem indexed_text_name_never_processed (text_file_path : string)
    (label_files : list string)
    (Hname : has_underscore_digit (path_name text_file_path) = true) :
  Forall (fun name => has_underscore_digit name = false) (processed_names_of label_files) /\
  existsb (String.eqb (path_name text_file_path)) (processed_names_of label_files) = false.
Proof.
  assert (Hall : Forall (fun name => has_underscore_digit name = false)
                   (processed_names_of label_files)).
  { unfold processed_names_of. apply List.Forall_map, List.Forall_forall. intros l _.
    apply path_name_clean. unfold image_path_to_text_path.
    apply sub_underscore_digits_clean. lia. }
  split; [exact Hall|].
  destruct (existsb _ _) eqn:Hex; [|reflexivity].
  apply existsb_exists in Hex as (name & Hin & Heq).
  apply String.eqb_eq in Heq. subst name.
  rewrite List.Forall_forall in Hall. specialize (Hall _ Hin). congruence.
Qed.

Lemma indexed_text_name_never_processed_witness :
  existsb (String.eqb (path_name "/repo/data/texts/post_1.txt"))
    (processed_names_of ["/repo/data/labels/post_1_1.txt"]) = false.
Proof.
  exact (proj2 (indexed_text_name_never_processed "/repo/data/texts/post_1.txt"
                  ["/repo/data/labels/post_1_1.txt"] eq_refl)).
Defined.

End DerivedNames.

(** ** Outcomes of a post *)

Section PostOutcomes.
Import PyStr Props ETL.

Ltac run := unfold bind, ret, lift, modify, try_except, raise, get_world,
  append_exceptions_log.

Lemma get_correct_class_name_labels (E : env) (text_path : string) (w : world) :
  labels (snd (get_correct_class_name E text_path w)) = labels w.
Proof.
  unfold get_correct_class_name. run.
  destruct (read_text E text_path) as [text|e]; simpl; [|reflexivity].
  destruct (classify_description E text); reflexivity.
Qed.

(** what a post returns once its text has been given a class other than 2
    and no image matches *)
Lemma process_training_post_after_classification (E : env)
    (text_file_path images_path : string) (processed : list string) (w : world)
    (name : string) :
  existsb (String.eqb (path_name text_file_path)) processed = false ->
  fst (get_correct_class_name E text_file_path w) = Ok name ->
  process_training_post E text_file_path processed images_path w
  = match DescriptionClassifier.get_class_id name with
    | Raise e => (Raise e, snd (get_correct_class_name E text_file_path w))
    | Ok id =>
        if negb (id =? 2) then
          match glob E (images_path ++ "/" ++ path_stem text_file_path ++ "*" ++ image_format) with
          | [] => (Ok (false, "No images found for this text"),
                   snd (get_correct_class_name E text_file_path w))
          | ps =>
              bind (process_images E ps id 0)
                (fun n => if n =? 0
                          then ret (false, "Text classified, but no images were processed")
                          else ret (true, "OK"))
                (snd (get_correct_class_name E text_file_path w))
          end
        else (Ok (false, "No cats mentioned or multiple cats mentioned"),
              snd (get_correct_class_name E text_file_path w))
    end.
Proof.
  intros Hnew Hname. unfold process_training_post. rewrite Hnew. unfold bind at 1.
  destruct (get_correct_class_name E text_file_path w) as [r1 w1].
  simpl in Hname. subst r1. simpl. unfold bind at 1. unfold lift.
  destruct (DescriptionClassifier.get_class_id name) as [id|e]; [|reflexivity].
  destruct (negb (id =? 2)); [|reflexivity].
  destruct (glob E _); reflexivity.
Qed.

(** X11.  When reading the text or the remote call fails, the post is
    reported with the reason "No cats mentioned or multiple cats
    mentioned", the reason of a text classified OTHER: the failure leaves
    one line in the exceptions log, no classification record, no label
    file, and no image of the post is looked at. *)
Theorem failed_classification_reported_as_other (E : env)
    (text_file_path images_path : string) (processed : list string) (w : world) (e : exn)
    (Hnew : existsb (String.eqb (path_name text_file_path)) processed = false)
    (Hfail : rbind (read_text E text_file_path) (classify_description E) = Raise e) :
  let w' := snd (process_training_post E text_file_path processed images_path w) in
  fst (process_training_post E text_file_path processed images_path w)
  = Ok (false, "No cats mentioned or multiple cats mentioned") /\
  labels w' = labels w /\ classes_log w' = classes_log w /\
  exceptions_log w' = (exceptions_log w ++ [text_error text_file_path e])%list.
Proof.
  assert (Hg : get_correct_class_name E text_file_path w
               = (Ok "OTHER",
                  log_exception (text_error text_file_path e)
                    (match read_text E text_file_path with
                     | Ok text => emit (EvClassify text) w
                     | Raise _ => w
                     end))).
  { unfold get_correct_class_name, rbind in *. run.
    destruct (read_text E text_file_path) as [text|e1]; simpl.
    - destruct (classify_description E text); [discriminate|]. inversion Hfail. reflexivity.
    - inversion Hfail. reflexivity. }
  rewrite (process_training_post_after_classification E _ _ _ _ "OTHER" Hnew)
    by (rewrite Hg; reflexivity).
  rewrite Hg. simpl. destruct (read_text E text_file_path); simpl; auto.
Qed.

Lemma failed_classification_reported_as_other_witness :
  fst (process_training_post Scenario.E_down "/repo/data/texts/abc.txt" []
         "/repo/data/images" empty_world)
  = Ok (false, "No cats mentioned or multiple cats mentioned").
Proof.
  exact (proj1 (failed_classification_reported_as_other Scenario.E_down
                  "/repo/data/texts/abc.txt" "/repo/data/images" [] empty_world
                  (RemoteError "Connection error.") eq_refl eq_refl)).
Defined.

(** X12.  A text classified MALE or FEMALE for which no image file
    matches returns (False, "No images found for this text"); by then the
    classifier has been called and the record logged, and since no label
    is written the next run classifies the text again. *)
Theorem classified_text_without_images (E : env)
    (text_file_path images_path : string) (processed : list string) (w : world)
    (name : string) (id : Z)
    (Hnew : existsb (String.eqb (path_name text_file_path)) processed = false)
    (Hname : fst (get_correct_class_name E text_file_path w) = Ok name)
    (Hid : DescriptionClassifier.get_class_id name = Ok id) (Hcat : id <> 2)
    (Hglob : glob E (images_path ++ "/" ++ path_stem text_file_path ++ "*" ++ image_format)
             = []) :
  process_training_post E text_file_path processed images_path w
  = (Ok (false, "No images found for this text"),
     snd (get_correct_class_name E text_file_path w)) /\
  labels (snd (process_training_post E text_file_path processed images_path w)) = labels w.
Proof.
  rewrite (process_training_post_after_classification E _ _ _ _ name Hnew Hname).
  rewrite Hid, Hglob. destruct (Z.eqb_spec id 2); [congruence|]. simpl.
  split; [reflexivity | apply get_correct_class_name_labels].
Qed.

Lemma classified_text_without_images_witness :
  process_training_post
    (Scenario.files_env ["/repo/data/texts/abc.txt"] (fun _ => Ok "FEMALE CAT")
       (fun _ => None) (fun _ => Raise (OSError "no detector")))
    "/repo/data/texts/abc.txt" [] "/repo/data/images" empty_world
  = (Ok (false, "No images found for this text"),
     log_class (Build_ClassificationRecord "/repo/data/texts/abc.txt" "FEMALE CAT"
                  "2024-01-01 00:00:00")
       (emit (EvClassify "caption") empty_world)).
Proof.
  exact (proj1 (classified_text_without_images
                  (Scenario.files_env ["/repo/data/texts/abc.txt"] (fun _ => Ok "FEMALE CAT")
                     (fun _ => None) (fun _ => Raise (OSError "no detector")))
                  "/repo/data/texts/abc.txt" "/repo/data/images" [] empty_world
                  "FEMALE CAT" 1 eq_refl eq_refl eq_refl ltac:(lia) eq_refl)).
Defined.

(** the loop over the images raises only when the exceptions log cannot
    be written *)
Lemma process_images_raises (E : env) (image_paths : list string) (id acc : Z) (w : world)
    (e : exn) :
  fst (process_images E image_paths id acc w) = Raise e ->
  e = FileNotFoundError (EXCEPTIONS_FILE_NAME E) /\ log_dir w = false.
Proof.
  revert acc w. induction image_paths as [|p ps IH]; intros acc w; simpl; [discriminate|].
  unfold bind.
  pose proof (process_training_image_log_dir E p id w) as Hd.
  destruct (process_training_image_spec E p id w)
    as [(line & Heq & _)|[(_ & msg & Heq)|(Hd' & Heq)]]; rewrite Heq in *; simpl in *.
  - intros H. destruct (IH _ _ H) as [-> Hf]. simpl in Hf. split; [reflexivity | exact Hf].
  - intros H. destruct (IH _ _ H) as [-> Hf]. simpl in Hf. discriminate.
  - intros H. inversion H. split; [reflexivity | exact Hd'].
Qed.

(** the outcomes of one post *)
Lemma process_training_post_reasons (E : env) (text_file_path images_path : string)
    (processed : list string) (w : world) :
  match fst (process_training_post E text_file_path processed images_path w) with
  | Ok (true, reason) => reason = "OK"
  | Ok (false, reason) => In reason skip_reasons
  | Raise e => e = IndexError \/ e = FileNotFoundError (EXCEPTIONS_FILE_NAME E)
  end.
Proof.
  destruct (existsb (String.eqb (path_name text_file_path)) processed) eqn:Hnew.
  { unfold process_training_post. rewrite Hnew. simpl. auto. }
  pose proof (get_correct_class_name_returns E text_file_path w) as [name Hname].
  rewrite (process_training_post_after_classification E _ _ _ _ name Hnew Hname).
  destruct (DescriptionClassifier.get_class_id name) as [id|e] eqn:Hid.
  - destruct (negb (id =? 2)); [|simpl; auto 6].
    destruct (glob E _) as [|p ps]; [simpl; auto 6|].
    unfold bind.
    pose proof (process_images_raises E (p :: ps) id 0
                  (snd (get_correct_class_name E text_file_path w))) as Hraise.
    destruct (process_images E (p :: ps) id 0 _) as [[n|e] w3]; simpl.
    + destruct (n =? 0); simpl; auto 6.
    + right. now apply Hraise.
  - simpl. left. now destruct (get_class_id_raises_only_unmatched _ _ Hid).
Qed.

Lemma process_text_files_skipped (E : env) (texts seen names : list string) (sleep_time : Q)
    (skipped sk : gmap string (list string)) (w : world) :
  (forall reason paths, skipped !! reason = Some paths ->
     In reason skip_reasons /\ List.Forall (fun t => In t (seen ++ texts)) paths) ->
  fst (process_text_files E texts names sleep_time skipped w) = Ok sk ->
  forall reason paths, sk !! reason = Some paths ->
    In reason skip_reasons /\ List.Forall (fun t => In t (seen ++ texts)) paths.
Proof.
  revert seen skipped w. induction texts as [|t ts IH]; intros seen skipped w Hinv Hrun.
  - simpl in Hrun. inversion Hrun; subst. exact Hinv.
  - simpl in Hrun. unfold bind at 1 in Hrun.
    pose proof (process_training_post_reasons E t (images_path E) names w) as Hr.
    destruct (process_training_post E t names (images_path E) w) as [[[success reason]|e] w1];
      [|discriminate].
    simpl in Hr.
    assert (Hshift : forall x, In x ((seen ++ [t]) ++ ts) <-> In x (seen ++ t :: ts)).
    { intros x. rewrite <- app_assoc. reflexivity. }
    assert (Hgoal : forall sk0,
               (forall reason paths, sk0 !! reason = Some paths ->
                  In reason skip_reasons /\
                  List.Forall (fun t0 => In t0 ((seen ++ [t]) ++ ts)) paths) ->
               forall w0, fst (process_text_files E ts names sleep_time sk0 w0) = Ok sk ->
               forall reason paths, sk !! reason = Some paths ->
                 In reason skip_reasons /\
                 List.Forall (fun t0 => In t0 (seen ++ t :: ts)) paths).
    { intros sk0 Hsk0 w0 Hrun0 r ps Hl.
      destruct (IH (seen ++ [t])%list sk0 w0 Hsk0 Hrun0 r ps Hl) as [H1 H2].
      split; [exact H1|]. eapply List.Forall_impl; [|exact H2].
      intros x Hx. now apply Hshift. }
    assert (Hold : forall reason paths, skipped !! reason = Some paths ->
               In reason skip_reasons /\
               List.Forall (fun t0 => In t0 ((seen ++ [t]) ++ ts)) paths).
    { intros r ps Hl. destruct (Hinv r ps Hl) as [H1 H2]. split; [exact H1|].
      eapply List.Forall_impl; [|exact H2]. intros x Hx. now apply Hshift. }
    destruct success; simpl in Hrun.
    + unfold bind at 1 in Hrun.
      destruct (Qlt_le_dec 0 sleep_time); simpl in Hrun; eapply Hgoal; eauto.
    + eapply Hgoal; [|exact Hrun].
      intros r ps Hl. unfold skipped_append in Hl.
      destruct (decide (reason = r)) as [->|Hne].
      * rewrite lookup_insert_eq in Hl. inversion Hl; subst ps. split; [exact Hr|].
        apply List.Forall_app. split.
        -- destruct (skipped !! r) as [old|] eqn:Hso; simpl; [|constructor].
           apply (Hold r old Hso).
        -- constructor; [|constructor]. apply Hshift, in_or_app. right. now left.
      * rewrite lookup_insert_ne in Hl by exact Hne. now apply Hold.
Qed.

(** X13.  When the loop over the text files completes, every key of the
    skip log is one of the four reasons of [process_training_post], and
    every path listed under a key is one of the text files of the run. *)
Theorem skipped_log_keys_and_paths (E : env) (texts names : list string) (sleep_time : Q)
    (sk : gmap string (list string)) (w : world)
    (Hrun : fst (process_text_files E texts names sleep_time ∅ w) = Ok sk) :
  forall reason paths, sk !! reason = Some paths ->
    In reason skip_reasons /\ List.Forall (fun t => In t texts) paths.
Proof.
  apply (process_text_files_skipped E texts [] names sleep_time ∅ sk w); [|exact Hrun].
  intros r ps Hl. rewrite lookup_empty in Hl. discriminate.
Qed.

Lemma skipped_log_keys_and_paths_witness :
  In "No cats mentioned or multiple cats mentioned" skip_reasons /\
  List.Forall (fun t => In t ["/repo/data/texts/abc.txt"; "/repo/data/texts/xyz.txt"])
    ["/repo/data/texts/abc.txt"; "/repo/data/texts/xyz.txt"].
Proof.
  destruct (fst (process_text_files Scenario.E_down
                   ["/repo/data/texts/abc.txt"; "/repo/data/texts/xyz.txt"] [] 0 ∅
                   empty_world)) as [sk|e] eqn:Hrun; [|vm_compute in Hrun; discriminate].
  apply (skipped_log_keys_and_paths Scenario.E_down
           ["/repo/data/texts/abc.txt"; "/repo/data/texts/xyz.txt"] [] 0 sk empty_world Hrun).
  vm_compute in Hrun. inversion Hrun. vm_compute. reflexivity.
Defined.

End PostOutcomes.

(** ** Ingestion: nothing to do, and failing requests *)

Section IngestionEdges.
Import ETL.

(** X14.  [parse_posts] raises before any request when no post source is
    configured (ValueError) or the cap is zero (ZeroDivisionError).  With
    a positive cap and a count of zero or less, or a negative cap and a
    count of zero or more, it makes no request and returns 0 (not the
    count). *)
Theorem parse_posts_without_requests (E : env) (g : string) (N M : Z) (D : Q) (w : world) :
  (post_parser E = None ->
   parse_posts E g N M D w = (Raise (ValueError "Post parser is not initialized"), w)) /\
  (post_parser E <> None -> M = 0 ->
   parse_posts E g N M D w = (Raise ZeroDivisionError, w)) /\
  (post_parser E <> None -> (0 < M /\ N <= 0) \/ (M < 0 /\ 0 <= N) ->
   parse_posts E g N M D w = (Ok 0, w)).
Proof.
  unfold parse_posts. split; [|split].
  - intros ->. reflexivity.
  - intros HP ->. destruct (post_parser E); [reflexivity | congruence].
  - intros HP Hc. destruct (post_parser E) as [P|]; [|congruence].
    destruct (Z.eqb_spec M 0) as [->|HM]; [lia|].
    set (c := N / M + (if negb (N mod M =? 0) then 1 else 0)).
    assert (Hle : c <= 0).
    { subst c. pose proof (Z.div_mod N M HM) as Hdm.
      destruct Hc as [[HM0 HN]|[HM0 HN]].
      - pose proof (Z.mod_pos_bound N M HM0).
        destruct (Z.eqb_spec (N mod M) 0); simpl; nia.
      - pose proof (Z.mod_neg_bound N M HM0).
        destruct (Z.eqb_spec (N mod M) 0); simpl; nia. }
    replace (Z.to_nat c) with 0%nat by lia. reflexivity.
Qed.

Lemma parse_posts_without_requests_witness :
  parse_posts Scenario.E_male "cats" (-30) 25 4 empty_world = (Ok 0, empty_world).
Proof.
  apply (proj2 (proj2 (parse_posts_without_requests Scenario.E_male "cats" (-30) 25 4
                         empty_world))); [discriminate | left; lia].
Defined.

Section FailingBatch.
Variables (P : PostParser) (g : string) (N M : Z) (D : Q) (k : nat) (e : exn).
Hypothesis HN : 0 <= N.
Hypothesis HM : 0 < M.
Hypothesis HD : (0 <= D)%Q.

Let c : Z := N / M + (if negb (N mod M =? 0) then 1 else 0).
Let n : nat := Z.to_nat c.

Hypothesis Hk : (k < n)%nat.
Hypothesis Hok : forall j, (j < k)%nat ->
  get_posts_batch P g (Z.min (N - Z.of_nat j * M) M) (Z.of_nat j * M) = Ok tt.
Hypothesis Hfail :
  get_posts_batch P g (Z.min (N - Z.of_nat k * M) M) (Z.of_nat k * M) = Raise e.


End FailingBatch.



End IngestionEdges.

(** ** A run over a directory that is already labelled *)

Section Rerun.
Import PyStr ETL.

Lemma process_text_files_all_processed (E : env) (texts names : list string)
    (sleep_time : Q) (skipped : gmap string (list string)) (w : world) :
  List.Forall (fun t => In (path_name t) names) texts ->
  process_text_files E texts names sleep_time skipped w
  = (Ok (fold_left (fun sk t => skipped_append "processed" t sk) texts skipped), w).
Proof.
  intros H. revert skipped. induction H as [|t ts Ht _ IH]; intros skipped; [reflexivity|].
  simpl. unfold bind at 1. unfold process_training_post.
  assert (Hex : existsb (String.eqb (path_name t)) names = true).
  { apply existsb_exists. exists (path_name t). split; [exact Ht | apply String.eqb_refl]. }
  rewrite Hex. simpl. apply IH.
Qed.

Lemma fold_processed (texts : list string) (skipped : gmap string (list string)) :
  texts <> [] ->
  fold_left (fun sk t => skipped_append "processed" t sk) texts skipped
  = <["processed" := (default [] (skipped !! "processed") ++ texts)%list]> skipped.
Proof.
  revert skipped. induction texts as [|t ts IH]; intros skipped Hne; [congruence|].
  simpl. destruct ts as [|t' ts]; [reflexivity|].
  rewrite IH by discriminate. unfold skipped_append.
  rewrite lookup_insert_eq, insert_insert_eq. simpl. now rewrite <- app_assoc.
Qed.

(** X16.  When every text file of the data directory is in the list
    derived from the labels directory, [process_training_data] completes
    without a remote call or a pause and leaves the labels and both logs
    as they were; the skip log lists all text files, in order, under
    "processed" (and is empty when there is no text file). *)
Theorem rerun_of_labelled_directory (E : env) (sleep_time : Q) (w : world)
    (Hall : List.Forall
              (fun t => In (path_name t) (processed_names_of (glob_labels (labels_path E) w)))
              (glob E (texts_path E ++ "/*.txt"))) :
  let texts := glob E (texts_path E ++ "/*.txt") in
  exists stats,
    process_training_data E sleep_time w
    = (Ok (match texts with [] => ∅ | _ => {["processed" := texts]} end, stats), w).
Proof.
  intros texts. unfold process_training_data. fold texts.
  unfold bind at 1. unfold get_processed_text_file_names, bind at 1, get_world, ret.
  unfold bind at 1.
  rewrite (process_text_files_all_processed E texts _ sleep_time ∅ w Hall).
  eexists. unfold bind, DatasetManager.organize_dataset, DatasetManager.split_dataset,
    DatasetManager.get_labeled_image_paths, bind, get_world, ret.
  f_equal. f_equal. f_equal.
  destruct texts as [|t ts] eqn:Ht; [reflexivity|].
  rewrite fold_processed by discriminate. rewrite lookup_empty. reflexivity.
Qed.

Lemma rerun_of_labelled_directory_witness :
  exists stats,
    process_training_data Scenario2.E_one_post 0 Scenario.labelled_world
    = (Ok ({["processed" := ["/repo/data/texts/abc.txt"]]}, stats), Scenario.labelled_world).
Proof.
  apply (rerun_of_labelled_directory Scenario2.E_one_post 0 Scenario.labelled_world).
  vm_compute. constructor; [left; reflexivity | constructor].
Defined.

End Rerun.

(** ** The labelled images and small datasets *)

Section LabeledImages.
Import PyStr DatasetManager.

(** X17.  [get_labeled_image_paths] reads without changing anything and
    returns each stem once; a stem is returned exactly when it is the
    stem of a file matched in the images directory and of a label file. *)
Theorem labeled_image_paths_intersection (E : env) (w : world) :
  exists l,
    get_labeled_image_paths E w = (Ok l, w) /\
    List.NoDup l /\
    forall x, In x l <->
      (exists p, In p (glob E ((data_path E ++ "/images") ++ "/*." ++ image_format)) /\
                 path_stem p = x) /\
      (exists q, In q (glob_labels (data_path E ++ "/labels") w) /\ path_stem q = x).
Proof.
  eexists. split; [reflexivity|]. split.
  - apply NoDup_ListNoDup, NoDup_remove_dups.
  - intros x. rewrite <- list_elem_of_In, elem_of_remove_dups, list_elem_of_intersection.
    rewrite !list_elem_of_In, !in_map_iff.
    split.
    + intros [(p & Hp & Hin) (q & Hq & Hinq)].
      split; [exists p | exists q]; split; assumption.
    + intros [(p & Hin & Hp) (q & Hinq & Hq)].
      split; [exists p | exists q]; split; assumption.
Qed.

Lemma split_shuffled_lengths {A} (l : list A) :
  Z.of_nat (length l) < 2 ^ 40 ->
  let s := split_shuffled l in
  Z.of_nat (length (train s)) = train_count (length l) /\
  Z.of_nat (length (val s)) = val_count (length l) /\
  Z.of_nat (length (test s)) = Z.of_nat (length l) - train_count (length l) - val_count (length l).
Proof.
  intros Hsize s. subst s. unfold split_shuffled, slice. simpl.
  set (K := length l) in *.
  pose proof (train_count_bounds K Hsize) as Ht.
  pose proof (val_count_exact K Hsize) as Hv.
  pose proof (counts_nonneg K) as [Ht0 Hv0].
  pose proof (Z.mul_div_le (7 * Z.of_nat K) 10 ltac:(lia)).
  pose proof (Z.mul_div_le (2 * Z.of_nat K) 10 ltac:(lia)).
  rewrite !length_firstn, !length_skipn. fold K. lia.
Qed.

(** X18.  For a dataset of fewer than 2^40 images: the test split is
    empty only for the empty dataset; the training split is empty exactly
    when there are fewer than two images (a single image goes to test);
    the validation split is empty exactly when there are fewer than five. *)
Theorem small_dataset_splits {A} (l : list A) (Hsize : Z.of_nat (length l) < 2 ^ 40) :
  let s := split_shuffled l in
  (test s = [] <-> l = []) /\
  (train s = [] <-> (length l < 2)%nat) /\
  (val s = [] <-> (length l < 5)%nat).
Proof.
  intros s. destruct (split_shuffled_lengths l Hsize) as (Ht & Hv & Hte). fold s in Ht, Hv, Hte.
  set (K := length l) in *.
  pose proof (train_count_bounds K Hsize) as Hb.
  pose proof (val_count_exact K Hsize) as Hve.
  pose proof (Z.mul_div_le (7 * Z.of_nat K) 10 ltac:(lia)).
  pose proof (Z.mul_div_le (2 * Z.of_nat K) 10 ltac:(lia)).
  pose proof (Z.mul_succ_div_gt (7 * Z.of_nat K) 10 ltac:(lia)).
  pose proof (Z.mul_succ_div_gt (2 * Z.of_nat K) 10 ltac:(lia)).
  assert (Hnil : forall (B : Type) (x : list B), x = [] <-> length x = 0%nat).
  { intros B x. destruct x; simpl; split; intros; try reflexivity; try discriminate. }
  rewrite !Hnil. fold K.
  assert (Htwo : K = 2%nat -> train_count K = 1) by (intros ->; reflexivity).
  split; [|split]; split; intros H'; lia.
Qed.

Lemma small_dataset_splits_witness :
  train (split_shuffled ["only"]) = [] <-> (length ["only"] < 2)%nat.
Proof.
  apply (proj1 (proj2 (small_dataset_splits ["only"] ltac:(vm_compute; reflexivity)))).
Defined.

End LabeledImages.

(** ** What an outcome says about the labels directory *)

Section OutcomeAndLabels.
Import PyStr Props ETL TrainingImageProcessor.

(** when the loop over the images returns: the count grows by the number
    of images labelled, each of which leaves a one-line label file *)
Lemma process_images_labels (E : env) (image_paths : list string) (id acc : Z) (w : world) :
  match fst (process_images E image_paths id acc w) with
  | Ok n =>
      acc <= n /\
      (n = acc -> labels (snd (process_images E image_paths id acc w)) = labels w) /\
      (acc < n \/ has_label id w ->
       has_label id (snd (process_images E image_paths id acc w)))
  | Raise _ => True
  end.
Proof.
  revert acc w. induction image_paths as [|p ps IH]; intros acc w; simpl.
  - repeat split; try lia; auto. intros [H|H]; [lia | exact H].
  - unfold bind.
    destruct (process_training_image_spec E p id w)
      as [(line & Heq & Hc)|[(_ & msg & Heq)|(_ & Heq)]]; rewrite Heq; simpl; [| |exact I].
    + specialize (IH (acc + 1) (set_labels (insert (label_file_path E p) [line]) w)).
      destruct (process_images E ps id (acc + 1) _) as [[n|e] w3]; simpl in *; [|exact I].
      destruct IH as (Hle & Hsame & Hhas).
      split; [lia|]. split; [lia|].
      intros _. apply Hhas. right.
      exists (label_file_path E p), line. simpl. rewrite lookup_insert_eq. auto.
    + specialize (IH (acc + 0) (log_exception (image_error p msg) w)).
      destruct (process_images E ps id (acc + 0) _) as [[n|e] w3]; simpl in *; [|exact I].
      destruct IH as (Hle & Hsame & Hhas).
      split; [lia|]. split.
      * intros ->. apply Hsame. lia.
      * intros H. apply Hhas. destruct H as [H|(path & l0 & Hp & Hc)]; [left; lia|].
        right. exists path, l0. auto.
Qed.

Lemma get_class_id_range (cand : string) (id : Z) :
  DescriptionClassifier.get_class_id cand = Ok id -> id = 0 \/ id = 1 \/ id = 2.
Proof.
  unfold DescriptionClassifier.get_class_id, DescriptionClassifier.dict_contains,
    DescriptionClassifier.actual_class_names. simpl.
  destruct (String.eqb_spec cand "MALE CAT") as [->|_]; [intros H; inversion H; auto|].
  destruct (String.eqb_spec cand "FEMALE CAT") as [->|_]; [intros H; inversion H; auto|].
  destruct (String.eqb_spec cand "OTHER") as [->|_]; [intros H; inversion H; auto|].
  simpl.
  destruct (PyStr.contains "MALE CAT" cand), (PyStr.contains "FEMALE CAT" cand),
    (PyStr.contains "OTHER" cand); simpl; intros H; inversion H; auto.
Qed.

(** X19.  A call of [process_training_post] that returns [False], for
    whatever reason, leaves the labels directory exactly as it was. *)
Theorem skipped_post_leaves_labels (E : env) (text_file_path images_path : string)
    (processed : list string) (w : world) (reason : string)
    (Hskip : fst (process_training_post E text_file_path processed images_path w)
             = Ok (false, reason)) :
  labels (snd (process_training_post E text_file_path processed images_path w)) = labels w.
Proof.
  destruct (existsb (String.eqb (path_name text_file_path)) processed) eqn:Hnew.
  { unfold process_training_post. rewrite Hnew. reflexivity. }
  pose proof (get_correct_class_name_returns E text_file_path w) as [name Hname].
  pose proof (get_correct_class_name_labels E text_file_path w) as Hl.
  rewrite (process_training_post_after_classification E _ _ _ _ name Hnew Hname) in *.
  destruct (DescriptionClassifier.get_class_id name) as [id|e]; [|exact Hl].
  destruct (negb (id =? 2)); [|exact Hl].
  destruct (glob E _) as [|p ps]; [exact Hl|].
  unfold bind in *.
  pose proof (process_images_labels E (p :: ps) id 0
                (snd (get_correct_class_name E text_file_path w))) as Himg.
  destruct (process_images E (p :: ps) id 0 _) as [[n|e] w3]; simpl in Himg, Hskip;
    [|discriminate].
  destruct Himg as (_ & Hsame & _).
  revert Hskip. destruct (n =? 0) eqn:Hz; unfold ret; simpl; intros Hskip; [|discriminate].
  apply Z.eqb_eq in Hz. rewrite (Hsame Hz). exact Hl.
Qed.

Lemma skipped_post_leaves_labels_witness :
  labels (snd (process_training_post Scenario.E_down "/repo/data/texts/abc.txt" []
                 "/repo/data/images" Scenario.labelled_world))
  = labels Scenario.labelled_world.
Proof.
  apply (skipped_post_leaves_labels Scenario.E_down "/repo/data/texts/abc.txt"
           "/repo/data/images" [] Scenario.labelled_world
           "No cats mentioned or multiple cats mentioned").
  reflexivity.
Defined.

(** X20.  A call of [process_training_post] that returns [True] returns
    the reason "OK"; the text was classified MALE (0) or FEMALE (1), and
    afterwards some label file holds exactly one line, with that class. *)
Theorem ok_post_leaves_label (E : env) (text_file_path images_path : string)
    (processed : list string) (w : world) (reason : string)
    (Hok : fst (process_training_post E text_file_path processed images_path w)
           = Ok (true, reason)) :
  reason = "OK" /\
  exists name id,
    fst (get_correct_class_name E text_file_path w) = Ok name /\
    DescriptionClassifier.get_class_id name = Ok id /\ (id = 0 \/ id = 1) /\
    has_label id (snd (process_training_post E text_file_path processed images_path w)).
Proof.
  destruct (existsb (String.eqb (path_name text_file_path)) processed) eqn:Hnew.
  { unfold process_training_post in Hok. rewrite Hnew in Hok. discriminate. }
  pose proof (get_correct_class_name_returns E text_file_path w) as [name Hname].
  rewrite (process_training_post_after_classification E _ _ _ _ name Hnew Hname) in *.
  destruct (DescriptionClassifier.get_class_id name) as [id|e] eqn:Hid;
    [|simpl in Hok; congruence].
  destruct (Z.eqb_spec id 2) as [->|Hne2]; [simpl in Hok; congruence|].
  cbn [negb] in *.
  destruct (glob E _) as [|p ps]; [simpl in Hok; congruence|].
  unfold bind in *.
  pose proof (process_images_labels E (p :: ps) id 0
                (snd (get_correct_class_name E text_file_path w))) as Himg.
  destruct (process_images E (p :: ps) id 0 _) as [[n|e'] w3]; simpl in Himg, Hok;
    [|discriminate].
  destruct Himg as (Hle & _ & Hhas).
  revert Hok. destruct (n =? 0) eqn:Hz; unfold ret; simpl; intros Hok; [discriminate|].
  apply Z.eqb_neq in Hz.
  inversion Hok. split; [reflexivity|].
  exists name, id. split; [exact Hname|]. split; [exact Hid|]. split.
  - destruct (get_class_id_range _ _ Hid) as [?|[?|?]]; [auto | auto | congruence].
  - apply Hhas. left. lia.
Qed.

Lemma ok_post_leaves_label_witness :
  exists name id,
    fst (get_correct_class_name Scenario.E_male "/repo/data/texts/abc.txt" empty_world)
    = Ok name /\
    DescriptionClassifier.get_class_id name = Ok id /\ (id = 0 \/ id = 1) /\
    exists path line,
      labels (snd (process_training_post Scenario.E_male "/repo/data/texts/abc.txt" []
                     "/repo/data/images" empty_world)) !! path = Some [line] /\
      ll_class line = id.
Proof.
  exact (proj2 (ok_post_leaves_label Scenario.E_male "/repo/data/texts/abc.txt"
                  "/repo/data/images" [] empty_world "OK" eq_refl)).
Defined.

End OutcomeAndLabels.

(** ** The files the split copies *)

Section CopiedFiles.
Import PyStr DatasetFiles.

Lemma append_inv_head (a b c : string) : a ++ b = a ++ c -> b = c.
Proof.
  induction a as [|x a IH]; [auto|].
  rewrite !append_cons. intros H. injection H as H. auto.
Qed.

Lemma take_drop_str (k : nat) (s : string) : take k s ++ drop k s = s.
Proof.
  revert s. induction k as [|k IH]; intros [|c s]; simpl; try reflexivity.
  rewrite append_cons, IH. reflexivity.
Qed.

Lemma take_append_str (a b : string) : take (String.length a) (a ++ b) = a.
Proof.
  induction a as [|x a IH]; [now destruct b|].
  rewrite append_cons. simpl. now rewrite IH.
Qed.

(** the dot [rfind] reports is a dot, and no dot follows it *)
Lemma rfind_dot_from_last (s : string) (i j : nat) :
  rfind_dot_from i s = Some j ->
  exists k, j = (i + k)%nat /\ (k < String.length s)%nat /\
    drop k s = String "." (drop (S k) s) /\
    rfind_dot_from (S j) (drop (S k) s) = None.
Proof.
  revert i j. induction s as [|c s IH]; intros i j H; simpl in H; [discriminate|].
  destruct (rfind_dot_from (S i) s) as [j'|] eqn:Hr.
  - injection H as <-. destruct (IH _ _ Hr) as (k & -> & Hk & Hd & Hn).
    exists (S k). simpl. repeat split; [lia | lia | exact Hd | exact Hn].
  - destruct (Ascii.eqb_spec c ".") as [->|]; [|discriminate]. injection H as <-.
    exists 0%nat. simpl. rewrite Nat.add_0_r. repeat split; [lia | exact Hr].
Qed.

Lemma rfind_dot_txt (X : string) (i : nat) :
  rfind_dot_from i (X ++ ".txt") = Some (i + String.length X)%nat.
Proof.
  revert i. induction X as [|c X IH]; intros i.
  - rewrite append_empty_l. simpl. now rewrite Nat.add_0_r.
  - rewrite append_cons. simpl. rewrite IH. f_equal. lia.
Qed.

(** X21.  A label file [<X>.txt] with a non-empty [X] has the stem [X], and
    the name [organize_dataset] builds from that stem for the label to copy
    is the name of the label file again. *)
Theorem label_name_round_trip (p X : string)
    (Hname : path_name p = X ++ ".txt") (HX : X <> "") :
  path_stem p = X /\ src_label_name (path_stem p) = path_name p.
Proof.
  assert (Hstem : path_stem p = X).
  { unfold path_stem. rewrite Hname, rfind_dot_txt, length_append_str. simpl.
    destruct X as [|c X]; [congruence|]. simpl String.length.
    destruct (Nat.ltb_spec 0 (S (String.length X))) as [_|]; [|lia].
    destruct (Nat.ltb_spec (S (String.length X)) (S (String.length X) + 4 - 1)) as [_|];
      [|lia].
    simpl andb. cbv iota.
    exact (take_append_str (String c X) ".txt"). }
  split; [exact Hstem|]. unfold src_label_name. now rewrite Hstem, Hname.
Qed.

Lemma label_name_round_trip_witness :
  path_stem "/repo/data/labels/abc_1.txt" = "abc_1" /\
  src_label_name (path_stem "/repo/data/labels/abc_1.txt")
  = path_name "/repo/data/labels/abc_1.txt".
Proof.
  apply (label_name_round_trip "/repo/data/labels/abc_1.txt" "abc_1");
    [reflexivity | discriminate].
Defined.

(** X22.  The name [organize_dataset] builds for the image to copy is the
    stem, a dot and the image format, which itself starts with a dot: it is
    never the name of the file the stem was taken from. *)
Theorem image_name_never_rebuilt (p : string) :
  src_img_name (path_stem p) <> path_name p.
Proof.
  unfold src_img_name, path_stem, DatasetManager.image_format, TRAIN_IMAGE_FORMAT.
  change ("." ++ ".png") with "..png".
  set (name := path_name p).
  assert (Hlong : name ++ "..png" <> name).
  { intros H. apply (f_equal String.length) in H. rewrite length_append_str in H.
    simpl in H. lia. }
  destruct (rfind_dot_from 0 name) as [i|] eqn:Hr; [|exact Hlong].
  destruct ((0 <? i)%nat && (i <? String.length name - 1)%nat) eqn:Hc; [|exact Hlong].
  destruct (rfind_dot_from_last _ _ _ Hr) as (k & Hk & Hlen & Hd & Hn).
  simpl in Hk. subst k. intros H.
  rewrite <- (take_drop_str i name) in H at 2. apply append_inv_head in H.
  rewrite Hd in H. remember (drop (S i) name) as rest eqn:Hrest.
  injection H as H. rewrite <- H in Hn. simpl in Hn. discriminate.
Qed.

End CopiedFiles.

(** ** Paging through a subreddit *)

Section RedditPaging.
Import ETL PyList RedditPostParser.


(** a slice with bounds [0 <= a <= b] *)
Lemma py_slice_nonneg {A} (l : list A) (a b : Z) :
  0 <= a -> a <= b ->
  py_slice l a b = firstn (Z.to_nat (b - a)) (skipn (Z.to_nat a) l).
Proof.
  intros Ha Hab. unfold py_slice, py_index.
  destruct (Z.ltb_spec a 0) as [|_]; [lia|].
  destruct (Z.ltb_spec b 0) as [|_]; [lia|].
  set (len := Z.of_nat (length l)).
  destruct (Z.le_gt_cases a len) as [Hin|Hout].
  - rewrite (Z.min_l a len) by lia.
    destruct (Z.le_gt_cases b len) as [Hb|Hb].
    + rewrite (Z.min_l b len) by lia. reflexivity.
    + rewrite (Z.min_r b len) by lia.
      rewrite !firstn_all2; [reflexivity | |]; rewrite length_skipn; subst len; lia.
  - rewrite (Z.min_r a len), (Z.min_r b len) by lia.
    rewrite !skipn_all2 by (subst len; lia). now rewrite !firstn_nil.
Qed.

Section Feed.
Context {Submission : Type}.
Variable feed : list Submission.

Lemma to_process_window (posts_to_parse offset : Z) :
  0 <= offset -> 0 <= posts_to_parse ->
  to_process feed posts_to_parse offset
  = firstn (Z.to_nat posts_to_parse) (skipn (Z.to_nat offset) feed).
Proof.
  intros Ho Hc. unfold to_process, new_listing.
  assert (Hw : firstn (Z.to_nat posts_to_parse)
                 (skipn (Z.to_nat offset) (firstn (Z.to_nat (posts_to_parse + offset)) feed))
               = firstn (Z.to_nat posts_to_parse) (skipn (Z.to_nat offset) feed)).
  { replace (Z.to_nat (posts_to_parse + offset))
      with (Z.to_nat offset + Z.to_nat posts_to_parse)%nat by lia.
    rewrite <- firstn_skipn_comm, firstn_firstn, Nat.min_id. reflexivity. }
  destruct (firstn (Z.to_nat (posts_to_parse + offset)) feed) as [|x l] eqn:Hf.
  - rewrite <- Hw. now rewrite skipn_nil, firstn_nil.
  - rewrite py_slice_nonneg by lia.
    replace (offset + posts_to_parse - offset) with posts_to_parse by lia.
    exact Hw.
Qed.

(** X23.  A Reddit batch request for [posts_to_parse] posts at [offset]
    handles the submissions of the listing after the [offset] newest, at
    most [posts_to_parse] of them and fewer only when the listing ends. *)
Theorem reddit_batch_is_feed_window (posts_to_parse offset : Z)
    (Ho : 0 <= offset) (Hc : 0 <= posts_to_parse) :
  to_process feed posts_to_parse offset
  = firstn (Z.to_nat posts_to_parse) (skipn (Z.to_nat offset) feed) /\
  length (to_process feed posts_to_parse offset)
  = Nat.min (Z.to_nat posts_to_parse) (length feed - Z.to_nat offset).
Proof.
  rewrite to_process_window by assumption. split; [reflexivity|].
  now rewrite length_firstn, length_skipn.
Qed.

Section Run.
Variables (E : env) (P : PostParser) (g : string) (N M : Z) (D : Q).
Hypothesis HP : post_parser E = Some P.
Hypothesis Hok : forall c o, get_posts_batch P g c o = Ok tt.
Hypothesis HN : 0 <= N.
Hypothesis HM : 0 < M.
Hypothesis HD : (0 <= D)%Q.

Let c : Z := N / M + (if negb (N mod M =? 0) then 1 else 0).
Let n : nat := Z.to_nat c.





End Run.
End Feed.

Lemma reddit_batch_is_feed_window_witness :
  to_process ["e"; "d"; "c"; "b"; "a"] 2 4
  = firstn (Z.to_nat 2) (skipn (Z.to_nat 4) ["e"; "d"; "c"; "b"; "a"]) /\
  length (to_process ["e"; "d"; "c"; "b"; "a"] 2 4)
  = Nat.min (Z.to_nat 2) (length ["e"; "d"; "c"; "b"; "a"] - Z.to_nat 4).
Proof.
  apply (reddit_batch_is_feed_window ["e"; "d"; "c"; "b"; "a"] 2 4); lia.
Defined.


End RedditPaging.

(** ** Grouping Telegram messages into posts *)

Section TelegramGrouping.
Import TelegramPostParser GroupingProps.

Lemma group_append_keys (g : Z) (m : Message) (groups : list (Z * list Message)) (k : Z) :
  In k (map fst (group_append g m groups)) <-> k = g \/ In k (map fst groups).
Proof.
  induction groups as [|[g0 msgs0] groups IH]; simpl.
  - intuition.
  - destruct (Z.eqb_spec g0 g) as [->|Hne]; simpl; [intuition|].
    rewrite IH. intuition.
Qed.

Lemma group_append_NoDup (g : Z) (m : Message) (groups : list (Z * list Message)) :
  List.NoDup (map fst groups) -> List.NoDup (map fst (group_append g m groups)).
Proof.
  induction groups as [|[g0 msgs0] groups IH]; simpl; intros Hnd.
  - constructor; [intros []|constructor].
  - inversion Hnd as [|? ? Hnotin Hrest]; subst.
    destruct (Z.eqb_spec g0 g) as [->|Hne]; simpl; [now constructor|].
    constructor; [|now apply IH].
    rewrite group_append_keys. intros [->|Hin]; [congruence | contradiction].
Qed.

(** where a group of the dict comes from after [setdefault(...).append] *)
Lemma group_append_cases (g : Z) (m : Message) (groups : list (Z * list Message))
    (k : Z) (msgs : list Message) :
  List.NoDup (map fst groups) ->
  In (k, msgs) (group_append g m groups) ->
  (k <> g /\ In (k, msgs) groups) \/
  (k = g /\ exists old, In (g, old) groups /\ msgs = (old ++ [m])%list) \/
  (k = g /\ ~ In g (map fst groups) /\ msgs = [m]).
Proof.
  induction groups as [|[g0 msgs0] groups IH]; simpl; intros Hnd Hin.
  - destruct Hin as [Heq|[]]. injection Heq as <- <-. right. right. intuition.
  - inversion Hnd as [|? ? Hnotin Hrest]; subst.
    destruct (Z.eqb_spec g0 g) as [->|Hne]; simpl in Hin.
    + destruct Hin as [Heq|Hin].
      * injection Heq as <- <-. right. left. split; [reflexivity|].
        exists msgs0. split; [now left | reflexivity].
      * left. split; [|now right]. intros ->. apply Hnotin.
        apply (in_map fst) in Hin. exact Hin.
    + destruct Hin as [Heq|Hin].
      * injection Heq as <- <-. left. split; [exact Hne | now left].
      * destruct (IH Hrest Hin) as [(Hk & H)|[(Hk & old & H & Hm)|(Hk & Hno & Hm)]].
        -- left. split; [exact Hk | now right].
        -- right. left. split; [exact Hk|]. exists old. split; [now right | exact Hm].
        -- right. right. split; [exact Hk|]. split; [|exact Hm].
           intros [Heq|H]; [congruence | contradiction].
Qed.

Lemma album_app (k : Z) (pre : list Message) (m : Message) :
  album k (pre ++ [m]) = (album k pre ++ (if in_album k m then [m] else []))%list.
Proof. unfold album. rewrite List.filter_app. reflexivity. Qed.

Lemma album_empty (k : Z) (pre : list Message) (groups : list (Z * list Message)) :
  grouped pre groups -> k <> 0 -> ~ In k (map fst groups) -> album k pre = [].
Proof.
  intros (_ & _ & Hkeys) Hk Hno. unfold album.
  induction pre as [|x pre IH]; [reflexivity|]. simpl.
  destruct (in_album k x) eqn:Hx.
  - exfalso. apply Hno. unfold in_album in Hx.
    destruct (grouped_id x) as [gx|] eqn:Hgx; [|discriminate].
    apply Z.eqb_eq in Hx. subst gx. apply (Hkeys x k); [now left | exact Hgx | exact Hk].
  - apply IH. intros m' k' Hin. apply Hkeys. now right.
Qed.

Lemma grouped_step (pre : list Message) (groups : list (Z * list Message))
    (m : Message) (g : Z) :
  grouped pre groups -> grouped_id m = Some g -> g <> 0 ->
  grouped (pre ++ [m]) (group_append g m groups).
Proof.
  intros Hg Hm Hg0. pose proof Hg as (Hnd & Hgroups & Hkeys).
  assert (Hmg : in_album g m = true) by (unfold in_album; rewrite Hm; apply Z.eqb_refl).
  split; [now apply group_append_NoDup|]. split.
  - intros k msgs Hin. rewrite album_app.
    destruct (group_append_cases _ _ _ _ _ Hnd Hin)
      as [(Hk & H)|[(-> & old & H & ->)|(-> & Hno & ->)]].
    + destruct (Hgroups _ _ H) as (Hk0 & ->). split; [exact Hk0|].
      assert (Hf : in_album k m = false).
      { unfold in_album. rewrite Hm. apply Z.eqb_neq. congruence. }
      rewrite Hf, app_nil_r. reflexivity.
    + destruct (Hgroups _ _ H) as (_ & ->). rewrite Hmg. split; [exact Hg0 | reflexivity].
    + rewrite Hmg, (album_empty g pre groups Hg Hg0 Hno). split; [exact Hg0 | reflexivity].
  - intros m' k Hin Hgid Hk. rewrite group_append_keys.
    apply in_app_or in Hin as [Hin|[<-|[]]].
    + right. now apply (Hkeys m' k).
    + left. congruence.
Qed.

Lemma grouped_single (pre : list Message) (groups : list (Z * list Message)) (m : Message) :
  grouped pre groups -> is_single m = true -> grouped (pre ++ [m]) groups.
Proof.
  intros (Hnd & Hgroups & Hkeys) Hs. split; [exact Hnd|]. split.
  - intros k msgs Hin. destruct (Hgroups _ _ Hin) as (Hk & ->). split; [exact Hk|].
    rewrite album_app.
    assert (Hf : in_album k m = false).
    { unfold in_album, is_single in *. destruct (grouped_id m) as [gm|]; [|reflexivity].
      apply Z.eqb_eq in Hs. subst gm. apply Z.eqb_neq. congruence. }
    rewrite Hf, app_nil_r. reflexivity.
  - intros m' k Hin Hgid Hk. apply in_app_or in Hin as [Hin|[<-|[]]].
    + now apply (Hkeys m' k).
    + unfold is_single in Hs. rewrite Hgid in Hs. apply Z.eqb_eq in Hs. congruence.
Qed.

(** the first loop: every group is an album of the messages, every album
    has its group, the singles are the messages outside albums *)
Lemma partition_messages_spec (messages pre : list Message)
    (groups : list (Z * list Message)) (singles : list Message) :
  grouped pre groups -> singles = List.filter is_single pre ->
  grouped (pre ++ messages) (fst (partition_messages messages groups singles)) /\
  snd (partition_messages messages groups singles) = List.filter is_single (pre ++ messages).
Proof.
  revert pre groups singles.
  induction messages as [|m messages IH]; intros pre groups singles Hg Hs.
  - simpl. rewrite app_nil_r. split; assumption.
  - replace (pre ++ m :: messages)%list with ((pre ++ [m]) ++ messages)%list
      by (rewrite <- app_assoc; reflexivity).
    assert (Hfil : List.filter is_single (pre ++ [m])
                   = (singles ++ (if is_single m then [m] else []))%list).
    { rewrite List.filter_app, Hs. reflexivity. }
    simpl. unfold is_single in Hfil at 2. destruct (grouped_id m) as [gid|] eqn:Hm.
    + destruct (Z.eqb_spec gid 0) as [->|Hne].
      * apply IH; [|now rewrite Hfil].
        apply grouped_single; [exact Hg|]. unfold is_single. now rewrite Hm.
      * apply IH; [now apply grouped_step|]. now rewrite Hfil, app_nil_r.
    + apply IH; [|now rewrite Hfil].
      apply grouped_single; [exact Hg|]. unfold is_single. now rewrite Hm.
Qed.

Lemma partition_messages_all (messages : list Message) :
  grouped messages (fst (partition_messages messages [] [])) /\
  snd (partition_messages messages [] []) = List.filter is_single messages.
Proof.
  apply (partition_messages_spec messages [] [] []); [|reflexivity].
  split; [constructor|]. split; [intros ? ? []|intros ? ? []].
Qed.

Lemma in_insert_desc (p q : Post) (l : list Post) :
  In p (insert_desc q l) <-> p = q \/ In p l.
Proof.
  induction l as [|x l IH]; simpl; [intuition|].
  destruct (post_id x <=? post_id q); simpl; [intuition|].
  rewrite IH. intuition.
Qed.

Lemma in_sort_desc (p : Post) (l : list Post) : In p (sort_desc l) <-> In p l.
Proof.
  induction l as [|x l IH]; simpl; [reflexivity|].
  rewrite in_insert_desc, IH. intuition.
Qed.

Lemma insert_desc_sorted (p : Post) (l : list Post) :
  StronglySorted id_desc l -> StronglySorted id_desc (insert_desc p l).
Proof.
  induction l as [|x l IH]; intros Hs; simpl.
  - constructor; constructor.
  - apply StronglySorted_inv in Hs as (Hl & Hx).
    destruct (Z.leb_spec (post_id x) (post_id p)) as [Hle|Hlt].
    + constructor; [constructor; assumption|].
      constructor; [exact Hle|].
      apply List.Forall_forall. intros y Hy.
      pose proof (proj1 (List.Forall_forall _ _) Hx y Hy) as Hyx.
      unfold id_desc in *. lia.
    + constructor; [now apply IH|].
      apply List.Forall_forall. intros y Hy. apply in_insert_desc in Hy as [->|Hy].
      * unfold id_desc. lia.
      * exact (proj1 (List.Forall_forall _ _) Hx y Hy).
Qed.

Lemma sort_desc_sorted (l : list Post) : StronglySorted id_desc (sort_desc l).
Proof.
  induction l as [|x l IH]; simpl; [constructor | now apply insert_desc_sorted].
Qed.

Lemma fold_min_spec (xs : list Z) (x : Z) :
  In (fold_left Z.min xs x) (x :: xs) /\
  forall y, In y (x :: xs) -> fold_left Z.min xs x <= y.
Proof.
  revert x. induction xs as [|a xs IH]; intros x; simpl.
  - split; [now left|]. intros y [Hy|[]]. lia.
  - destruct (IH (Z.min x a)) as (Hin & Hle). split.
    + destruct Hin as [Heq|Hin]; [|now right; right].
      rewrite <- Heq. destruct (Z.min_spec x a) as [(_ & ->)|(_ & ->)]; [now left | right; now left].
    + pose proof (Hle (Z.min x a) (or_introl eq_refl)) as Hhead.
      intros y [Hy|[Hy|Hy]]; [lia | lia | apply Hle; now right].
Qed.

Lemma min_id_spec (msgs : list Message) :
  msgs <> [] ->
  In (min_id msgs) (map msg_id msgs) /\ forall m, In m msgs -> min_id msgs <= msg_id m.
Proof.
  intros Hne. unfold min_id. destruct msgs as [|x msgs]; [congruence|]. simpl map.
  destruct (fold_min_spec (map msg_id msgs) (msg_id x)) as (Hin & Hle).
  split; [exact Hin|]. intros m Hm. apply Hle.
  change (msg_id x :: map msg_id msgs) with (map msg_id (x :: msgs)). now apply in_map.
Qed.

Section Strip.
Variable strip : string -> string.

(** where a post comes from *)
Lemma post_origin (messages : list Message) (post : Post) :
  In post (_group_messages_into_posts strip messages) <->
  (exists k, k <> 0 /\ album k messages <> [] /\
     existsb _message_has_video (album k messages) = false /\
     existsb _message_has_photo (album k messages) = true /\
     post_id post = min_id (album k messages) /\
     post_messages post = album k messages /\
     In post (album_posts strip [(k, album k messages)])) \/
  (exists m, In m messages /\ is_single m = true /\
     _message_has_video m = false /\ _message_has_photo m = true /\
     post = (msg_id m, [m], strip (message_or_empty m))).
Proof.
  unfold _group_messages_into_posts.
  destruct (partition_messages_all messages) as ((Hnd & Hgroups & Hkeys) & Hsingles).
  destruct (partition_messages messages [] []) as [groups singles].
  simpl in Hnd, Hgroups, Hkeys, Hsingles. subst singles.
  rewrite in_sort_desc, in_app_iff.
  match goal with
  | |- (?A \/ ?B) <-> (?C \/ ?D) => cut ((A <-> C) /\ (B <-> D)); [tauto | split]
  end.
  - unfold album_posts at 1. rewrite in_flat_map. split.
    + intros ([k msgs] & Hin & Hpost).
      destruct (Hgroups _ _ Hin) as (Hk & ->).
      exists k. split; [exact Hk|].
      assert (Hsame : In post (album_posts strip [(k, album k messages)])).
      { simpl. rewrite app_nil_r. exact Hpost. }
      destruct (existsb _message_has_video (album k messages)) eqn:Hv; [destruct Hpost|].
      destruct (existsb _message_has_photo (album k messages)) eqn:Hp; [|destruct Hpost].
      simpl in Hpost. destruct Hpost as [<-|[]].
      split; [|repeat split; try reflexivity; exact Hsame].
      intros Hnil. rewrite Hnil in Hp. discriminate.
    + intros (k & Hk & Hne & Hv & Hp & _ & _ & Hpost).
      exists (k, album k messages). split.
      * destruct (album k messages) as [|m0 rest] eqn:Ha; [congruence|].
        assert (Hm0 : In m0 (album k messages)) by (rewrite Ha; now left).
        unfold album in Hm0. apply List.filter_In in Hm0 as (Hin0 & Hk0).
        unfold in_album in Hk0. destruct (grouped_id m0) as [g0|] eqn:Hg0; [|discriminate].
        apply Z.eqb_eq in Hk0. subst g0.
        pose proof (Hkeys m0 k Hin0 Hg0 Hk) as Hkey.
        apply in_map_iff in Hkey as ([k' msgs] & Hfst & Hin). simpl in Hfst. subst k'.
        destruct (Hgroups _ _ Hin) as (_ & Hmsgs). rewrite Ha in Hmsgs. now subst msgs.
      * simpl in Hpost. rewrite app_nil_r in Hpost. exact Hpost.
  - unfold single_posts. rewrite in_flat_map. split.
    + intros (m & Hin & Hpost). apply List.filter_In in Hin as (Hin & Hs).
      exists m. destruct (_message_has_video m); [destruct Hpost|].
      destruct (_message_has_photo m); [|destruct Hpost].
      simpl in Hpost. destruct Hpost as [<-|[]]. repeat split; assumption.
    + intros (m & Hin & Hs & Hv & Hp & ->). exists m.
      split; [apply List.filter_In; now split|].
      rewrite Hv, Hp. now left.
Qed.

(** X25.  Every post the grouping returns has at least one message, all
    of them fetched messages without video, one of them with a photo; its
    id is the smallest id among its messages. *)
Theorem telegram_posts_have_photo_and_no_video (messages : list Message) (post : Post)
    (Hpost : In post (_group_messages_into_posts strip messages)) :
  post_messages post <> [] /\
  (forall m, In m (post_messages post) -> In m messages /\ _message_has_video m = false) /\
  existsb _message_has_photo (post_messages post) = true /\
  In (post_id post) (map msg_id (post_messages post)) /\
  (forall m, In m (post_messages post) -> post_id post <= msg_id m).
Proof.
  apply post_origin in Hpost
    as [(k & Hk & Hne & Hv & Hp & Hid & Hmsgs & _)|(m & Hin & Hs & Hv & Hp & ->)].
  - rewrite Hmsgs, Hid. destruct (min_id_spec _ Hne) as (Hmin & Hle).
    split; [exact Hne|]. split; [|split; [exact Hp|split; [exact Hmin | exact Hle]]].
    intros m Hm. split.
    + unfold album in Hm. now apply List.filter_In in Hm as (Hm & _).
    + destruct (_message_has_video m) eqn:Hmv; [|reflexivity].
      rewrite <- Hv. symmetry. apply existsb_exists. now exists m.
  - unfold post_messages, post_id. simpl. split; [discriminate|].
    split; [intros m' [<-|[]]; now split|]. split; [now rewrite Hp|].
    split; [now left|]. intros m' [<-|[]]. lia.
Qed.

(** X26.  The posts are returned by id, largest first. *)
Theorem telegram_posts_sorted (messages : list Message) :
  StronglySorted id_desc (_group_messages_into_posts strip messages).
Proof.
  unfold _group_messages_into_posts.
  destruct (partition_messages messages [] []) as [groups singles].
  apply sort_desc_sorted.
Qed.

(** X27.  A fetched message outside any album, with a photo and without
    video, is a post of its own, under its own id and with its stripped
    text. *)
Theorem telegram_single_photo_is_post (messages : list Message) (m : Message)
    (Hin : In m messages) (Hsingle : is_single m = true)
    (Hvideo : _message_has_video m = false) (Hphoto : _message_has_photo m = true) :
  In (msg_id m, [m], strip (message_or_empty m)) (_group_messages_into_posts strip messages).
Proof.
  apply post_origin. right. exists m. repeat split; assumption.
Qed.

(** X28.  One message with video removes its whole album: no post holds a
    message of that album. *)
Theorem telegram_album_with_video_dropped (messages : list Message) (m : Message) (g : Z)
    (Hin : In m messages) (Hgid : grouped_id m = Some g) (Hg : g <> 0)
    (Hvideo : _message_has_video m = true) :
  forall post, In post (_group_messages_into_posts strip messages) ->
  forall m', In m' (post_messages post) -> grouped_id m' <> Some g.
Proof.
  intros post Hpost m' Hm' Hgid'.
  apply post_origin in Hpost
    as [(k & Hk & Hne & Hv & Hp & Hid & Hmsgs & _)|(m0 & Hin0 & Hs & Hv & Hp & ->)].
  - rewrite Hmsgs in Hm'. unfold album in Hm'. apply List.filter_In in Hm' as (_ & Hk').
    unfold in_album in Hk'. rewrite Hgid' in Hk'. apply Z.eqb_eq in Hk'. subst k.
    assert (Hm : In m (album g messages)).
    { apply List.filter_In. split; [exact Hin|]. unfold in_album. rewrite Hgid.
      apply Z.eqb_refl. }
    assert (Hex : existsb _message_has_video (album g messages) = true).
    { apply existsb_exists. now exists m. }
    congruence.
  - destruct Hm' as [<-|[]]. unfold is_single in Hs. rewrite Hgid' in Hs.
    apply Z.eqb_eq in Hs. congruence.
Qed.


End Strip.

Lemma telegram_posts_have_photo_and_no_video_witness :
  let m := {| msg_id := 7; grouped_id := None; video := false; video_note := false;
              photo := true; document := None; message := Some "cat" |} in
  post_messages (7, [m], "cat") <> [] /\
  (forall m', In m' (post_messages (7, [m], "cat")) ->
     In m' [m] /\ _message_has_video m' = false) /\
  existsb _message_has_photo (post_messages (7, [m], "cat")) = true /\
  In (post_id (7, [m], "cat")) (map msg_id (post_messages (7, [m], "cat"))) /\
  (forall m', In m' (post_messages (7, [m], "cat")) -> post_id (7, [m], "cat") <= msg_id m').
Proof.
  intros m.
  apply (telegram_posts_have_photo_and_no_video (fun s => s) [m] (7, [m], "cat")).
  left. reflexivity.
Defined.

Lemma telegram_single_photo_is_post_witness :
  let m := {| msg_id := 7; grouped_id := None; video := false; video_note := false;
              photo := true; document := None; message := Some "cat" |} in
  let v := {| msg_id := 8; grouped_id := None; video := true; video_note := false;
              photo := false; document := None; message := None |} in
  In (msg_id m, [m], message_or_empty m)
     (_group_messages_into_posts (fun s => s) [v; m]).
Proof.
  intros m v.
  apply (telegram_single_photo_is_post (fun s => s) [v; m] m);
    [right; left; reflexivity | reflexivity | reflexivity | reflexivity].
Defined.

Lemma telegram_album_with_video_dropped_witness :
  let a := {| msg_id := 11; grouped_id := Some 5; video := false; video_note := false;
              photo := true; document := None; message := Some "kittens" |} in
  let b := {| msg_id := 10; grouped_id := Some 5; video := false; video_note := false;
              photo := false; document := Some (Some "video/mp4"); message := None |} in
  let c := {| msg_id := 9; grouped_id := None; video := false; video_note := false;
              photo := true; document := None; message := Some "solo" |} in
  grouped_id c <> Some 5.
Proof.
  intros a b c.
  apply (telegram_album_with_video_dropped (fun s => s) [a; b; c] b 5
           ltac:(right; left; reflexivity) eq_refl ltac:(discriminate) eq_refl
           (9, [c], "solo") ltac:(left; reflexivity) c ltac:(left; reflexivity)).
Defined.


End TelegramGrouping.

(** ** The images the split can see *)

Section LabeledStems.
Import PyStr Props DatasetManager.

Lemma rfind_dot_dotpng (t : string) (i : nat) :
  rfind_dot_from i (t ++ "..png") = Some (i + String.length t + 1)%nat.
Proof.
  revert i. induction t as [|c t IH]; intros i.
  - rewrite append_empty_l. simpl. f_equal. lia.
  - rewrite append_cons. simpl. rewrite IH. f_equal. lia.
Qed.

Lemma all_chars_append (P : ascii -> bool) (a b : string) :
  all_chars P (a ++ b) = all_chars P a && all_chars P b.
Proof.
  induction a as [|c a IH]; [reflexivity|].
  rewrite append_cons. simpl. now rewrite IH, andb_assoc.
Qed.

(** a path is a name without slash, or a directory, a slash and such a name *)
Lemma last_component (q : string) :
  exists t, all_chars (fun c => negb (Ascii.eqb c "/")) t = true /\
            (q = t \/ exists dir, q = dir ++ String "/" t).
Proof.
  induction q as [|c q (t & Ht & IH)].
  - exists "". split; [reflexivity | now left].
  - destruct IH as [->|(dir & ->)].
    + destruct (Ascii.eqb_spec c "/") as [->|Hc].
      * exists t. split; [exact Ht|]. right. exists "". reflexivity.
      * exists (String c t). split; [|now left]. simpl. rewrite Ht.
        apply Ascii.eqb_neq in Hc. now rewrite Hc.
    + exists t. split; [exact Ht|]. right. exists (String c dir). reflexivity.
Qed.

Lemma path_name_dotpng (q : string) : exists t, path_name (q ++ "..png") = t ++ "..png".
Proof.
  destruct (last_component q) as (t & Ht & Hq). exists t.
  assert (Hplain : all_chars (fun c => negb (Ascii.eqb c "/")) (t ++ "..png") = true).
  { rewrite all_chars_append, Ht. reflexivity. }
  assert (Hlen : String.length (t ++ "..png") = (String.length t + 5)%nat).
  { now rewrite length_append_str. }
  assert (Hne : t ++ "..png" <> "").
  { intros H. rewrite H in Hlen. simpl in Hlen. lia. }
  assert (Hdot : t ++ "..png" <> ".").
  { intros H. rewrite H in Hlen. simpl in Hlen. lia. }
  destruct Hq as [->|(dir & ->)].
  - unfold path_name, split_slash.
    rewrite (split_slash_acc_plain "" _ Hplain), append_empty_l. simpl.
    apply String.eqb_neq in Hne, Hdot. rewrite Hne, Hdot. reflexivity.
  - rewrite append_assoc_str, append_cons.
    exact (path_name_in_dir dir (t ++ "..png") Hplain Hne Hdot).
Qed.

(** X30.  The pattern [get_labeled_image_paths] gives to [glob] for the
    images ends in two dots and [png].  When every path [glob] returns
    ends as the pattern does, every stem returned ends in a dot: an image
    named [<stem>.png] with a stem without dots is never among the
    labelled images. *)
Theorem labeled_stems_end_with_dot (E : env) (w : world) (l : list string)
    (Hglob : forall p,
        In p (glob E ((data_path E ++ "/images") ++ "/*." ++ image_format)) ->
        exists q, p = q ++ "." ++ image_format)
    (Hrun : fst (get_labeled_image_paths E w) = Ok l) :
  forall s, In s l -> (exists t, s = t ++ ".") /\ all_chars plain_char s = false.
Proof.
  intros s Hs.
  assert (Hend : exists t, s = t ++ ".").
  { unfold get_labeled_image_paths, bind, get_world, ret in Hrun. simpl in Hrun.
    injection Hrun as <-.
    rewrite <- list_elem_of_In, elem_of_remove_dups, list_elem_of_intersection in Hs.
    destruct Hs as (Himg & _). rewrite list_elem_of_In, in_map_iff in Himg.
    destruct Himg as (p & <- & Hp). destruct (Hglob p Hp) as (q & ->).
    unfold image_format, TRAIN_IMAGE_FORMAT. change ("." ++ ".png") with "..png".
    destruct (path_name_dotpng q) as (t & Hname). exists t.
    unfold path_stem. rewrite Hname, rfind_dot_dotpng, length_append_str. simpl.
    destruct (Nat.ltb_spec 0 (String.length t + 1)) as [_|]; [|lia].
    destruct (Nat.ltb_spec (String.length t + 1) (String.length t + 5 - 1)) as [_|]; [|lia].
    simpl. replace (String.length t + 1)%nat with (String.length (t ++ "."))
      by (rewrite length_append_str; reflexivity).
    change "..png" with ("." ++ ".png"). rewrite <- append_assoc_str.
    apply take_append_str. }
  split; [exact Hend|]. destruct Hend as (t & ->).
  rewrite all_chars_append. simpl. apply andb_false_r.
Qed.

Lemma labeled_stems_end_with_dot_witness :
  (exists t, "abcd." = t ++ ".") /\ all_chars plain_char "abcd." = false.
Proof.
  apply (labeled_stems_end_with_dot Scenario2.E_two_dots Scenario2.two_dots_world ["abcd."]).
  - intros p Hp. vm_compute in Hp. destruct Hp as [<-|[]].
    exists "/repo/data/images/abcd". reflexivity.
  - vm_compute. reflexivity.
  - left. reflexivity.
Defined.

End LabeledStems.
